(** * FitTrack goal tracker: access control and ownership-scoped CRUD

    A shallow embedding of the REST backend (Express controllers, the
    authentication middleware, the Mongoose schemas and the global error
    handler) together with the properties of the access-control and
    resource-ownership model.

    Conventions.
    - A JavaScript string is a [string]: a sequence of code units below 256.
    - A field of a JSON request body is a [field]: absent ([undefined]),
      [null], or a value of the JSON type the schema expects.
    - A MongoDB collection is a [list] of documents in natural order;
      [findOne] returns the first match.
    - An [ObjectId] is the number its 24 hexadecimal digits denote.
    - A [Date] is its number of milliseconds since the epoch.
    - A number is a [Double]: the bit pattern of its IEEE 754 double. *)

From Stdlib Require Import String Ascii List ZArith NArith Bool Lia.
From Stdlib Require Import Permutation Sorted.
Import ListNotations.
Local Open Scope string_scope.
Local Open Scope list_scope.

(** ** JavaScript strings *)

Module Js.

(** The code units [String.prototype.trim] removes and the regular
    expression class [\s] matches, among those below 256. *)
Definition isWhitespace (c : ascii) : bool :=
  let n := nat_of_ascii c in
  ((9 <=? n) && (n <=? 13) || (n =? 32) || (n =? 160))%nat.

Fixpoint trimStart (s : string) : string :=
  match s with
  | EmptyString => EmptyString
  | String c s' => if isWhitespace c then trimStart s' else s
  end.

Fixpoint trimEnd (s : string) : string :=
  match s with
  | EmptyString => EmptyString
  | String c s' =>
      match trimEnd s' with
      | EmptyString => if isWhitespace c then EmptyString else String c EmptyString
      | t => String c t
      end
  end.

(** [s.trim()] *)
Definition trim (s : string) : string := trimEnd (trimStart s).

Fixpoint all (p : ascii -> bool) (s : string) : bool :=
  match s with
  | EmptyString => true
  | String c s' => p c && all p s'
  end.

Definition isEmpty (s : string) : bool :=
  match s with EmptyString => true | _ => false end.

(** The code units with a lower-case counterpart, among those below 256:
    [A]-[Z], and the Latin-1 capitals 192-214 and 216-222. *)
Definition isUpper (c : ascii) : bool :=
  let n := nat_of_ascii c in
  ((65 <=? n) && (n <=? 90) || (192 <=? n) && (n <=? 214)
   || (216 <=? n) && (n <=? 222))%nat.

(** Each of them is 32 below its lower-case counterpart. *)
Definition lowerChar (c : ascii) : ascii :=
  if isUpper c then ascii_of_nat (nat_of_ascii c + 32) else c.

(** [s.toLowerCase()] *)
Fixpoint toLowerCase (s : string) : string :=
  match s with
  | EmptyString => EmptyString
  | String c s' => String (lowerChar c) (toLowerCase s')
  end.

(** [s.startsWith(p)] *)
Definition startsWith (p s : string) : bool := String.prefix p s.

(** [s.split(sep)] for a one-character separator: always at least one
    piece, empty pieces kept. *)
Fixpoint split (sep : ascii) (s : string) : list string :=
  match s with
  | EmptyString => [EmptyString]
  | String c s' =>
      if Ascii.eqb c sep then EmptyString :: split sep s'
      else match split sep s' with
           | w :: ws => String c w :: ws
           | [] => [String c EmptyString]
           end
  end.

(** [l.join(sep)] *)
Fixpoint join (sep : string) (l : list string) : string :=
  match l with
  | [] => EmptyString
  | [x] => x
  | x :: rest => (x ++ sep ++ join sep rest)%string
  end.

(** A field of a parsed JSON body (or of a decoded token payload). *)
Inductive field (A : Type) : Type :=
| Absent : field A
| Null : field A
| Val : A -> field A.
Arguments Absent {A}.
Arguments Null {A}.
Arguments Val {A} _.

(** [x !== undefined] *)
Definition defined {A} (f : field A) : bool :=
  match f with Absent => false | _ => true end.

(** [!x] for a string-typed field: [undefined], [null] and the empty
    string are falsy. *)
Definition falsy (f : field string) : bool :=
  match f with
  | Absent | Null => true
  | Val s => isEmpty s
  end.

End Js.

Import Js.

(** ** Errors and responses *)

(** A thrown JavaScript [Error]: the fields the handlers read.  [err_stack]
    stands for the stack trace, identified by the place where the error was
    constructed. *)
Record JsError : Type := mkError {
  err_statusCode : option nat;
  err_message : string;
  err_stack : string
}.

Definition ObjectId : Type := N.
Definition Date : Type := Z.
Bind Scope N_scope with ObjectId.
Bind Scope Z_scope with Date.

(** A JavaScript number, as the bit pattern of its IEEE 754 double.  The
    service stores and returns numbers; it never computes with them. *)
Definition Double : Type := N.
Bind Scope N_scope with Double.

Inductive GoalStatus : Type := Active | Completed.

(** A document of the [goals] collection (schema [goalSchemaDefinition]
    with [timestamps: true]). *)
Record Goal : Type := mkGoal {
  goal_id : ObjectId;
  goal_userId : ObjectId;
  goal_title : string;
  goal_description : option string;
  goal_status : GoalStatus;
  goal_targetDate : option Date;
  goal_createdAt : Date;
  goal_updatedAt : Date
}.

(** A document of the [progresses] collection. *)
Record Progress : Type := mkProgress {
  progress_id : ObjectId;
  progress_goalId : ObjectId;
  progress_userId : ObjectId;
  progress_date : Date;
  progress_notes : option string;
  progress_value : option Double;
  progress_createdAt : Date;
  progress_updatedAt : Date
}.

(** A document of the [users] collection; [user_password] is the hash. *)
Record User : Type := mkUser {
  user_id : ObjectId;
  user_email : string;
  user_password : string
}.

Record State : Type := mkState {
  users : list User;
  goals : list Goal;
  progresses : list Progress
}.

Definition emptyState : State := mkState [] [] [].

(** What [res.json] / [res.send] put on the wire. *)
Inductive Body : Type :=
| JsonToken (token : string)
| JsonGoal (goal : Goal)
| JsonGoals (goals : list Goal)
| JsonProgress (progress : Progress)
| JsonProgressLogs (progressLogs : list Progress)
| JsonError (message : string) (error : option string)
| NoBody.

Record Response : Type := mkResponse {
  res_status : nat;
  res_body : Body
}.

(** A handler either answers or calls [next(error)]. *)
Inductive Outcome : Type :=
| Respond (r : Response)
| Next (e : JsError).

(** What a Mongoose call throws: a [ValidationError] with its per-path
    messages, or any other error. *)
Inductive Thrown : Type :=
| ValidationError (messages : list string)
| OtherError (e : JsError).

Inductive Result (A : Type) : Type :=
| Ok (a : A)
| Throw (t : Thrown).
Arguments Ok {A} _.
Arguments Throw {A} _.

(** ** ObjectIds (bson, as shipped with Mongoose 8) *)

Definition hexDigit (c : ascii) : option N :=
  let n := N_of_ascii c in
  if ((48 <=? n) && (n <=? 57))%N then Some (n - 48)%N
  else if ((97 <=? n) && (n <=? 102))%N then Some (n - 87)%N
  else if ((65 <=? n) && (n <=? 70))%N then Some (n - 55)%N
  else None.

Fixpoint hexValue (s : string) (acc : N) : option N :=
  match s with
  | EmptyString => Some acc
  | String c s' =>
      match hexDigit c with
      | Some d => hexValue s' (16 * acc + d)%N
      | None => None
      end
  end.

(** The cast Mongoose applies to a string used where an ObjectId is
    expected: exactly 24 hexadecimal digits. *)
Definition castObjectId (s : string) : option ObjectId :=
  if (String.length s =? 24)%nat then hexValue s 0%N else None.

(** [isValidObjectId] of goal.controller.js:
    [mongoose.Types.ObjectId.isValid(id)]. *)
Definition isValidObjectId (id : string) : bool :=
  match castObjectId id with Some _ => true | None => false end.

(** ** The platform: libraries and process configuration

    [jsonwebtoken], [bcryptjs], the engine's date parser and [NODE_ENV] are
    outside the repository; the handlers are modelled over any
    implementation of them. *)

(** What [jwt.verify(token, JWT_SECRET)] does: it throws (bad signature,
    expired, malformed, ...) or returns the decoded payload, of which the
    gate reads only [userId].  A falsy or non-object payload is a payload
    without [userId]. *)
Inductive JwtResult : Type :=
| JwtThrows (message : string)
| JwtDecoded (userId : field string).

Class Platform : Type := {
  (** [NODE_ENV === 'development'] *)
  development : bool;
  (** [jwt.sign({ userId }, JWT_SECRET, { expiresIn })] at a given time *)
  jwt_sign : ObjectId -> Date -> string;
  (** [jwt.verify(token, JWT_SECRET)] at a given time *)
  jwt_verify : string -> Date -> JwtResult;
  (** [bcryptjs.hash] with a generated salt of cost 12 *)
  bcrypt_hash : string -> string;
  (** [bcryptjs.compare(candidate, hash)] *)
  bcrypt_compare : string -> string -> bool;
  (** Mongoose's cast of a non-empty JSON string to a [Date] *)
  castDate : string -> option Date
}.

(** What the environment decides for one request: the clock when the
    request is served (token verification, and the [timestamps] Mongoose
    sets when it saves or updates), the ObjectId the driver generates for a
    new document, and the clock when a new document is constructed, which a
    [default: Date.now] reads before the save reads it again. *)
Record Env : Type := mkEnv {
  now : Date;
  newId : ObjectId;
  constructed : Date
}.

Definition messagesOf {A} (c : string + A) : list string :=
  match c with inl m => [m] | inr _ => [] end.

(** The error the driver raises on a duplicate [_id] or unique index. *)
Definition duplicateKeyError : JsError :=
  mkError None "E11000 duplicate key error" "mongodb".

(** A string between double quotes, as [util.inspect] shows it in a
    message. *)
Definition quoted (s : string) : string :=
  (String "034"%char s ++ String "034"%char EmptyString)%string.

(** The [CastError] Mongoose raises when a string cannot be cast to the
    schema type [kind] of [path].  (For a failed cast of a query filter
    Mongoose extends the message with the model; the service reads the
    message only of a failed [Date] cast.) *)
Definition castError (kind path value : string) : JsError :=
  mkError None
          ("Cast to " ++ kind ++ " failed for value " ++ quoted value
           ++ " (type string) at path " ++ quoted path)%string
          "mongoose".

Section Backend.

Context {P : Platform}.

(** ** server.js: the global error handler *)

Definition errorHandler (err : JsError) : Response :=
  let statusCode :=
    match err_statusCode err with
    | Some c => if (c =? 0)%nat then 500%nat else c
    | None => 500%nat
    end in
  mkResponse statusCode
    (JsonError
       (if isEmpty (err_message err) then "Internal Server Error" else err_message err)
       (if development then Some (err_stack err) else None)).

(** Express: an answer goes out as it is, [next(error)] reaches the global
    error handler. *)
Definition settle (o : Outcome) : Response :=
  match o with
  | Respond r => r
  | Next e => errorHandler e
  end.

(** ** Goal.model.js *)

(** The object handed to [Goal.create]. *)
Record GoalData : Type := mkGoalData {
  gd_userId : ObjectId;
  gd_title : field string;
  gd_description : field string;
  gd_status : field string;
  gd_targetDate : field string
}.

(** [title]: [trim] setter, then [required], then [maxlength 150]. *)
Definition checkTitle (f : field string) : string + string :=
  match f with
  | Absent | Null => inl "Goal title cannot be empty"
  | Val s =>
      let t := trim s in
      if isEmpty t then inl "Goal title cannot be empty"
      else if (150 <? String.length t)%nat then inl "Goal title cannot exceed 150 characters"
      else inr t
  end.

(** [description]: [trim] setter, then [maxlength 500]; optional. *)
Definition checkDescription (f : field string) : string + option string :=
  match f with
  | Absent | Null => inr None
  | Val s =>
      let t := trim s in
      if (500 <? String.length t)%nat then inl "Goal description cannot exceed 500 characters"
      else inr (Some t)
  end.

Definition parseStatus (s : string) : string + GoalStatus :=
  if isEmpty s then inl "Path `status` is required."
  else if String.eqb s "active" then inr Active
  else if String.eqb s "completed" then inr Completed
  else inl (s ++ " is not a supported goal status. Please use 'active' or 'completed'.")%string.

(** [status] of a new document: [default: 'active'] fills an undefined
    value only. *)
Definition checkStatusOnCreate (f : field string) : string + GoalStatus :=
  match f with
  | Absent => inr Active
  | Null => inl "Path `status` is required."
  | Val s => parseStatus s
  end.

(** [status] in a [$set]: update validators see only the supplied value. *)
Definition checkStatusOnUpdate (f : field string) : string + GoalStatus :=
  match f with
  | Absent | Null => inl "Path `status` is required."
  | Val s => parseStatus s
  end.

(** A [Date] path: [null] and the empty string cast to [null]; the cast
    runs when the value is set, before any validator. *)
Definition castDateField (path : string) (f : field string) : JsError + option Date :=
  match f with
  | Absent | Null => inr None
  | Val s =>
      if isEmpty s then inr None
      else match castDate s with
           | Some d => inr (Some d)
           | None => inl (castError "date" path s)
           end
  end.

Definition checkTargetDate (f : field string) : string + option Date :=
  match castDateField "targetDate" f with
  | inr d => inr d
  | inl e => inl (err_message e)
  end.

(** Document validation of [Goal.create]: every failing path contributes
    one message, a failed cast (recorded when the document is constructed)
    before the validators' messages, which come in schema order. *)
Definition validateGoal (env : Env) (data : GoalData) : list string + Goal :=
  let t := checkTitle (gd_title data) in
  let d := checkDescription (gd_description data) in
  let s := checkStatusOnCreate (gd_status data) in
  let td := checkTargetDate (gd_targetDate data) in
  match t, d, s, td with
  | inr title, inr description, inr status, inr targetDate =>
      inr (mkGoal (newId env) (gd_userId data) title description status targetDate
                  (now env) (now env))
  | _, _, _, _ => inl (messagesOf td ++ messagesOf t ++ messagesOf d ++ messagesOf s)
  end.

(** [Goal.create(goalData)] *)
Definition Goal_create (env : Env) (data : GoalData) (gs : list Goal)
  : list Goal * Result Goal :=
  match validateGoal env data with
  | inl messages => (gs, Throw (ValidationError messages))
  | inr g =>
      if existsb (fun g' => N.eqb (goal_id g') (goal_id g)) gs
      then (gs, Throw (OtherError duplicateKeyError))
      else (gs ++ [g], Ok g)
  end.

(** The filter [{ _id: id, userId }]. *)
Definition ownedGoal (id userId : ObjectId) (g : Goal) : bool :=
  N.eqb (goal_id g) id && N.eqb (goal_userId g) userId.

(** [Goal.findOne({ _id: id, userId })] *)
Definition Goal_findOne (id userId : ObjectId) (gs : list Goal) : option Goal :=
  find (ownedGoal id userId) gs.

(** The order of [sort({ createdAt: -1 })]: newest first. *)
Definition newerGoal (a b : Goal) : bool := (goal_createdAt b <=? goal_createdAt a)%Z.

(** The [$set] document built by [updateGoal]; [Absent] is a key that is
    not set. *)
Record UpdateData : Type := mkUpdateData {
  upd_title : field string;
  upd_description : field string;
  upd_status : field string;
  upd_targetDate : field string
}.

(** [Object.keys(updateData).length] *)
Definition updateKeys (u : UpdateData) : nat :=
  (if defined (upd_title u) then 1 else 0) +
  (if defined (upd_description u) then 1 else 0) +
  (if defined (upd_status u) then 1 else 0) +
  (if defined (upd_targetDate u) then 1 else 0).

(** The update after casting and update validation ([runValidators]):
    for each path, [None] when it is not set, else its new value. *)
Record CastUpdate : Type := mkCastUpdate {
  set_title : option string;
  set_description : option (option string);
  set_status : option GoalStatus;
  set_targetDate : option (option Date)
}.

Definition onSupplied {A B} (f : field A) (check : field A -> string + B)
  : string + option B :=
  if defined f
  then match check f with inr b => inr (Some b) | inl m => inl m end
  else inr None.

Definition validateUpdate (u : UpdateData) : Thrown + CastUpdate :=
  match (if defined (upd_targetDate u)
         then match castDateField "targetDate" (upd_targetDate u) with
              | inr d => inr (Some d)
              | inl e => inl e
              end
         else inr None) with
  | inl e => inl (OtherError e)
  | inr td =>
      let t := onSupplied (upd_title u) checkTitle in
      let d := onSupplied (upd_description u) checkDescription in
      let s := onSupplied (upd_status u) checkStatusOnUpdate in
      match t, d, s with
      | inr title, inr description, inr status =>
          inr (mkCastUpdate title description status td)
      | _, _, _ => inl (ValidationError (messagesOf t ++ messagesOf d ++ messagesOf s))
      end
  end.

Definition orKeep {A} (new : option A) (old : A) : A :=
  match new with Some a => a | None => old end.

(** [$set] on one document; [timestamps] refreshes [updatedAt]. *)
Definition applyUpdate (env : Env) (c : CastUpdate) (g : Goal) : Goal :=
  mkGoal (goal_id g) (goal_userId g)
         (orKeep (set_title c) (goal_title g))
         (orKeep (set_description c) (goal_description g))
         (orKeep (set_status c) (goal_status g))
         (orKeep (set_targetDate c) (goal_targetDate g))
         (goal_createdAt g) (now env).

(** Replace the first document matching the filter. *)
Fixpoint updateFirst (p : Goal -> bool) (f : Goal -> Goal) (gs : list Goal) : list Goal :=
  match gs with
  | [] => []
  | g :: rest => if p g then f g :: rest else g :: updateFirst p f rest
  end.

(** [Goal.findOneAndUpdate({ _id: id, userId }, { $set: updateData },
    { new: true, runValidators: true })]: the update is cast and validated
    before the collection is queried. *)
Definition Goal_findOneAndUpdate (env : Env) (id userId : ObjectId) (u : UpdateData)
  (gs : list Goal) : list Goal * Result (option Goal) :=
  match validateUpdate u with
  | inl t => (gs, Throw t)
  | inr c =>
      match Goal_findOne id userId gs with
      | None => (gs, Ok None)
      | Some g =>
          (updateFirst (ownedGoal id userId) (applyUpdate env c) gs,
           Ok (Some (applyUpdate env c g)))
      end
  end.

(** Remove the first document matching the filter. *)
Fixpoint removeFirst (p : Goal -> bool) (gs : list Goal) : list Goal :=
  match gs with
  | [] => []
  | g :: rest => if p g then rest else g :: removeFirst p rest
  end.

(** [Goal.findOneAndDelete({ _id: id, userId })] *)
Definition Goal_findOneAndDelete (id userId : ObjectId) (gs : list Goal)
  : list Goal * option Goal :=
  match Goal_findOne id userId gs with
  | None => (gs, None)
  | Some g => (removeFirst (ownedGoal id userId) gs, Some g)
  end.

(** ** Progress.model.js *)

(** The object handed to [Progress.create]. *)
Record ProgressData : Type := mkProgressData {
  pd_userId : ObjectId;
  pd_goalId : ObjectId;
  pd_date : field string;
  pd_notes : field string;
  pd_value : field Double
}.

(** [date]: [default: Date.now] fills an undefined value only, when the
    document is constructed; [required]. *)
Definition checkDate (env : Env) (f : field string) : string + Date :=
  match f with
  | Absent => inr (constructed env)
  | _ =>
      match castDateField "date" f with
      | inr (Some d) => inr d
      | inr None => inl "Progress entry date cannot be empty"
      | inl e => inl (err_message e)
      end
  end.

(** [notes]: [trim] setter, then [maxlength 500]; optional. *)
Definition checkNotes (f : field string) : string + option string :=
  match f with
  | Absent | Null => inr None
  | Val s =>
      let t := trim s in
      if (500 <? String.length t)%nat then inl "Progress notes cannot exceed 500 characters"
      else inr (Some t)
  end.

(** [value]: an optional [Number], stored as it is. *)
Definition checkValue (f : field Double) : option Double :=
  match f with
  | Val v => Some v
  | _ => None
  end.

(** Document validation of [Progress.create]; [timestamps] are set at the
    save. *)
Definition validateProgress (env : Env) (data : ProgressData) : list string + Progress :=
  let d := checkDate env (pd_date data) in
  let n := checkNotes (pd_notes data) in
  match d, n with
  | inr date, inr notes =>
      inr (mkProgress (newId env) (pd_goalId data) (pd_userId data) date notes
                      (checkValue (pd_value data)) (now env) (now env))
  | _, _ => inl (messagesOf d ++ messagesOf n)
  end.

(** [Progress.create(progressData)] *)
Definition Progress_create (env : Env) (data : ProgressData) (ps : list Progress)
  : list Progress * Result Progress :=
  match validateProgress env data with
  | inl messages => (ps, Throw (ValidationError messages))
  | inr p =>
      if existsb (fun p' => N.eqb (progress_id p') (progress_id p)) ps
      then (ps, Throw (OtherError duplicateKeyError))
      else (ps ++ [p], Ok p)
  end.

(** The filter [{ goalId, userId }]. *)
Definition progressOf (goalId userId : ObjectId) (p : Progress) : bool :=
  N.eqb (progress_goalId p) goalId && N.eqb (progress_userId p) userId.

(** [Progress.deleteMany({ goalId: id, userId })] *)
Definition Progress_deleteMany (goalId userId : ObjectId) (ps : list Progress)
  : list Progress :=
  filter (fun p => negb (progressOf goalId userId p)) ps.

(** The order of [sort({ date: -1, createdAt: -1 })]: later entry date
    first, and among equal entry dates later creation first. *)
Definition progressBefore (a b : Progress) : bool :=
  (progress_date b <? progress_date a)%Z
  || ((progress_date a =? progress_date b)%Z
      && (progress_createdAt b <=? progress_createdAt a)%Z).

(** A cursor sort, as a stable insertion sort. *)
Fixpoint insertSorted {A} (before : A -> A -> bool) (x : A) (l : list A) : list A :=
  match l with
  | [] => [x]
  | y :: rest => if before x y then x :: l else y :: insertSorted before x rest
  end.

Fixpoint sortBy {A} (before : A -> A -> bool) (l : list A) : list A :=
  match l with
  | [] => []
  | x :: rest => insertSorted before x (sortBy before rest)
  end.

(** [Progress.find({ goalId, userId }).sort({ date: -1, createdAt: -1 })] *)
Definition Progress_find_sorted (goalId userId : ObjectId) (ps : list Progress)
  : list Progress :=
  sortBy progressBefore (filter (progressOf goalId userId) ps).

(** [Goal.find({ userId }).sort({ createdAt: -1 })] *)
Definition Goal_find_sorted (userId : ObjectId) (gs : list Goal) : list Goal :=
  sortBy newerGoal (filter (fun g => N.eqb (goal_userId g) userId) gs).

(** ** User.model.js *)

(** The regular expression [/^\S+@\S+\.\S+$/]. *)
Fixpoint dotInside (s : string) : bool :=
  match s with
  | String c (String _ _ as rest) => Ascii.eqb c "."%char || dotInside rest
  | _ => false
  end.

Definition hostPart (s : string) : bool :=
  match s with
  | String _ rest => dotInside rest
  | EmptyString => false
  end.

Fixpoint atInside (s : string) : bool :=
  match s with
  | String c rest => (Ascii.eqb c "@"%char && hostPart rest) || atInside rest
  | EmptyString => false
  end.

Definition matchesEmail (s : string) : bool :=
  all (fun c => negb (isWhitespace c)) s
  && match s with
     | String _ rest => atInside rest
     | EmptyString => false
     end.

(** The setters of the [email] path: [lowercase] and [trim]; Mongoose
    applies them to documents and to query filters alike. *)
Definition emailSetters (s : string) : string := trim (toLowerCase s).

Definition checkEmail (s : string) : string + string :=
  let e := emailSetters s in
  if isEmpty e then inl "Email is required"
  else if matchesEmail e then inr e
  else inl "Please provide a valid email address".

Definition checkPassword (s : string) : string + string :=
  if isEmpty s then inl "Password is required"
  else if (String.length s <? 8)%nat then inl "Password must be at least 8 characters long"
  else inr s.

(** [User.findOne({ email })] (with or without [select('+password')]). *)
Definition User_findOne (email : string) (us : list User) : option User :=
  find (fun u => String.eqb (user_email u) (emailSetters email)) us.

(** [User.findById(id)] *)
Definition User_findById (id : ObjectId) (us : list User) : option User :=
  find (fun u => N.eqb (user_id u) id) us.

(** [User.create({ email, password })]: validation, then the pre-save hook
    that hashes the password, then the insert under the unique indexes. *)
Definition User_create (env : Env) (email password : string) (us : list User)
  : list User * Result User :=
  let e := checkEmail email in
  let p := checkPassword password in
  match e, p with
  | inr e', inr p' =>
      let u := mkUser (newId env) e' (bcrypt_hash p') in
      if existsb (fun u' => N.eqb (user_id u') (user_id u)
                            || String.eqb (user_email u') (user_email u)) us
      then (us, Throw (OtherError duplicateKeyError))
      else (us ++ [u], Ok u)
  | _, _ => (us, Throw (ValidationError (messagesOf e ++ messagesOf p)))
  end.

(** [userSchema.methods.comparePassword] *)
Definition comparePassword (u : User) (candidatePassword : string) : bool :=
  bcrypt_compare candidatePassword (user_password u).

(** ** auth.middleware.js *)

(** Step 1 of [protect]: the token is the second piece of the header split
    on spaces, when the header starts with ["Bearer "]. *)
Definition extractToken (authorization : option string) : option string :=
  match authorization with
  | Some h =>
      if negb (isEmpty h) && startsWith "Bearer " h
      then nth_error (split " "%char h) 1
      else None
  | None => None
  end.

(** The body of the [try] block of [protect]: the ObjectId to attach to
    the request, or the message of what was thrown.  [req.user.id] is the
    [userId] string of the payload; every later use casts it to the
    ObjectId [User.findById] has just cast it to. *)
Definition verifyToken (env : Env) (token : string) (us : list User)
  : string + ObjectId :=
  match jwt_verify token (now env) with
  | JwtThrows message => inl message
  | JwtDecoded userId =>
      match userId with
      | Val s =>
          if isEmpty s then inl "Invalid token payload"
          else match castObjectId s with
               | None => inl (err_message (castError "ObjectId" "_id" s))
               | Some id =>
                   match User_findById id us with
                   | None => inl "User belonging to this token no longer exists"
                   | Some _ => inr id
                   end
               end
      | _ => inl "Invalid token payload"
      end
  end.

Inductive Gate : Type :=
| Attach (userId : ObjectId)
| Reject (e : JsError).

Definition noTokenError : JsError :=
  mkError (Some 401%nat) "Not authorized, no token" "auth.middleware.js:41".

Definition authError : JsError :=
  mkError (Some 401%nat) "Not authorized, token failed" "auth.middleware.js:77".

(** [protect]: [Attach] is [req.user = { id }; next()], [Reject] is
    [next(error)]. *)
Definition protect (env : Env) (authorization : option string) (st : State) : Gate :=
  match extractToken authorization with
  | None => Reject noTokenError
  | Some token =>
      if isEmpty token then Reject noTokenError
      else match verifyToken env token (users st) with
           | inr id => Attach id
           | inl _ => Reject authError
           end
  end.

(** ** auth.controller.js *)

(** The body [{ email, password }]. *)
Record Credentials : Type := mkCredentials {
  cred_email : field string;
  cred_password : field string
}.

Definition valueOf (f : field string) : string :=
  match f with Val s => s | _ => EmptyString end.

Definition generateToken (env : Env) (userId : ObjectId) : string :=
  jwt_sign userId (now env).

(** [handleValidationError], and the same formatting inlined in
    [registerUser]. *)
Definition formatValidationError (site : string) (messages : list string) : JsError :=
  mkError (Some 400%nat) ("Validation Failed: " ++ join ", " messages)%string site.

Definition withUsers (st : State) (us : list User) : State :=
  mkState us (goals st) (progresses st).

Definition withGoals (st : State) (gs : list Goal) : State :=
  mkState (users st) gs (progresses st).

Definition withProgresses (st : State) (ps : list Progress) : State :=
  mkState (users st) (goals st) ps.

Definition registerUser (env : Env) (body : Credentials) (st : State) : State * Outcome :=
  if falsy (cred_email body) || falsy (cred_password body)
  then (st, Next (mkError (Some 400%nat) "Email and password are required."
                          "auth.controller.js:55"))
  else
    let lowerCaseEmail := toLowerCase (valueOf (cred_email body)) in
    match User_findOne lowerCaseEmail (users st) with
    | Some _ =>
        (st, Next (mkError (Some 409%nat) "Email already in use." "auth.controller.js:66"))
    | None =>
        match User_create env lowerCaseEmail (valueOf (cred_password body)) (users st) with
        | (us, Ok newUser) =>
            (withUsers st us,
             Respond (mkResponse 201 (JsonToken (generateToken env (user_id newUser)))))
        | (_, Throw (ValidationError messages)) =>
            (st, Next (formatValidationError "auth.controller.js:90" messages))
        | (_, Throw (OtherError e)) => (st, Next e)
        end
    end.

Definition loginUser (env : Env) (body : Credentials) (st : State) : State * Outcome :=
  if falsy (cred_email body) || falsy (cred_password body)
  then (st, Next (mkError (Some 400%nat) "Email and password are required."
                          "auth.controller.js:115"))
  else
    let lowerCaseEmail := toLowerCase (valueOf (cred_email body)) in
    match User_findOne lowerCaseEmail (users st) with
    | None =>
        (st, Next (mkError (Some 401%nat) "Invalid credentials." "auth.controller.js:130"))
    | Some user =>
        if negb (comparePassword user (valueOf (cred_password body)))
        then (st, Next (mkError (Some 401%nat) "Invalid credentials."
                                "auth.controller.js:141"))
        else (st, Respond (mkResponse 200 (JsonToken (generateToken env (user_id user)))))
    end.

(** ** goal.controller.js *)

(** The body [{ title, description, status, targetDate }]. *)
Record GoalBody : Type := mkGoalBody {
  body_title : field string;
  body_description : field string;
  body_status : field string;
  body_targetDate : field string
}.

(** The body [{ date, notes, value }]. *)
Record ProgressBody : Type := mkProgressBody {
  body_date : field string;
  body_notes : field string;
  body_value : field Double
}.

Definition handleValidationError (messages : list string) : JsError :=
  formatValidationError "goal.controller.js:21" messages.

Definition invalidIdError (site : string) : JsError :=
  mkError (Some 400%nat) "Invalid Goal ID format." site.

(** A path parameter that passed [isValidObjectId] is cast by every query
    that uses it; a failing cast is a [CastError] passed to [next]. *)
Definition withObjectId (site : string) (id : string) (st : State)
  (k : ObjectId -> State * Outcome) : State * Outcome :=
  if negb (isValidObjectId id) then (st, Next (invalidIdError site))
  else match castObjectId id with
       | Some oid => k oid
       | None => (st, Next (castError "ObjectId" "_id" id))
       end.

Definition createGoal (env : Env) (userId : ObjectId) (body : GoalBody) (st : State)
  : State * Outcome :=
  if falsy (body_title body)
  then (st, Next (mkError (Some 400%nat) "Goal title is required." "goal.controller.js:39"))
  else
    let goalData := mkGoalData userId (body_title body) (body_description body)
                               (body_status body) (body_targetDate body) in
    match Goal_create env goalData (goals st) with
    | (gs, Ok newGoal) => (withGoals st gs, Respond (mkResponse 201 (JsonGoal newGoal)))
    | (_, Throw (ValidationError messages)) => (st, Next (handleValidationError messages))
    | (_, Throw (OtherError e)) => (st, Next e)
    end.

Definition getGoals (userId : ObjectId) (st : State) : State * Outcome :=
  (st, Respond (mkResponse 200 (JsonGoals (Goal_find_sorted userId (goals st))))).

Definition getGoalById (userId : ObjectId) (id : string) (st : State) : State * Outcome :=
  withObjectId "goal.controller.js:98" id st (fun oid =>
    match Goal_findOne oid userId (goals st) with
    | None => (st, Next (mkError (Some 404%nat) "Goal not found." "goal.controller.js:107"))
    | Some foundGoal => (st, Respond (mkResponse 200 (JsonGoal foundGoal)))
    end).

(** [typeof title === 'string' && title.trim() === ''] *)
Definition blankTitle (title : field string) : bool :=
  match title with
  | Val s => isEmpty (trim s)
  | _ => false
  end.

Definition updateGoal (env : Env) (userId : ObjectId) (id : string) (body : GoalBody)
  (st : State) : State * Outcome :=
  withObjectId "goal.controller.js:133" id st (fun oid =>
    if defined (body_title body) && blankTitle (body_title body)
    then (st, Next (mkError (Some 400%nat) "Goal title cannot be empty."
                            "goal.controller.js:143"))
    else
      let updateData := mkUpdateData (body_title body) (body_description body)
                                     (body_status body) (body_targetDate body) in
      if (updateKeys updateData =? 0)%nat
      then (st, Next (mkError (Some 400%nat) "No update fields provided."
                              "goal.controller.js:155"))
      else
        match Goal_findOneAndUpdate env oid userId updateData (goals st) with
        | (_, Ok None) =>
            (st, Next (mkError (Some 404%nat) "Goal not found." "goal.controller.js:168"))
        | (gs, Ok (Some updatedGoal)) =>
            (withGoals st gs, Respond (mkResponse 200 (JsonGoal updatedGoal)))
        | (_, Throw (ValidationError messages)) =>
            (st, Next (handleValidationError messages))
        | (_, Throw (OtherError e)) => (st, Next e)
        end).

Definition deleteGoal (userId : ObjectId) (id : string) (st : State) : State * Outcome :=
  withObjectId "goal.controller.js:197" id st (fun oid =>
    match Goal_findOneAndDelete oid userId (goals st) with
    | (_, None) =>
        (st, Next (mkError (Some 404%nat) "Goal not found." "goal.controller.js:207"))
    | (gs, Some _) =>
        (mkState (users st) gs (Progress_deleteMany oid userId (progresses st)),
         Respond (mkResponse 204 NoBody))
    end).

Definition logProgress (env : Env) (userId : ObjectId) (goalId : string)
  (body : ProgressBody) (st : State) : State * Outcome :=
  withObjectId "goal.controller.js:239" goalId st (fun oid =>
    match Goal_findOne oid userId (goals st) with
    | None =>
        (st, Next (mkError (Some 404%nat) "Target goal not found." "goal.controller.js:247"))
    | Some _ =>
        let progressData := mkProgressData userId oid (body_date body) (body_notes body)
                                           (body_value body) in
        match Progress_create env progressData (progresses st) with
        | (ps, Ok newProgressLog) =>
            (withProgresses st ps, Respond (mkResponse 201 (JsonProgress newProgressLog)))
        | (_, Throw (ValidationError messages)) =>
            (st, Next (handleValidationError messages))
        | (_, Throw (OtherError e)) => (st, Next e)
        end
    end).

Definition getGoalProgress (userId : ObjectId) (goalId : string) (st : State)
  : State * Outcome :=
  withObjectId "goal.controller.js:287" goalId st (fun oid =>
    match Goal_findOne oid userId (goals st) with
    | None =>
        (st, Next (mkError (Some 404%nat) "Target goal not found." "goal.controller.js:295"))
    | Some _ =>
        (st, Respond (mkResponse 200
                        (JsonProgressLogs (Progress_find_sorted oid userId (progresses st)))))
    end).

(** ** api.routes.js *)

Inductive Request : Type :=
| POST_auth_register (body : Credentials)
| POST_auth_login (body : Credentials)
| POST_goals (authorization : option string) (body : GoalBody)
| GET_goals (authorization : option string)
| GET_goals_id (authorization : option string) (id : string)
| PUT_goals_id (authorization : option string) (id : string) (body : GoalBody)
| DELETE_goals_id (authorization : option string) (id : string)
| POST_goals_progress (authorization : option string) (goalId : string) (body : ProgressBody)
| GET_goals_progress (authorization : option string) (goalId : string).

Definition Controller : Type := State -> State * Outcome.

(** A public route: the controller alone. *)
Definition unguarded (controller : Controller) (st : State) : State * Response :=
  let (st', o) := controller st in (st', settle o).

(** A protected route [router.x(path, protect, controller)]: the
    controller runs only when the gate called [next()] without an error. *)
Definition guarded (env : Env) (authorization : option string)
  (controller : ObjectId -> Controller) (st : State) : State * Response :=
  match protect env authorization st with
  | Reject e => (st, errorHandler e)
  | Attach userId => unguarded (controller userId) st
  end.

Definition handle (env : Env) (req : Request) (st : State) : State * Response :=
  match req with
  | POST_auth_register body => unguarded (registerUser env body) st
  | POST_auth_login body => unguarded (loginUser env body) st
  | POST_goals a body => guarded env a (fun u => createGoal env u body) st
  | GET_goals a => guarded env a getGoals st
  | GET_goals_id a id => guarded env a (fun u => getGoalById u id) st
  | PUT_goals_id a id body => guarded env a (fun u => updateGoal env u id body) st
  | DELETE_goals_id a id => guarded env a (fun u => deleteGoal u id) st
  | POST_goals_progress a goalId body => guarded env a (fun u => logProgress env u goalId body) st
  | GET_goals_progress a goalId => guarded env a (fun u => getGoalProgress u goalId) st
  end.

(** The states the service can be in: the empty database, and whatever a
    request leaves behind. *)
Inductive Reachable : State -> Prop :=
| Reachable_empty : Reachable emptyState
| Reachable_step env req st : Reachable st -> Reachable (fst (handle env req st)).

End Backend.

(** ** Vocabulary of the properties *)

(** The database invariant: documents of a collection have distinct
    [_id]s, and every progress entry references a stored goal owned by the
    entry's own account. *)
Definition Invariant (st : State) : Prop :=
  NoDup (map goal_id (goals st)) /\
  NoDup (map progress_id (progresses st)) /\
  forall p, In p (progresses st) ->
    exists g, In g (goals st) /\
              goal_id g = progress_goalId p /\ goal_userId g = progress_userId p.

(** What one request can do to the goals and the progress entries. *)
Inductive Effect {P : Platform} (env : Env) (st st' : State) : Prop :=
| Effect_none :
    goals st' = goals st -> progresses st' = progresses st -> Effect env st st'
| Effect_goal_created g :
    goals st' = goals st ++ [g] -> progresses st' = progresses st ->
    (forall g0, In g0 (goals st) -> goal_id g0 <> goal_id g) ->
    Effect env st st'
| Effect_goal_updated id u c :
    goals st' = updateFirst (ownedGoal id u) (applyUpdate env c) (goals st) ->
    progresses st' = progresses st ->
    Effect env st st'
| Effect_goal_deleted id u :
    goals st' = removeFirst (ownedGoal id u) (goals st) ->
    progresses st' = Progress_deleteMany id u (progresses st) ->
    Effect env st st'
| Effect_progress_logged g p :
    goals st' = goals st -> progresses st' = progresses st ++ [p] ->
    In g (goals st) ->
    goal_id g = progress_goalId p -> goal_userId g = progress_userId p ->
    (forall q, In q (progresses st) -> progress_id q <> progress_id p) ->
    Effect env st st'.

(** The same database without any goal of the given id. *)
Definition forgetGoal (id : ObjectId) (st : State) : State :=
  withGoals st (filter (fun g => negb (N.eqb (goal_id g) id)) (goals st)).

(** The order [sort({ date: -1, createdAt: -1 })] asks for. *)
Definition dateDescThenCreatedDesc (a b : Progress) : Prop :=
  (progress_date a > progress_date b)%Z \/
  (progress_date a = progress_date b /\ (progress_createdAt a >= progress_createdAt b)%Z).


(** The [Authorization] header a route hands to [protect]; [None] for the
    two public routes. *)
Definition authorizationOf (req : Request) : option (option string) :=
  match req with
  | POST_auth_register _ | POST_auth_login _ => None
  | POST_goals a _ | GET_goals a | GET_goals_id a _ | PUT_goals_id a _ _
  | DELETE_goals_id a _ | POST_goals_progress a _ _ | GET_goals_progress a _ => Some a
  end.

(** A word without a space in it. *)
Definition spaceless (s : string) : Prop :=
  all (fun c => negb (Ascii.eqb c " "%char)) s = true.

(** The reasons for which the [try] block of [protect] throws. *)
Inductive VerificationFails {P : Platform} (env : Env) (token : string) (us : list User)
  : Prop :=
| Fails_verify message :
    jwt_verify token (now env) = JwtThrows message -> VerificationFails env token us
| Fails_payload userId :
    jwt_verify token (now env) = JwtDecoded userId -> falsy userId = true ->
    VerificationFails env token us
| Fails_malformed_id s :
    jwt_verify token (now env) = JwtDecoded (Val s) -> castObjectId s = None ->
    VerificationFails env token us
| Fails_no_account s id :
    jwt_verify token (now env) = JwtDecoded (Val s) -> castObjectId s = Some id ->
    (forall u, In u us -> user_id u <> id) ->
    VerificationFails env token us.

(** The values the schema accepts for each updatable path. *)
Definition validTitle (s : string) : Prop :=
  trim s <> EmptyString /\ String.length (trim s) <= 150.

Definition validDescription (s : string) : Prop := String.length (trim s) <= 500.

Definition validStatus (s : string) : Prop := s = "active" \/ s = "completed".

Definition validTargetDate {P : Platform} (s : string) : Prop :=
  s = EmptyString \/ exists d, castDate s = Some d.

(** A required path accepts a valid value; an optional one also [null]. *)
Definition suppliedRequired (valid : string -> Prop) (f : field string) : Prop :=
  match f with
  | Absent => True
  | Null => False
  | Val s => valid s
  end.

Definition suppliedOptional (valid : string -> Prop) (f : field string) : Prop :=
  match f with
  | Absent | Null => True
  | Val s => valid s
  end.

Definition validUpdateBody {P : Platform} (body : GoalBody) : Prop :=
  suppliedRequired validTitle (body_title body) /\
  suppliedOptional validDescription (body_description body) /\
  suppliedRequired validStatus (body_status body) /\
  suppliedOptional validTargetDate (body_targetDate body).

(** The body carries at least one of the four keys. *)
Definition suppliesSomething (body : GoalBody) : Prop :=
  body_title body <> Absent \/ body_description body <> Absent \/
  body_status body <> Absent \/ body_targetDate body <> Absent.

(** A title made of whitespace only (the empty title included). *)
Definition whitespaceOnly (s : string) : Prop := all isWhitespace s = true.

(** The status as JSON shows it. *)
Definition statusName (x : GoalStatus) : string :=
  match x with Active => "active" | Completed => "completed" end.

(** What an update with a valid body makes of a goal.  A supplied title or
    description is stored trimmed, a supplied status as it is, a supplied
    target date as the date it parses to; [null] (and, for the target date,
    the empty string) clears an optional field; a field the body does not
    supply keeps its value.  Identity, owner and creation time are kept,
    and [updatedAt] is the time of the update. *)
Definition updatedBy {P : Platform} (env : Env) (body : GoalBody) (old new : Goal) : Prop :=
  goal_id new = goal_id old /\ goal_userId new = goal_userId old /\
  match body_title body with
  | Val t => goal_title new = trim t
  | _ => goal_title new = goal_title old
  end /\
  match body_description body with
  | Absent => goal_description new = goal_description old
  | Null => goal_description new = None
  | Val d => goal_description new = Some (trim d)
  end /\
  match body_status body with
  | Val s => statusName (goal_status new) = s
  | _ => goal_status new = goal_status old
  end /\
  match body_targetDate body with
  | Absent => goal_targetDate new = goal_targetDate old
  | Null => goal_targetDate new = None
  | Val x => goal_targetDate new = if isEmpty x then None else castDate x
  end /\
  goal_createdAt new = goal_createdAt old /\
  goal_updatedAt new = now env.

(** Both credentials are present: neither [!email] nor [!password]. *)
Definition credentialsPresent (body : Credentials) : Prop :=
  falsy (cred_email body) = false /\ falsy (cred_password body) = false.

(** The account [loginUser] looks up for a body. *)
Definition lookupAccount {P : Platform} (body : Credentials) (st : State) : option User :=
  User_findOne (toLowerCase (valueOf (cred_email body))) (users st).

(** The shape of a JSON error body: whether it carries the [error] key
    besides [message]. *)
Definition errorShape (b : Body) : option bool :=
  match b with
  | JsonError _ (Some _) => Some true
  | JsonError _ None => Some false
  | _ => None
  end.

Definition errorMessage (b : Body) : option string :=
  match b with
  | JsonError m _ => Some m
  | _ => None
  end.

(** ** A concrete platform and a concrete history *)

Module Demo.

Definition idA : ObjectId := 1%N.
Definition idB : ObjectId := 2%N.
Definition idGoal : ObjectId := 16%N.

Definition hexA : string := "000000000000000000000001".
Definition hexB : string := "000000000000000000000002".
Definition hexGoal : string := "000000000000000000000010".
Definition hexNobody : string := "0000000000000000000000ff".

(** A toy signer: the token of an account spells its ObjectId; the token
    ["expired"] is one whose expiry has passed. *)
Definition sign (id : ObjectId) (_ : Date) : string :=
  if N.eqb id idA then "token-A"
  else if N.eqb id idB then "token-B"
  else "token-other".

Definition verify (token : string) (_ : Date) : JwtResult :=
  if String.eqb token "token-A" then JwtDecoded (Val hexA)
  else if String.eqb token "token-B" then JwtDecoded (Val hexB)
  else if String.eqb token "token-nobody" then JwtDecoded (Val hexNobody)
  else if String.eqb token "token-empty-payload" then JwtDecoded Absent
  else if String.eqb token "token-malformed-id" then JwtDecoded (Val "not-an-object-id")
  else if String.eqb token "expired" then JwtThrows "jwt expired"
  else JwtThrows "invalid signature".

Definition hash (password : string) : string := ("hashed:" ++ password)%string.

Definition parseDate (s : string) : option Date :=
  if String.eqb s "2025-01-01T00:00:00.000Z" then Some 1735689600000%Z
  else if String.eqb s "2025-06-01T00:00:00.000Z" then Some 1748736000000%Z
  else None.

#[local] Instance platform : Platform := {|
  development := true;
  jwt_sign := sign;
  jwt_verify := verify;
  bcrypt_hash := hash;
  bcrypt_compare := fun candidate h => String.eqb (hash candidate) h;
  castDate := parseDate
|}.

Definition onlyTitle (t : string) : GoalBody := mkGoalBody (Val t) Absent Absent Absent.
Definition onlyStatus (s : string) : GoalBody := mkGoalBody Absent Absent (Val s) Absent.
Definition emptyBody : GoalBody := mkGoalBody Absent Absent Absent Absent.

Definition creds (email password : string) : Credentials :=
  mkCredentials (Val email) (Val password).

(** The numbers 3 and 5, as doubles. *)
Definition three : Double := 0x4008000000000000.
Definition five : Double := 0x4014000000000000.

(** Accounts A and B register, A creates the goal "Run 5k" and logs three
    progress entries on it. *)
Definition history : list (Env * Request) :=
  [ (mkEnv 1000 idA 999, POST_auth_register (creds "A@x.com" "password1"));
    (mkEnv 2000 idB 1999, POST_auth_register (creds "b@x.com" "password2"));
    (mkEnv 3000 idGoal 2999, POST_goals (Some "Bearer token-A") (onlyTitle "Run 5k"));
    (mkEnv 4000 32 3999, POST_goals_progress (Some "Bearer token-A") hexGoal
                      (mkProgressBody (Val "2025-01-01T00:00:00.000Z") Absent (Val three)));
    (mkEnv 5000 33 4999, POST_goals_progress (Some "Bearer token-A") hexGoal
                      (mkProgressBody (Val "2025-06-01T00:00:00.000Z") (Val " felt good ") Absent));
    (mkEnv 6000 34 5999, POST_goals_progress (Some "Bearer token-A") hexGoal
                      (mkProgressBody (Val "2025-01-01T00:00:00.000Z") Absent (Val five))) ].

Definition run (h : list (Env * Request)) (st : State) : State :=
  fold_left (fun s er => fst (handle (fst er) (snd er) s)) h st.

Definition state : State := Eval vm_compute in run history emptyState.

Definition theGoal : Goal :=
  mkGoal idGoal idA "Run 5k" None Active None 3000 3000.

(** The environment of one more request after the history. *)
Definition later : Env := mkEnv 7000 64 6999.

(** 150 letters followed by one space: 151 characters. *)
Definition paddedTitle : string :=
  (String.concat EmptyString (repeat "aaaaaaaaaa" 15) ++ " ")%string.

End Demo.

(** ** frontend: services/apiClient.js *)

(** The request interceptor: the [Authorization] header it sets from
    [localStorage.getItem('authToken')], if any.  ([localStorage] is taken
    not to throw.) *)
Definition requestInterceptor (authToken : option string) : option string :=
  match authToken with
  | Some token => if isEmpty token then None else Some ("Bearer " ++ token)%string
  | None => None
  end.

(** ** frontend: components/AuthForm.jsx *)

Definition nonSpace (c : ascii) : bool := negb (isWhitespace c).

(** The rest of [\S+\.\S+] once one [\S] has been read. *)
Fixpoint domainRest (s : string) : bool :=
  match s with
  | String c rest =>
      (Ascii.eqb c "."%char
       && match rest with String d _ => nonSpace d | EmptyString => false end)
      || (nonSpace c && domainRest rest)
  | EmptyString => false
  end.

Definition domainHere (s : string) : bool :=
  match s with
  | String c rest => nonSpace c && domainRest rest
  | EmptyString => false
  end.

(** The rest of [\S+@\S+\.\S+] once one [\S] has been read. *)
Fixpoint localRest (s : string) : bool :=
  match s with
  | String c rest => (Ascii.eqb c "@"%char && domainHere rest) || (nonSpace c && localRest rest)
  | EmptyString => false
  end.

Definition emailHere (s : string) : bool :=
  match s with
  | String c rest => nonSpace c && localRest rest
  | EmptyString => false
  end.

(** [/\S+@\S+\.\S+/.test(s)]: the pattern matches somewhere in [s]. *)
Fixpoint emailSomewhere (s : string) : bool :=
  emailHere s
  || match s with
     | String _ rest => emailSomewhere rest
     | EmptyString => false
     end.

Record AuthFormErrors : Type := mkAuthFormErrors {
  error_email : string;
  error_password : string
}.

(** [validateForm] of [AuthForm]: the errors it sets and its result. *)
Definition AuthForm_validateForm (email password : string) : AuthFormErrors * bool :=
  let (emailError, emailValid) :=
    if isEmpty (trim email) then ("Email address is required.", false)
    else if negb (emailSomewhere email) then ("Please enter a valid email address.", false)
    else (EmptyString, true) in
  let (passwordError, passwordValid) :=
    if isEmpty password then ("Password is required.", false)
    else if (String.length password <? 8)%nat
         then ("Password must be at least 8 characters long.", false)
    else (EmptyString, true) in
  (mkAuthFormErrors emailError passwordError, emailValid && passwordValid).

(** [handleSubmit] of [AuthForm]: the body handed to [onSubmit], if any. *)
Definition AuthForm_handleSubmit (email password : string) : option Credentials :=
  if snd (AuthForm_validateForm email password)
  then Some (mkCredentials (Val email) (Val password))
  else None.

(** ** frontend: components/GoalForm.jsx *)

(** [validateForm] of [GoalForm]: the title error it sets and its result. *)
Definition GoalForm_validateForm (title : string) : string * bool :=
  if isEmpty (trim title) then ("Goal title is required.", false) else (EmptyString, true).

(** [handleSubmit] of [GoalForm]: the body [{ title, description }] handed
    to [onSubmit], if any. *)
Definition GoalForm_handleSubmit (title description : string) : option GoalBody :=
  if snd (GoalForm_validateForm title)
  then Some (mkGoalBody (Val title) (Val description) Absent Absent)
  else None.

(** ** frontend: pages/GoalDetailPage.jsx *)

(** The comparator [(a, b) => dateB - dateA] leaves [a] before [b] when
    its result is not positive; every entry the server sends has a date. *)
Definition laterLogFirst (a b : Progress) : bool := (progress_date b <=? progress_date a)%Z.

(** [progressLogs.sort(...)]: [Array.prototype.sort] is stable. *)
Definition sortLogs (logs : list Progress) : list Progress := sortBy laterLogFirst logs.

(** ** frontend: context/AuthContext.jsx *)

(** The state of [AuthProvider] together with the [authToken] entry of
    [localStorage].  ([localStorage] is taken not to throw.) *)
Record AuthState : Type := mkAuthState {
  auth_token : option string;
  auth_isAuthenticated : bool;
  auth_isLoading : bool;
  auth_error : option string;
  stored_authToken : option string
}.

(** What [apiLogin] / [apiRegister] settle with: the [token] field of the
    response body, or an error with its [response.data.message] and its
    [message]. *)
Inductive ApiResult : Type :=
| ApiResponse (token : field string)
| ApiError (responseMessage message : field string).

(** [a || b] on strings. *)
Definition orElse (a : field string) (b : string) : string :=
  if falsy a then b else valueOf a.

(** The provider as first rendered, over whatever [localStorage] holds. *)
Definition AuthProvider_initial (stored : option string) : AuthState :=
  mkAuthState None false true None stored.

(** [checkAuthState], run once on mount. *)
Definition checkAuthState (s : AuthState) : AuthState :=
  match stored_authToken s with
  | Some storedToken =>
      if isEmpty storedToken
      then mkAuthState (auth_token s) (auth_isAuthenticated s) false (auth_error s)
                       (stored_authToken s)
      else mkAuthState (Some storedToken) true false (auth_error s) (stored_authToken s)
  | None =>
      mkAuthState (auth_token s) (auth_isAuthenticated s) false (auth_error s)
                  (stored_authToken s)
  end.

(** The first two statements of [login] and [register]. *)
Definition beginRequest (s : AuthState) : AuthState :=
  mkAuthState (auth_token s) (auth_isAuthenticated s) true None (stored_authToken s).

(** The rest of [login] / [register] once the request has settled;
    [noToken] and [fallback] are the two messages that differ between
    them. *)
Definition settleRequest (noToken fallback : string) (r : ApiResult) (s : AuthState)
  : AuthState :=
  let failed (errorMessage : string) := mkAuthState None false false (Some errorMessage) None in
  match r with
  | ApiResponse receivedToken =>
      if falsy receivedToken then failed (orElse Absent (orElse (Val noToken) fallback))
      else mkAuthState (Some (valueOf receivedToken)) true false None
                       (Some (valueOf receivedToken))
  | ApiError responseMessage message =>
      failed (orElse responseMessage (orElse message fallback))
  end.

Definition login (r : ApiResult) (s : AuthState) : AuthState :=
  settleRequest "Login successful, but no token received."
                "Login failed. Please check your credentials." r (beginRequest s).

Definition register (r : ApiResult) (s : AuthState) : AuthState :=
  settleRequest "Registration successful, but no token received for auto-login."
                "Registration failed. Please try again." r (beginRequest s).

Definition logout (s : AuthState) : AuthState := mkAuthState None false false None None.

(** What the user and the network can make the provider do. *)
Inductive AuthEvent : Type :=
| Mounted
| RequestSent
| LoginSettled (r : ApiResult)
| RegisterSettled (r : ApiResult)
| LoggedOut.

Definition authStep (s : AuthState) (e : AuthEvent) : AuthState :=
  match e with
  | Mounted => checkAuthState s
  | RequestSent => beginRequest s
  | LoginSettled r => login r s
  | RegisterSettled r => register r s
  | LoggedOut => logout s
  end.

(** ** Vocabulary of the further properties *)

Definition isHex (c : ascii) : bool :=
  match hexDigit c with Some _ => true | None => false end.

(** A path parameter that is not made of exactly 24 hexadecimal digits. *)
Definition malformedId (id : string) : Prop :=
  String.length id <> 24 \/ all isHex id = false.

Definition newestFirst (a b : Goal) : Prop := (goal_createdAt a >= goal_createdAt b)%Z.

Definition laterDateFirst (a b : Progress) : Prop := (progress_date a >= progress_date b)%Z.

(** A creation body the schema accepts. *)
Definition validCreateBody {P : Platform} (body : GoalBody) : Prop :=
  (exists t, body_title body = Val t /\ validTitle t) /\
  suppliedOptional validDescription (body_description body) /\
  (body_status body = Absent \/ exists s, body_status body = Val s /\ validStatus s) /\
  suppliedOptional validTargetDate (body_targetDate body).

(** A progress body the schema accepts. *)
Definition validEntry {P : Platform} (body : ProgressBody) : Prop :=
  (body_date body = Absent \/
   exists s d, body_date body = Val s /\ s <> EmptyString /\ castDate s = Some d) /\
  suppliedOptional (fun s => String.length (trim s) <= 500) (body_notes body).

(** Credentials the [User] schema accepts. *)
Definition validCredentials (email password : string) : Prop :=
  matchesEmail (trim (toLowerCase email)) = true /\ 8 <= String.length password.

(** The accounts invariant: distinct ids, distinct emails, every stored
    email matches the schema's pattern and has no upper-case letter, and
    every stored password is the hash of a password of at least 8
    characters. *)
Definition AccountsInvariant {P : Platform} (st : State) : Prop :=
  NoDup (map user_id (users st)) /\
  NoDup (map user_email (users st)) /\
  forall u, In u (users st) ->
    matchesEmail (user_email u) = true /\
    all (fun c => negb (isUpper c)) (user_email u) = true /\
    exists p, 8 <= String.length p /\ user_password u = bcrypt_hash p.

Definition isErrorBody (b : Body) : bool :=
  match b with JsonError _ _ => true | _ => false end.

(** What a request on behalf of account [u] leaves alone: the goals and
    progress entries of every other account are the same before and
    after, and so are the accounts. *)
Definition OthersUntouched (u : ObjectId) (st st' : State) : Prop :=
  (forall g, goal_userId g <> u -> (In g (goals st') <-> In g (goals st))) /\
  (forall p, progress_userId p <> u -> (In p (progresses st') <-> In p (progresses st))) /\
  users st' = users st.

(** What a controller may hand to Express: a success with a payload, or
    an error that carries one of the client-error codes or none. *)
Definition expectedOutcome (o : Outcome) : Prop :=
  match o with
  | Respond r => In (res_status r) [200; 201; 204] /\ isErrorBody (res_body r) = false
  | Next e => In (err_statusCode e) [None; Some 400; Some 401; Some 404; Some 409]
  end.

(** The status codes the service answers with. *)
Definition statusCodes : list nat := [200; 201; 204; 400; 401; 404; 409; 500].

(** The session invariant of [AuthProvider]. *)
Definition SessionInvariant (s : AuthState) : Prop :=
  (auth_isAuthenticated s = true ->
   exists t, t <> EmptyString /\ auth_token s = Some t /\ stored_authToken s = Some t /\
             auth_error s = None) /\
  (auth_isAuthenticated s = false -> auth_token s = None) /\
  (auth_error s <> None -> stored_authToken s = None /\ auth_isAuthenticated s = false).

(** ** More requests on the concrete history *)

Module Sample.

Definition accountA : User := mkUser Demo.idA "a@x.com" "hashed:password1".

(** [Eric@x.com] spelled with a capital and with a small E acute, whose
    code units are 201 and 233. *)
Definition ericUpper : string := String "201"%char "ric@x.com".
Definition ericLower : string := String "233"%char "ric@x.com".

(** A third account registers, with capitals and spaces around its email. *)
Definition carolEnv : Env := mkEnv 8000 3 7999.
Definition carol : Credentials := Demo.creds " Carol@X.com " "password3".

(** A goal with every field supplied. *)
Definition swim : GoalBody :=
  mkGoalBody (Val " Swim ") (Val "laps") (Val "completed") (Val "2025-06-01T00:00:00.000Z").

Definition hexLater : string := "000000000000000000000040".

Definition swimOfB : Goal := mkGoal 64 Demo.idB "Swim" None Active None 7000 7000.

Definition runCompleted : Goal := mkGoal Demo.idGoal Demo.idA "Run 5k" None Completed None 3000 7000.

(** The number 3.5, as a double. *)
Definition threeAndAHalf : Double := 0x400C000000000000.

(** An entry without a date: the default is read at 6999, the save happens
    at 7000. *)
Definition easyEntry : ProgressBody :=
  mkProgressBody Absent (Val " easy ") (Val threeAndAHalf).

Definition easyProgress : Progress :=
  mkProgress 64 Demo.idGoal Demo.idA 6999 (Some "easy") (Some threeAndAHalf) 7000 7000.

(** A session: a stored token at start-up, a logout, then a login. *)
Definition session : list AuthEvent :=
  [Mounted; LoggedOut; RequestSent; LoginSettled (ApiResponse (Val "token-B"))].

End Sample.

(** * Properties *)

Section Properties.

Context {P : Platform}.

(** ** Strings *)

Lemma isEmpty_true (s : string) : isEmpty s = true <-> s = EmptyString.
Proof. destruct s; simpl; split; congruence. Qed.

Lemma isEmpty_false (s : string) : isEmpty s = false <-> s <> EmptyString.
Proof. destruct s; simpl; split; congruence. Qed.

Lemma trimStart_whitespace (s : string) :
  all isWhitespace s = true -> trimStart s = EmptyString.
Proof.
  induction s as [|c s IH]; simpl; [reflexivity|].
  intros H. apply andb_prop in H. destruct H as [Hc Hs].
  rewrite Hc. auto.
Qed.

Lemma trim_whitespace (s : string) : all isWhitespace s = true -> trim s = EmptyString.
Proof. intros H. unfold trim. rewrite (trimStart_whitespace s H). reflexivity. Qed.

Lemma split_first_word (t rest : string) :
  spaceless t ->
  rest = EmptyString \/ (exists r, rest = String " "%char r) ->
  exists tail, split " "%char (t ++ rest)%string = t :: tail.
Proof.
  unfold spaceless. induction t as [|c t IH]; simpl; intros Ht Hrest.
  - destruct Hrest as [-> | [r ->]]; simpl; eauto.
  - apply andb_prop in Ht. destruct Ht as [Hc Ht].
    apply negb_true_iff in Hc. rewrite Hc.
    destruct (IH Ht Hrest) as [tail ->]. eauto.
Qed.

Lemma split_Bearer (x : string) :
  split " "%char ("Bearer " ++ x)%string = "Bearer" :: split " "%char x.
Proof. reflexivity. Qed.

(** ** The access-control gate *)


Lemma protect_with_token (env : Env) (h : option string) (st : State) (token : string) :
  extractToken h = Some token -> token <> EmptyString ->
  protect env h st =
    match verifyToken env token (users st) with
    | inr id => Attach id
    | inl _ => Reject authError
    end.
Proof.
  unfold protect. intros -> Hne. apply isEmpty_false in Hne. rewrite Hne. reflexivity.
Qed.

Lemma User_findById_none (id : ObjectId) (us : list User) :
  (forall u, In u us -> user_id u <> id) -> User_findById id us = None.
Proof.
  unfold User_findById. intros H.
  destruct (find _ us) as [u|] eqn:E; [|reflexivity].
  apply find_some in E. destruct E as [Hin Heq].
  apply N.eqb_eq in Heq. elim (H u Hin Heq).
Qed.

Lemma verifyToken_fails (env : Env) (token : string) (us : list User) :
  VerificationFails env token us -> exists m, verifyToken env token us = inl m.
Proof.
  unfold verifyToken.
  intros [m H | f H Hf | s H Hc | s id H Hc Hu]; rewrite H.
  - eauto.
  - destruct f as [| |s]; simpl in Hf; eauto. rewrite Hf. eauto.
  - destruct (isEmpty s); eauto. rewrite Hc. eauto.
  - destruct (isEmpty s); eauto. rewrite Hc, (User_findById_none _ _ Hu). eauto.
Qed.

(** C2. On every protected route, a token that fails verification for any
    reason (the verifier throws, the payload carries no account
    identifier, the identifier is malformed, or it resolves to no existing
    account) makes the gate fail with 401 and the one generic message
    "Not authorized, token failed"; the answer does not depend on the
    cause, the database is untouched and the controller is not run. *)
Theorem gate_rejects_failed_verification
  (env : Env) (st : State) (h : option string) (token : string) :
  extractToken h = Some token -> token <> EmptyString ->
  VerificationFails env token (users st) ->
  protect env h st = Reject authError /\
  (forall controller, guarded env h controller st = (st, errorHandler authError)) /\
  (forall req, authorizationOf req = Some h ->
               handle env req st = (st, errorHandler authError)) /\
  res_status (errorHandler authError) = 401 /\
  errorMessage (res_body (errorHandler authError)) = Some "Not authorized, token failed".
Proof.
  intros Hx Hne Hf.
  assert (Hp : protect env h st = Reject authError).
  { rewrite (protect_with_token env h st token Hx Hne).
    destruct (verifyToken_fails _ _ _ Hf) as [m ->]. reflexivity. }
  assert (Hg : forall controller, guarded env h controller st = (st, errorHandler authError)).
  { intros c. unfold guarded. rewrite Hp. reflexivity. }
  repeat split; auto.
  intros req Hreq.
  destruct req; simpl in Hreq; try discriminate;
    injection Hreq as <-; simpl; apply Hg.
Qed.


(** ** Login *)

(** C4 (amended). For every login request that carries both an email and a
    password, a lookup that finds no account and a password that does not
    match the stored hash are answered alike: 401, the message
    "Invalid credentials.", and the same response shape; outside
    development mode the two responses are equal. *)
Theorem invalid_credentials_uniform
  (env1 env2 : Env) (st1 st2 : State) (b1 b2 : Credentials) (user : User) :
  credentialsPresent b1 -> credentialsPresent b2 ->
  lookupAccount b1 st1 = None ->
  lookupAccount b2 st2 = Some user ->
  comparePassword user (valueOf (cred_password b2)) = false ->
  let r1 := snd (handle env1 (POST_auth_login b1) st1) in
  let r2 := snd (handle env2 (POST_auth_login b2) st2) in
  res_status r1 = 401 /\ res_status r2 = 401 /\
  errorMessage (res_body r1) = Some "Invalid credentials." /\
  errorMessage (res_body r2) = Some "Invalid credentials." /\
  errorShape (res_body r1) = errorShape (res_body r2) /\
  (development = false -> r1 = r2) /\
  fst (handle env1 (POST_auth_login b1) st1) = st1 /\
  fst (handle env2 (POST_auth_login b2) st2) = st2.
Proof.
  intros [He1 Hp1] [He2 Hp2] H1 H2 Hc. unfold lookupAccount in *.
  simpl. unfold unguarded, loginUser.
  rewrite He1, Hp1, He2, Hp2, H1, H2, Hc. simpl.
  unfold errorHandler. simpl.
  destruct development; repeat split; auto; discriminate.
Qed.

(** ** Creating a goal *)

Lemma validateGoal_bad_title (env : Env) (data : GoalData) (m : string) :
  checkTitle (gd_title data) = inl m -> exists ms, validateGoal env data = inl ms.
Proof. intros H. unfold validateGoal. rewrite H. eauto. Qed.

Lemma checkTitle_blank (s : string) :
  trim s = EmptyString -> checkTitle (Val s) = inl "Goal title cannot be empty".
Proof. intros H. simpl. rewrite H. reflexivity. Qed.

Lemma checkTitle_long (s : string) :
  150 < String.length (trim s) -> exists m, checkTitle (Val s) = inl m.
Proof.
  intros H. simpl. destruct (isEmpty (trim s)); eauto.
  apply Nat.ltb_lt in H. rewrite H. eauto.
Qed.

Lemma createGoal_invalid_title (env : Env) (u : ObjectId) (body : GoalBody) (st : State)
  (m : string) :
  checkTitle (body_title body) = inl m ->
  exists e, createGoal env u body st = (st, Next e) /\ err_statusCode e = Some 400.
Proof.
  intros H. unfold createGoal.
  destruct (falsy (body_title body)); [eauto|].
  unfold Goal_create.
  destruct (validateGoal_bad_title env
              (mkGoalData u (body_title body) (body_description body)
                          (body_status body) (body_targetDate body)) m H) as [ms ->].
  eauto.
Qed.

(** C8 (amended). Creating a goal fails with a validation error (400) and
    stores nothing when the title is absent, null, empty or made of
    whitespace only, or when the title with its surrounding whitespace
    trimmed is longer than 150 characters. *)
Theorem create_goal_rejects_bad_title
  (env : Env) (u : ObjectId) (body : GoalBody) (st : State) :
  body_title body = Absent \/ body_title body = Null \/
  (exists s, body_title body = Val s /\
             (whitespaceOnly s \/ 150 < String.length (trim s))) ->
  exists e,
    createGoal env u body st = (st, Next e) /\
    err_statusCode e = Some 400 /\
    unguarded (createGoal env u body) st = (st, errorHandler e) /\
    res_status (errorHandler e) = 400.
Proof.
  intros H.
  assert (Hm : exists m, checkTitle (body_title body) = inl m).
  { destruct H as [-> | [-> | [s [-> [Hs | Hs]]]]].
    - simpl. eauto.
    - simpl. eauto.
    - rewrite (checkTitle_blank s (trim_whitespace s Hs)). eauto.
    - apply (checkTitle_long s Hs). }
  destruct Hm as [m Hm].
  destruct (createGoal_invalid_title env u body st m Hm) as [e [He Hc]].
  exists e. unfold unguarded. rewrite He. repeat split; auto.
  unfold errorHandler. rewrite Hc. reflexivity.
Qed.

(** ** Updating a goal *)

Lemma find_updateFirst (p : Goal -> bool) (f : Goal -> Goal) (gs : list Goal) (g : Goal) :
  (forall x, p x = true -> p (f x) = true) ->
  find p gs = Some g -> find p (updateFirst p f gs) = Some (f g).
Proof.
  intros Hf. induction gs as [|x gs IH]; simpl; [discriminate|].
  destruct (p x) eqn:Hx.
  - intros [= <-]. simpl. rewrite (Hf x Hx). reflexivity.
  - intros H. simpl. rewrite Hx. auto.
Qed.

Lemma ownedGoal_applyUpdate (env : Env) (c : CastUpdate) (id u : ObjectId) (g : Goal) :
  ownedGoal id u g = true -> ownedGoal id u (applyUpdate env c g) = true.
Proof. unfold ownedGoal. simpl. auto. Qed.

(** What [updateGoal] does once the path parameter is well formed. *)
Lemma updateGoal_cast (env : Env) (u : ObjectId) (id : string) (oid : ObjectId)
  (body : GoalBody) (st : State) :
  castObjectId id = Some oid ->
  updateGoal env u id body st =
    if defined (body_title body) && blankTitle (body_title body)
    then (st, Next (mkError (Some 400) "Goal title cannot be empty." "goal.controller.js:143"))
    else
      let updateData := mkUpdateData (body_title body) (body_description body)
                                     (body_status body) (body_targetDate body) in
      if (updateKeys updateData =? 0)%nat
      then (st, Next (mkError (Some 400) "No update fields provided." "goal.controller.js:155"))
      else
        match validateUpdate updateData with
        | inl (ValidationError messages) => (st, Next (handleValidationError messages))
        | inl (OtherError e) => (st, Next e)
        | inr c =>
            match Goal_findOne oid u (goals st) with
            | None => (st, Next (mkError (Some 404) "Goal not found." "goal.controller.js:168"))
            | Some g =>
                (withGoals st (updateFirst (ownedGoal oid u) (applyUpdate env c) (goals st)),
                 Respond (mkResponse 200 (JsonGoal (applyUpdate env c g))))
            end
        end.
Proof.
  intros Hc. unfold updateGoal, withObjectId, isValidObjectId. rewrite Hc. simpl.
  destruct (defined (body_title body) && blankTitle (body_title body)); [reflexivity|].
  destruct (updateKeys _ =? 0)%nat; [reflexivity|].
  unfold Goal_findOneAndUpdate.
  destruct (validateUpdate _) as [[ms|e]|c]; try reflexivity.
  destruct (Goal_findOne oid u (goals st)); reflexivity.
Qed.

Lemma parseStatus_name (x : string) (y : GoalStatus) :
  parseStatus x = inr y -> statusName y = x.
Proof.
  unfold parseStatus.
  destruct (isEmpty x); [discriminate|].
  destruct (String.eqb x "active") eqn:E1.
  - intros [= <-]. apply String.eqb_eq in E1. now subst.
  - destruct (String.eqb x "completed") eqn:E2; [|discriminate].
    intros [= <-]. apply String.eqb_eq in E2. now subst.
Qed.

Lemma onSupplied_absent {B} (check : field string -> string + B) (r : option B) :
  onSupplied Absent check = inr r -> r = None.
Proof. unfold onSupplied. simpl. congruence. Qed.

Lemma validateUpdate_frame (t d s td : field string) (c : CastUpdate) :
  validateUpdate (mkUpdateData t d s td) = inr c ->
  (t = Absent -> set_title c = None) /\
  (d = Absent -> set_description c = None) /\
  (s = Absent -> set_status c = None) /\
  (td = Absent -> set_targetDate c = None) /\
  (forall x, s = Val x -> exists y, set_status c = Some y /\ statusName y = x).
Proof.
  unfold validateUpdate.
  cbn [upd_title upd_description upd_status upd_targetDate]. cbv zeta.
  destruct (if defined td then _ else _) as [e|tdv] eqn:Etd; [discriminate|].
  destruct (onSupplied t checkTitle) as [m|tv] eqn:Et; [discriminate|].
  destruct (onSupplied d checkDescription) as [m|dv] eqn:Ed; [discriminate|].
  destruct (onSupplied s checkStatusOnUpdate) as [m|sv] eqn:Es; [discriminate|].
  intros [= <-]. cbn [set_title set_description set_status set_targetDate].
  repeat split.
  - intros ->. apply (onSupplied_absent _ _ Et).
  - intros ->. apply (onSupplied_absent _ _ Ed).
  - intros ->. apply (onSupplied_absent _ _ Es).
  - intros ->. simpl in Etd. congruence.
  - intros x ->. unfold onSupplied in Es. simpl in Es.
    destruct (parseStatus x) as [m|y] eqn:Ep; [discriminate|].
    injection Es as <-. exists y. split; [reflexivity|].
    apply (parseStatus_name x y Ep).
Qed.

Lemma ownedGoal_spec (id u : ObjectId) (g : Goal) :
  ownedGoal id u g = true <-> goal_id g = id /\ goal_userId g = u.
Proof. unfold ownedGoal. rewrite andb_true_iff, !N.eqb_eq. reflexivity. Qed.

Lemma Goal_findOne_some (id u : ObjectId) (gs : list Goal) (g : Goal) :
  Goal_findOne id u gs = Some g -> In g gs /\ goal_id g = id /\ goal_userId g = u.
Proof.
  unfold Goal_findOne. intros H. apply find_some in H.
  destruct H as [Hin Ho]. apply ownedGoal_spec in Ho. tauto.
Qed.

Lemma Goal_findOne_owned (id u : ObjectId) (gs : list Goal) (g : Goal) :
  In g gs -> goal_id g = id -> goal_userId g = u ->
  exists g0, Goal_findOne id u gs = Some g0.
Proof.
  intros Hin Hid Hu. unfold Goal_findOne.
  destruct (find (ownedGoal id u) gs) as [g0|] eqn:E; [eauto|].
  pose proof (find_none _ _ E g Hin) as Hf.
  assert (Ht : ownedGoal id u g = true) by (apply ownedGoal_spec; auto).
  congruence.
Qed.

Lemma updateGoal_stores (env : Env) (c : CastUpdate) (id u : ObjectId) (st : State)
  (g : Goal) :
  Goal_findOne id u (goals st) = Some g ->
  Goal_findOne id u
    (goals (withGoals st (updateFirst (ownedGoal id u) (applyUpdate env c) (goals st))))
    = Some (applyUpdate env c g).
Proof.
  intros H. simpl. unfold Goal_findOne in *.
  apply find_updateFirst; [|exact H].
  intros x. apply ownedGoal_applyUpdate.
Qed.

(** C6. When an update of an owned goal supplies only a valid [status],
    the stored and returned record has the new status and its title,
    description and target date are those it had before; in general a
    successful update leaves every field the body does not supply as it
    was. *)
Theorem partial_update_frame
  (env : Env) (u : ObjectId) (id : string) (oid : ObjectId) (body : GoalBody)
  (st : State) (g : Goal) :
  castObjectId id = Some oid ->
  Goal_findOne oid u (goals st) = Some g ->
  (forall s, body = mkGoalBody Absent Absent (Val s) Absent -> validStatus s ->
     exists st' g',
       updateGoal env u id body st = (st', Respond (mkResponse 200 (JsonGoal g'))) /\
       Goal_findOne oid u (goals st') = Some g' /\
       statusName (goal_status g') = s /\
       goal_title g' = goal_title g /\
       goal_description g' = goal_description g /\
       goal_targetDate g' = goal_targetDate g) /\
  (forall st' g',
     updateGoal env u id body st = (st', Respond (mkResponse 200 (JsonGoal g'))) ->
     Goal_findOne oid u (goals st') = Some g' /\
     (body_title body = Absent -> goal_title g' = goal_title g) /\
     (body_description body = Absent -> goal_description g' = goal_description g) /\
     (body_status body = Absent -> goal_status g' = goal_status g) /\
     (body_targetDate body = Absent -> goal_targetDate g' = goal_targetDate g) /\
     (forall s, body_status body = Val s -> statusName (goal_status g') = s)).
Proof.
  intros Hc Hg. split.
  - intros s -> Hs. rewrite (updateGoal_cast env u id oid _ st Hc). simpl.
    assert (Hv : exists y, parseStatus s = inr y /\ statusName y = s).
    { destruct Hs as [-> | ->]; [exists Active | exists Completed]; split; reflexivity. }
    destruct Hv as [y [Hy Hn]].
    unfold validateUpdate, onSupplied. simpl. rewrite Hy, Hg.
    eexists _, _. split; [reflexivity|].
    split; [apply (updateGoal_stores env _ oid u st g Hg)|].
    simpl. auto.
  - intros st' g'. rewrite (updateGoal_cast env u id oid body st Hc).
    destruct (defined (body_title body) && blankTitle (body_title body)); [discriminate|].
    cbv zeta. destruct (updateKeys _ =? 0)%nat; [discriminate|].
    destruct (validateUpdate _) as [[ms|e]|c] eqn:Ev; try discriminate.
    rewrite Hg. intros [= <- <-].
    split; [apply (updateGoal_stores env c oid u st g Hg)|].
    destruct (validateUpdate_frame _ _ _ _ c Ev) as (Ht & Hd & Hs & Htd & Hx).
    simpl. repeat split.
    + intros E. rewrite (Ht E). reflexivity.
    + intros E. rewrite (Hd E). reflexivity.
    + intros E. rewrite (Hs E). reflexivity.
    + intros E. rewrite (Htd E). reflexivity.
    + intros s E. destruct (Hx s E) as [y [-> Hn]]. exact Hn.
Qed.

Lemma title_accepted (t : field string) :
  suppliedRequired validTitle t ->
  defined t && blankTitle t = false /\ exists r, onSupplied t checkTitle = inr r.
Proof.
  destruct t as [| |s]; simpl; [intros _ | intros [] | intros [Hne Hlen]].
  - split; [reflexivity|]. unfold onSupplied. simpl. eauto.
  - apply isEmpty_false in Hne. rewrite Hne. split; [reflexivity|].
    unfold onSupplied. simpl. rewrite Hne.
    apply Nat.ltb_ge in Hlen. rewrite Hlen. eauto.
Qed.

Lemma description_accepted (d : field string) :
  suppliedOptional validDescription d -> exists r, onSupplied d checkDescription = inr r.
Proof.
  unfold onSupplied. destruct d as [| |s]; simpl; [eauto | eauto |].
  unfold validDescription. intros Hlen.
  apply Nat.ltb_ge in Hlen. rewrite Hlen. eauto.
Qed.

Lemma status_accepted (s : field string) :
  suppliedRequired validStatus s -> exists r, onSupplied s checkStatusOnUpdate = inr r.
Proof.
  unfold onSupplied. destruct s as [| |x]; simpl; [eauto | intros [] |].
  intros [-> | ->]; simpl; eauto.
Qed.

Lemma targetDate_accepted (td : field string) :
  suppliedOptional validTargetDate td ->
  exists r, (if defined td
             then match castDateField "targetDate" td with
                  | inr d => inr (Some d)
                  | inl e => inl e
                  end
             else inr None) = inr r.
Proof.
  destruct td as [| |x]; simpl; [eauto | eauto |].
  intros [-> | [d Hd]]; simpl; [eauto|].
  destruct (isEmpty x); [eauto|]. rewrite Hd. eauto.
Qed.

Lemma validateUpdate_accepts (body : GoalBody) :
  validUpdateBody body ->
  exists c, validateUpdate (mkUpdateData (body_title body) (body_description body)
                                         (body_status body) (body_targetDate body)) = inr c.
Proof.
  intros (Ht & Hd & Hs & Htd). unfold validateUpdate.
  cbn [upd_title upd_description upd_status upd_targetDate]. cbv zeta.
  destruct (targetDate_accepted _ Htd) as [r4 ->].
  destruct (title_accepted _ Ht) as [_ [r1 ->]].
  destruct (description_accepted _ Hd) as [r2 ->].
  destruct (status_accepted _ Hs) as [r3 ->].
  eauto.
Qed.

Lemma updateKeys_supplied (body : GoalBody) :
  suppliesSomething body ->
  (updateKeys (mkUpdateData (body_title body) (body_description body)
                            (body_status body) (body_targetDate body)) =? 0)%nat = false.
Proof.
  unfold suppliesSomething, updateKeys. simpl.
  destruct (body_title body), (body_description body), (body_status body),
    (body_targetDate body); simpl; try reflexivity.
  intros [H | [H | [H | H]]]; congruence.
Qed.

(** The values an accepted update sets. *)
Lemma validateUpdate_sets (body : GoalBody) (c : CastUpdate) :
  validUpdateBody body ->
  validateUpdate (mkUpdateData (body_title body) (body_description body)
                               (body_status body) (body_targetDate body)) = inr c ->
  set_title c = match body_title body with Val t => Some (trim t) | _ => None end /\
  set_description c = match body_description body with
                      | Absent => None
                      | Null => Some None
                      | Val d => Some (Some (trim d))
                      end /\
  match body_status body with
  | Val s => exists y, set_status c = Some y /\ statusName y = s
  | _ => set_status c = None
  end /\
  set_targetDate c = match body_targetDate body with
                     | Absent => None
                     | Null => Some None
                     | Val x => Some (if isEmpty x then None else castDate x)
                     end.
Proof.
  intros (Ht & Hd & Hs & Htd). unfold validateUpdate.
  cbn [upd_title upd_description upd_status upd_targetDate]. cbv zeta.
  destruct (if defined (body_targetDate body) then _ else _) as [e|tdv] eqn:Etd;
    [discriminate|].
  destruct (onSupplied (body_title body) checkTitle) as [m|tv] eqn:Et; [discriminate|].
  destruct (onSupplied (body_description body) checkDescription) as [m|dv] eqn:Ed;
    [discriminate|].
  destruct (onSupplied (body_status body) checkStatusOnUpdate) as [m|sv] eqn:Es;
    [discriminate|].
  intros [= <-]. cbn [set_title set_description set_status set_targetDate].
  split; [|split; [|split]].
  - destruct (body_title body) as [| |t]; simpl in Ht; [| contradiction |].
    + unfold onSupplied in Et. simpl in Et. congruence.
    + destruct Ht as [Hne Hlen]. unfold onSupplied in Et. simpl in Et.
      apply isEmpty_false in Hne. rewrite Hne in Et.
      apply Nat.ltb_ge in Hlen. rewrite Hlen in Et. congruence.
  - destruct (body_description body) as [| |d]; unfold onSupplied in Ed; simpl in Ed;
      [congruence | congruence |].
    simpl in Hd. unfold validDescription in Hd.
    apply Nat.ltb_ge in Hd. rewrite Hd in Ed. congruence.
  - destruct (body_status body) as [| |x]; simpl in Hs; [| contradiction |].
    + unfold onSupplied in Es. simpl in Es. congruence.
    + unfold onSupplied in Es. simpl in Es.
      destruct (parseStatus x) as [m|y] eqn:Ep; [discriminate|].
      injection Es as <-. exists y. split; [reflexivity | apply (parseStatus_name x y Ep)].
  - destruct (body_targetDate body) as [| |x]; simpl in Etd; [congruence | congruence |].
    simpl in Htd. destruct (isEmpty x) eqn:Ex; [congruence|].
    destruct Htd as [-> | [d Hd']]; [discriminate|].
    rewrite Hd' in Etd |- *. congruence.
Qed.

Lemma NoDup_map_injective {A} (key : A -> N) (l : list A) (x y : A) :
  NoDup (map key l) -> In x l -> In y l -> key x = key y -> x = y.
Proof.
  induction l as [|a l IH]; simpl; [tauto|].
  intros H Hx Hy Heq. inversion H as [|? ? Hnot Hrest]; subst.
  destruct Hx as [-> | Hx], Hy as [-> | Hy]; auto.
  - elim Hnot. rewrite Heq. now apply in_map.
  - elim Hnot. rewrite <- Heq. now apply in_map.
Qed.

(** C7 (amended). A PUT on an owned goal whose body supplies at least one
    of title, description, status and targetDate, every supplied field
    with a valid value, succeeds with 200 and the updated goal, which is
    the one now stored.  The updated goal is the goal the owner-scoped
    lookup finds (the owned goal itself when ids are distinct) with every
    supplied field set: title and description trimmed, status as supplied,
    target date parsed, [null] clearing an optional field; every other
    field is as it was, [createdAt] included, and [updatedAt] is the time
    of the update.  Accounts and progress entries are untouched. *)
Theorem update_goal_succeeds
  (env : Env) (u : ObjectId) (id : string) (oid : ObjectId) (body : GoalBody)
  (st : State) (g : Goal) :
  castObjectId id = Some oid ->
  In g (goals st) -> goal_id g = oid -> goal_userId g = u ->
  suppliesSomething body -> validUpdateBody body ->
  exists st' g' g0,
    unguarded (updateGoal env u id body) st = (st', mkResponse 200 (JsonGoal g')) /\
    goal_id g' = oid /\ goal_userId g' = u /\
    Goal_findOne oid u (goals st') = Some g' /\
    users st' = users st /\ progresses st' = progresses st /\
    Goal_findOne oid u (goals st) = Some g0 /\
    (NoDup (map goal_id (goals st)) -> g0 = g) /\
    updatedBy env body g0 g'.
Proof.
  intros Hc Hin Hid Hu Hsome Hvalid.
  destruct (Goal_findOne_owned oid u (goals st) g Hin Hid Hu) as [g0 Hg0].
  destruct (validateUpdate_accepts body Hvalid) as [c Hv].
  destruct (validateUpdate_sets body c Hvalid Hv) as (St & Sd & Ss & Std).
  destruct Hvalid as [Ht _]. destruct (title_accepted _ Ht) as [Hb _].
  unfold unguarded. rewrite (updateGoal_cast env u id oid body st Hc).
  rewrite Hb. cbv zeta. rewrite (updateKeys_supplied body Hsome), Hv, Hg0.
  exists (withGoals st (updateFirst (ownedGoal oid u) (applyUpdate env c) (goals st))),
         (applyUpdate env c g0), g0.
  destruct (Goal_findOne_some oid u (goals st) g0 Hg0) as (Hin0 & Hi & Ho).
  split; [reflexivity|].
  split; [exact Hi|]. split; [exact Ho|].
  split; [apply (updateGoal_stores env c oid u st g0 Hg0)|].
  split; [reflexivity|]. split; [reflexivity|].
  split; [reflexivity|].
  split.
  { intros Hnd. apply (NoDup_map_injective goal_id (goals st)); auto. congruence. }
  unfold updatedBy, applyUpdate.
  cbn [goal_id goal_userId goal_title goal_description goal_status goal_targetDate
       goal_createdAt goal_updatedAt].
  rewrite St, Sd, Std.
  split; [reflexivity|]. split; [reflexivity|].
  split; [destruct (body_title body); reflexivity|].
  split; [destruct (body_description body); reflexivity|].
  split.
  { destruct (body_status body) as [| |x]; [now rewrite Ss | now rewrite Ss |].
    destruct Ss as [y [-> Hy]]. exact Hy. }
  split; [destruct (body_targetDate body); reflexivity|].
  split; reflexivity.
Qed.

(** ** The effect of a request on the database *)

Lemma existsb_fresh {A} (key : A -> N) (k : N) (l : list A) :
  existsb (fun x => N.eqb (key x) k) l = false ->
  forall x, In x l -> key x <> k.
Proof.
  intros H x Hin Heq.
  assert (Ht : existsb (fun x => N.eqb (key x) k) l = true).
  { apply existsb_exists. exists x. split; [exact Hin|]. now apply N.eqb_eq. }
  congruence.
Qed.

Lemma withObjectId_cases (site id : string) (st : State) (k : ObjectId -> State * Outcome) :
  withObjectId site id st k = (st, Next (invalidIdError site)) \/
  exists oid, castObjectId id = Some oid /\ withObjectId site id st k = k oid.
Proof.
  unfold withObjectId, isValidObjectId.
  destruct (castObjectId id) as [oid|]; simpl; eauto.
Qed.

Lemma createGoal_effect (env : Env) (u : ObjectId) (body : GoalBody) (st : State) :
  Effect env st (fst (createGoal env u body st)).
Proof.
  unfold createGoal. destruct (falsy (body_title body)); [now apply Effect_none|].
  unfold Goal_create.
  destruct (validateGoal env _) as [ms|g]; [now apply Effect_none|].
  destruct (existsb _ (goals st)) eqn:E; [now apply Effect_none|].
  apply (Effect_goal_created env st _ g); try reflexivity.
  apply (existsb_fresh goal_id (goal_id g) (goals st) E).
Qed.

Lemma updateGoal_effect (env : Env) (u : ObjectId) (id : string) (body : GoalBody)
  (st : State) :
  Effect env st (fst (updateGoal env u id body st)).
Proof.
  destruct (castObjectId id) as [oid|] eqn:Hc.
  - rewrite (updateGoal_cast env u id oid body st Hc).
    destruct (defined _ && blankTitle _); [now apply Effect_none|].
    cbv zeta. destruct (updateKeys _ =? 0)%nat; [now apply Effect_none|].
    destruct (validateUpdate _) as [[ms|e]|c]; try now apply Effect_none.
    destruct (Goal_findOne oid u (goals st)); [|now apply Effect_none].
    now apply (Effect_goal_updated env st _ oid u c).
  - unfold updateGoal, withObjectId, isValidObjectId. rewrite Hc.
    now apply Effect_none.
Qed.

Lemma deleteGoal_cast (u : ObjectId) (id : string) (oid : ObjectId) (st : State) :
  castObjectId id = Some oid ->
  deleteGoal u id st =
    match Goal_findOne oid u (goals st) with
    | None => (st, Next (mkError (Some 404) "Goal not found." "goal.controller.js:207"))
    | Some _ =>
        (mkState (users st) (removeFirst (ownedGoal oid u) (goals st))
                 (Progress_deleteMany oid u (progresses st)),
         Respond (mkResponse 204 NoBody))
    end.
Proof.
  intros Hc. unfold deleteGoal, withObjectId, isValidObjectId. rewrite Hc. simpl.
  unfold Goal_findOneAndDelete. destruct (Goal_findOne oid u (goals st)); reflexivity.
Qed.

Lemma deleteGoal_effect (u : ObjectId) (id : string) (st : State) (env : Env) :
  Effect env st (fst (deleteGoal u id st)).
Proof.
  destruct (castObjectId id) as [oid|] eqn:Hc.
  - rewrite (deleteGoal_cast u id oid st Hc).
    destruct (Goal_findOne oid u (goals st)); [|now apply Effect_none].
    now apply (Effect_goal_deleted env st _ oid u).
  - unfold deleteGoal, withObjectId, isValidObjectId. rewrite Hc.
    now apply Effect_none.
Qed.

Lemma logProgress_cast (env : Env) (u : ObjectId) (goalId : string) (oid : ObjectId)
  (body : ProgressBody) (st : State) :
  castObjectId goalId = Some oid ->
  logProgress env u goalId body st =
    match Goal_findOne oid u (goals st) with
    | None =>
        (st, Next (mkError (Some 404) "Target goal not found." "goal.controller.js:247"))
    | Some _ =>
        match Progress_create env (mkProgressData u oid (body_date body) (body_notes body)
                                                  (body_value body)) (progresses st) with
        | (ps, Ok newProgressLog) =>
            (withProgresses st ps, Respond (mkResponse 201 (JsonProgress newProgressLog)))
        | (_, Throw (ValidationError messages)) =>
            (st, Next (handleValidationError messages))
        | (_, Throw (OtherError e)) => (st, Next e)
        end
    end.
Proof.
  intros Hc. unfold logProgress, withObjectId, isValidObjectId. rewrite Hc. reflexivity.
Qed.

Lemma validateProgress_owner (env : Env) (data : ProgressData) (p : Progress) :
  validateProgress env data = inr p ->
  progress_id p = newId env /\
  progress_goalId p = pd_goalId data /\ progress_userId p = pd_userId data.
Proof.
  unfold validateProgress. cbv zeta.
  destruct (checkDate env (pd_date data)); [discriminate|].
  destruct (checkNotes (pd_notes data)); [discriminate|].
  intros [= <-]. simpl. auto.
Qed.

Lemma logProgress_effect (env : Env) (u : ObjectId) (goalId : string)
  (body : ProgressBody) (st : State) :
  Effect env st (fst (logProgress env u goalId body st)).
Proof.
  destruct (castObjectId goalId) as [oid|] eqn:Hc.
  - rewrite (logProgress_cast env u goalId oid body st Hc).
    destruct (Goal_findOne oid u (goals st)) as [g|] eqn:Hg; [|now apply Effect_none].
    unfold Progress_create.
    destruct (validateProgress env _) as [ms|p] eqn:Hv; [now apply Effect_none|].
    destruct (existsb _ (progresses st)) eqn:E; [now apply Effect_none|].
    destruct (validateProgress_owner env _ p Hv) as (_ & Hgid & Huid). simpl in Hgid, Huid.
    destruct (Goal_findOne_some oid u (goals st) g Hg) as (Hin & Hi & Ho).
    apply (Effect_progress_logged env st _ g p); try reflexivity; try congruence.
    apply (existsb_fresh progress_id (progress_id p) (progresses st) E).
  - unfold logProgress, withObjectId, isValidObjectId. rewrite Hc.
    now apply Effect_none.
Qed.

Lemma registerUser_effect (env : Env) (body : Credentials) (st : State) :
  Effect env st (fst (registerUser env body st)).
Proof.
  unfold registerUser.
  destruct (falsy _ || falsy _); [now apply Effect_none|].
  cbv zeta. destruct (User_findOne _ _); [now apply Effect_none|].
  destruct (User_create env _ _ (users st)) as [us [newUser|[ms|e]]];
    now apply Effect_none.
Qed.

Lemma loginUser_effect (env : Env) (body : Credentials) (st : State) :
  Effect env st (fst (loginUser env body st)).
Proof.
  unfold loginUser.
  destruct (falsy _ || falsy _); [now apply Effect_none|].
  cbv zeta. destruct (User_findOne _ _); [|now apply Effect_none].
  destruct (negb _); now apply Effect_none.
Qed.

Lemma getGoalById_state (u : ObjectId) (id : string) (st : State) :
  fst (getGoalById u id st) = st.
Proof.
  unfold getGoalById, withObjectId.
  destruct (negb (isValidObjectId id)); [reflexivity|].
  destruct (castObjectId id); [|reflexivity].
  destruct (Goal_findOne _ _ _); reflexivity.
Qed.

Lemma getGoalProgress_state (u : ObjectId) (goalId : string) (st : State) :
  fst (getGoalProgress u goalId st) = st.
Proof.
  unfold getGoalProgress, withObjectId.
  destruct (negb (isValidObjectId goalId)); [reflexivity|].
  destruct (castObjectId goalId); [|reflexivity].
  destruct (Goal_findOne _ _ _); reflexivity.
Qed.

Lemma guarded_effect (env : Env) (a : option string) (controller : ObjectId -> Controller)
  (st : State) :
  (forall u, Effect env st (fst (controller u st))) ->
  Effect env st (fst (guarded env a controller st)).
Proof.
  intros H. unfold guarded. destruct (protect env a st) as [u|e].
  - unfold unguarded. specialize (H u). destruct (controller u st). exact H.
  - now apply Effect_none.
Qed.

Lemma unguarded_effect (env : Env) (controller : Controller) (st : State) :
  Effect env st (fst (controller st)) -> Effect env st (fst (unguarded controller st)).
Proof. unfold unguarded. destruct (controller st). auto. Qed.

Lemma handle_effect (env : Env) (req : Request) (st : State) :
  Effect env st (fst (handle env req st)).
Proof.
  destruct req; simpl.
  - apply unguarded_effect, registerUser_effect.
  - apply unguarded_effect, loginUser_effect.
  - apply guarded_effect. intros u. apply createGoal_effect.
  - apply guarded_effect. intros u. now apply Effect_none.
  - apply guarded_effect. intros u. rewrite getGoalById_state. now apply Effect_none.
  - apply guarded_effect. intros u. apply updateGoal_effect.
  - apply guarded_effect. intros u. apply deleteGoal_effect.
  - apply guarded_effect. intros u. apply logProgress_effect.
  - apply guarded_effect. intros u. rewrite getGoalProgress_state. now apply Effect_none.
Qed.

(** ** The database invariant *)

Lemma map_goal_id_updateFirst (p : Goal -> bool) (f : Goal -> Goal) (gs : list Goal) :
  (forall g, goal_id (f g) = goal_id g) ->
  map goal_id (updateFirst p f gs) = map goal_id gs.
Proof.
  intros Hf. induction gs as [|x gs IH]; simpl; [reflexivity|].
  destruct (p x); simpl; [rewrite Hf | rewrite IH]; reflexivity.
Qed.

Lemma In_updateFirst (p : Goal -> bool) (f : Goal -> Goal) (gs : list Goal) (g : Goal) :
  In g gs -> In g (updateFirst p f gs) \/ In (f g) (updateFirst p f gs).
Proof.
  induction gs as [|x gs IH]; simpl; [tauto|].
  intros [-> | Hin]; destruct (p _); simpl; auto.
  destruct (IH Hin); auto.
Qed.

Lemma removeFirst_incl (p : Goal -> bool) (gs : list Goal) (g : Goal) :
  In g (removeFirst p gs) -> In g gs.
Proof.
  induction gs as [|x gs IH]; simpl; [tauto|].
  destruct (p x); simpl; [auto|]. intros [-> | H]; auto.
Qed.

Lemma removeFirst_keeps (p : Goal -> bool) (gs : list Goal) (g : Goal) :
  In g gs -> p g = false -> In g (removeFirst p gs).
Proof.
  induction gs as [|x gs IH]; simpl; [tauto|].
  intros [-> | Hin] Hp.
  - rewrite Hp. now left.
  - destruct (p x); [exact Hin|]. right. auto.
Qed.

Lemma NoDup_map_removeFirst (p : Goal -> bool) (gs : list Goal) :
  NoDup (map goal_id gs) -> NoDup (map goal_id (removeFirst p gs)).
Proof.
  induction gs as [|x gs IH]; simpl; [auto|].
  intros H. inversion H as [|? ? Hnot Hrest]; subst.
  destruct (p x); [exact Hrest|]. simpl. constructor; [|auto].
  intros Hin. apply Hnot. apply in_map_iff in Hin. destruct Hin as [y [Hy Hin]].
  apply in_map_iff. exists y. split; [exact Hy|]. now apply removeFirst_incl in Hin.
Qed.

Lemma NoDup_map_snoc {A} (key : A -> N) (l : list A) (x : A) :
  NoDup (map key l) -> (forall y, In y l -> key y <> key x) ->
  NoDup (map key (l ++ [x])).
Proof.
  induction l as [|a l IH]; simpl; intros H Hfresh.
  - constructor; [simpl; tauto | constructor].
  - inversion H as [|? ? Hnot Hrest]; subst. constructor.
    + rewrite map_app, in_app_iff. simpl. intros [Hin | [Heq | []]]; [auto|].
      apply (Hfresh a); auto.
    + apply IH; auto.
Qed.

Lemma NoDup_map_filter {A} (key : A -> N) (p : A -> bool) (l : list A) :
  NoDup (map key l) -> NoDup (map key (filter p l)).
Proof.
  induction l as [|a l IH]; simpl; [auto|].
  intros H. inversion H as [|? ? Hnot Hrest]; subst.
  destruct (p a); simpl; [|auto]. constructor; [|auto].
  intros Hin. apply Hnot. apply in_map_iff in Hin. destruct Hin as [y [Hy Hin]].
  apply in_map_iff. exists y. split; [exact Hy|]. apply filter_In in Hin. tauto.
Qed.

Lemma Effect_preserves_Invariant (env : Env) (st st' : State) :
  Effect env st st' -> Invariant st -> Invariant st'.
Proof.
  intros E (Hg & Hp & Hown). unfold Invariant.
  destruct E as [Eg Ep | g Eg Ep Hfresh | id u c Eg Ep | id u Eg Ep
                 | g p Eg Ep Hin Hgid Huid Hfresh]; rewrite Eg, Ep.
  - auto.
  - split; [now apply NoDup_map_snoc|]. split; [exact Hp|].
    intros p Hin. destruct (Hown p Hin) as [g0 [Hg0 Hrest]].
    exists g0. split; [apply in_app_iff; now left | exact Hrest].
  - split; [now rewrite map_goal_id_updateFirst|]. split; [exact Hp|].
    intros p Hin. destruct (Hown p Hin) as [g0 [Hg0 [Hi Ho]]].
    destruct (In_updateFirst (ownedGoal id u) (applyUpdate env c) (goals st) g0 Hg0)
      as [H | H].
    + exists g0. auto.
    + exists (applyUpdate env c g0). auto.
  - split; [now apply NoDup_map_removeFirst|].
    split; [now apply NoDup_map_filter|].
    intros p Hin. apply filter_In in Hin. destruct Hin as [Hin Hkeep].
    destruct (Hown p Hin) as [g0 [Hg0 [Hi Ho]]].
    exists g0. split; [|auto]. apply removeFirst_keeps; [exact Hg0|].
    apply negb_true_iff in Hkeep. unfold ownedGoal. unfold progressOf in Hkeep.
    now rewrite Hi, Ho.
  - split; [exact Hg|]. split; [now apply NoDup_map_snoc|].
    intros q Hq. apply in_app_iff in Hq. destruct Hq as [Hq | [<- | []]]; [auto|].
    exists g. auto.
Qed.

Lemma Reachable_Invariant (st : State) : Reachable st -> Invariant st.
Proof.
  induction 1 as [|env req st _ IH].
  - repeat split; simpl; try constructor. intros p [].
  - exact (Effect_preserves_Invariant env st _ (handle_effect env req st) IH).
Qed.

Lemma Invariant_owner (st : State) (p : Progress) (g : Goal) :
  Invariant st -> In p (progresses st) -> In g (goals st) ->
  goal_id g = progress_goalId p -> goal_userId g = progress_userId p.
Proof.
  intros (Hg & _ & Hown) Hp Hin Hid.
  destruct (Hown p Hp) as [g0 [Hg0 [Hi Ho]]].
  assert (g = g0) by (apply (NoDup_map_injective goal_id (goals st)); auto; congruence).
  now subst.
Qed.

Lemma Effect_immutable (env : Env) (st st' : State) (p p' : Progress) :
  Effect env st st' -> Invariant st ->
  In p (progresses st) -> In p' (progresses st') ->
  progress_id p' = progress_id p -> p' = p.
Proof.
  intros E (_ & Hp & _) Hin Hin' Hid.
  assert (Hold : In p' (progresses st)).
  { destruct E as [Eg Ep | g Eg Ep Hfresh | id u c Eg Ep | id u Eg Ep
                   | g q Eg Ep Hg Hgid Huid Hfresh]; rewrite Ep in Hin'; auto.
    - apply filter_In in Hin'. tauto.
    - apply in_app_iff in Hin'. destruct Hin' as [H | [<- | []]]; [exact H|].
      elim (Hfresh p Hin). now symmetry. }
  now apply (NoDup_map_injective progress_id (progresses st)).
Qed.

(** C5. In every reachable state each progress entry references a stored
    goal, and the owner of every stored goal it references is the entry's
    own account; no request changes an existing progress entry (an entry
    of the new state with the identifier of an old one is that old entry);
    and log-progress answers 201 only for a goal it has found under the
    authenticated account, storing an entry of that account and goal. *)
Theorem progress_ownership_invariant (st : State) :
  Reachable st ->
  (forall p, In p (progresses st) ->
     (exists g, In g (goals st) /\ goal_id g = progress_goalId p) /\
     (forall g, In g (goals st) -> goal_id g = progress_goalId p ->
                goal_userId g = progress_userId p)) /\
  (forall env req, Reachable (fst (handle env req st))) /\
  (forall env req p p',
     In p (progresses st) -> In p' (progresses (fst (handle env req st))) ->
     progress_id p' = progress_id p -> p' = p) /\
  (forall env u goalId body st' p,
     logProgress env u goalId body st = (st', Respond (mkResponse 201 (JsonProgress p))) ->
     progress_userId p = u /\
     castObjectId goalId = Some (progress_goalId p) /\
     (exists g, Goal_findOne (progress_goalId p) u (goals st) = Some g) /\
     progresses st' = progresses st ++ [p] /\ goals st' = goals st).
Proof.
  intros HR. pose proof (Reachable_Invariant st HR) as HI.
  split; [|split; [|split]].
  - intros p Hp. split.
    + destruct HI as (_ & _ & Hown). destruct (Hown p Hp) as [g [Hg [Hi _]]]. eauto.
    + intros g Hg Hid. now apply (Invariant_owner st p g).
  - intros env req. now constructor.
  - intros env req p p'. apply (Effect_immutable env st _ p p'); auto.
    apply handle_effect.
  - intros env u goalId body st' p.
    destruct (castObjectId goalId) as [oid|] eqn:Hc.
    + rewrite (logProgress_cast env u goalId oid body st Hc).
      destruct (Goal_findOne oid u (goals st)) as [g|] eqn:Hg; [|discriminate].
      unfold Progress_create.
      destruct (validateProgress env _) as [ms|q] eqn:Hv; [discriminate|].
      destruct (existsb _ (progresses st)); [discriminate|].
      intros [= <- <-].
      destruct (validateProgress_owner env _ q Hv) as (_ & Hgid & Huid).
      simpl in Hgid, Huid. rewrite Hgid, Huid.
      repeat split; eauto.
    + unfold logProgress, withObjectId, isValidObjectId. rewrite Hc. discriminate.
Qed.

(** ** Deleting a goal *)

Lemma filter_filter_implied {A} (q r : A -> bool) (l : list A) :
  (forall x, In x l -> q x = true -> r x = true) ->
  filter q (filter r l) = filter q l.
Proof.
  induction l as [|a l IH]; simpl; [reflexivity|]. intros H.
  assert (IH' : filter q (filter r l) = filter q l) by (apply IH; auto).
  destruct (r a) eqn:Hr; simpl.
  - now rewrite IH'.
  - destruct (q a) eqn:Hq; [|exact IH'].
    rewrite (H a (or_introl eq_refl) Hq) in Hr. discriminate.
Qed.

Lemma removeFirst_removes (p : Goal -> bool) (gs : list Goal) (g : Goal) :
  NoDup (map goal_id gs) -> find p gs = Some g -> ~ In g (removeFirst p gs).
Proof.
  induction gs as [|x gs IH]; simpl; [discriminate|].
  intros H. inversion H as [|? ? Hnot Hrest]; subst.
  destruct (p x) eqn:Hp.
  - intros [= <-] Hin. apply Hnot. now apply in_map.
  - intros Hf [<- | Hin].
    + apply find_some in Hf. destruct Hf as [_ Hf]. congruence.
    + now apply (IH Hrest Hf).
Qed.

(** C3. A delete of a goal owned by the authenticated account answers 204
    without a body; afterwards the progress store holds no entry of that
    goal, the entries of every other goal are exactly those it held
    before, in the same order and unchanged, and the goal itself is gone. *)
Theorem delete_goal_cascade
  (u : ObjectId) (id : string) (oid : ObjectId) (st : State) (g : Goal) :
  Reachable st ->
  castObjectId id = Some oid ->
  In g (goals st) -> goal_id g = oid -> goal_userId g = u ->
  exists st',
    unguarded (deleteGoal u id) st = (st', mkResponse 204 NoBody) /\
    (forall p, In p (progresses st') -> progress_goalId p <> oid) /\
    filter (fun p => negb (N.eqb (progress_goalId p) oid)) (progresses st')
      = filter (fun p => negb (N.eqb (progress_goalId p) oid)) (progresses st) /\
    (forall p, In p (progresses st') -> In p (progresses st)) /\
    (forall g', In g' (goals st') -> goal_id g' <> oid) /\
    users st' = users st.
Proof.
  intros HR Hc Hin Hid Hu. pose proof (Reachable_Invariant st HR) as HI.
  destruct (Goal_findOne_owned oid u (goals st) g Hin Hid Hu) as [g0 Hg0].
  unfold unguarded. rewrite (deleteGoal_cast u id oid st Hc), Hg0.
  eexists. split; [reflexivity|]. simpl. unfold Progress_deleteMany.
  split; [|split; [|split; [|split]]].
  - intros p Hp Hgid. apply filter_In in Hp. destruct Hp as [Hp Hkeep].
    apply negb_true_iff in Hkeep. unfold progressOf in Hkeep.
    assert (Ho : goal_userId g = progress_userId p).
    { apply (Invariant_owner st p g HI Hp Hin). congruence. }
    apply N.eqb_eq in Hgid. rewrite Hgid in Hkeep. simpl in Hkeep.
    apply N.eqb_neq in Hkeep. congruence.
  - apply filter_filter_implied. intros p _ Hq.
    unfold progressOf. apply negb_true_iff in Hq. now rewrite Hq.
  - intros p Hp. apply filter_In in Hp. tauto.
  - intros g' Hg' Hid'.
    destruct HI as (Hnd & _).
    destruct (Goal_findOne_some oid u (goals st) g0 Hg0) as (Hin0 & Hid0 & _).
    assert (g' = g0).
    { apply (NoDup_map_injective goal_id (goals st)); auto.
      - now apply removeFirst_incl in Hg'.
      - congruence. }
    subst g'. now apply (removeFirst_removes (ownedGoal oid u) (goals st) g0 Hnd Hg0).
  - reflexivity.
Qed.

(** ** Listing progress *)

Lemma progressBefore_spec (a b : Progress) :
  progressBefore a b = true <-> dateDescThenCreatedDesc a b.
Proof.
  unfold progressBefore, dateDescThenCreatedDesc.
  rewrite orb_true_iff, andb_true_iff, Z.ltb_lt, Z.eqb_eq, Z.leb_le. lia.
Qed.

Lemma progressBefore_total (a b : Progress) :
  progressBefore a b = false -> dateDescThenCreatedDesc b a.
Proof.
  unfold progressBefore, dateDescThenCreatedDesc.
  rewrite orb_false_iff, andb_false_iff, Z.ltb_ge, Z.eqb_neq, Z.leb_gt. lia.
Qed.

Lemma dateDescThenCreatedDesc_trans (a b c : Progress) :
  dateDescThenCreatedDesc a b -> dateDescThenCreatedDesc b c ->
  dateDescThenCreatedDesc a c.
Proof. unfold dateDescThenCreatedDesc. lia. Qed.

Lemma insertSorted_Permutation {A} (before : A -> A -> bool) (x : A) (l : list A) :
  Permutation (insertSorted before x l) (x :: l).
Proof.
  induction l as [|y l IH]; simpl; [reflexivity|].
  destruct (before x y); [reflexivity|].
  rewrite IH. apply perm_swap.
Qed.

Lemma sortBy_Permutation {A} (before : A -> A -> bool) (l : list A) :
  Permutation (sortBy before l) l.
Proof.
  induction l as [|x l IH]; simpl; [reflexivity|].
  rewrite insertSorted_Permutation. now constructor.
Qed.

Lemma Forall_insertSorted {A} (Q : A -> Prop) (before : A -> A -> bool) (x : A)
  (l : list A) :
  Q x -> Forall Q l -> Forall Q (insertSorted before x l).
Proof.
  intros Hx. induction 1 as [|y l Hy Hl IH]; simpl.
  - auto.
  - destruct (before x y); auto.
Qed.

Lemma insertSorted_sorted (x : Progress) (l : list Progress) :
  StronglySorted dateDescThenCreatedDesc l ->
  StronglySorted dateDescThenCreatedDesc (insertSorted progressBefore x l).
Proof.
  induction 1 as [|y l Hs IH Hall]; simpl.
  - constructor; constructor.
  - destruct (progressBefore x y) eqn:E.
    + apply progressBefore_spec in E. constructor.
      * now constructor.
      * constructor; [exact E|].
        eapply Forall_impl; [|exact Hall].
        intros z Hz. now apply (dateDescThenCreatedDesc_trans x y z).
    + apply progressBefore_total in E. constructor; [exact IH|].
      now apply Forall_insertSorted.
Qed.

Lemma sortBy_sorted (l : list Progress) :
  StronglySorted dateDescThenCreatedDesc (sortBy progressBefore l).
Proof.
  induction l as [|x l IH]; simpl; [constructor|]. now apply insertSorted_sorted.
Qed.

Lemma getGoalProgress_cast (u : ObjectId) (goalId : string) (oid : ObjectId) (st : State) :
  castObjectId goalId = Some oid ->
  getGoalProgress u goalId st =
    match Goal_findOne oid u (goals st) with
    | None =>
        (st, Next (mkError (Some 404) "Target goal not found." "goal.controller.js:295"))
    | Some _ =>
        (st, Respond (mkResponse 200
                        (JsonProgressLogs (Progress_find_sorted oid u (progresses st)))))
    end.
Proof.
  intros Hc. unfold getGoalProgress, withObjectId, isValidObjectId. rewrite Hc. reflexivity.
Qed.

(** C9. Listing the progress of an owned goal answers 200 with exactly the
    stored entries of that goal, each once, ordered by entry date
    descending and, among equal entry dates, by creation time descending. *)
Theorem list_progress_sorted
  (u : ObjectId) (goalId : string) (oid : ObjectId) (st : State) (g : Goal) :
  Reachable st ->
  castObjectId goalId = Some oid ->
  In g (goals st) -> goal_id g = oid -> goal_userId g = u ->
  exists l,
    unguarded (getGoalProgress u goalId) st = (st, mkResponse 200 (JsonProgressLogs l)) /\
    Permutation l (filter (fun p => N.eqb (progress_goalId p) oid) (progresses st)) /\
    StronglySorted dateDescThenCreatedDesc l.
Proof.
  intros HR Hc Hin Hid Hu. pose proof (Reachable_Invariant st HR) as HI.
  destruct (Goal_findOne_owned oid u (goals st) g Hin Hid Hu) as [g0 Hg0].
  unfold unguarded. rewrite (getGoalProgress_cast u goalId oid st Hc), Hg0.
  eexists. split; [reflexivity|]. unfold Progress_find_sorted. split.
  - rewrite sortBy_Permutation.
    replace (filter (progressOf oid u) (progresses st))
      with (filter (fun p => N.eqb (progress_goalId p) oid) (progresses st));
      [reflexivity|].
    apply filter_ext_in. intros p Hp. unfold progressOf.
    destruct (N.eqb (progress_goalId p) oid) eqn:E; [|reflexivity].
    apply N.eqb_eq in E. simpl. symmetry. apply N.eqb_eq.
    rewrite <- (Invariant_owner st p g HI Hp Hin); congruence.
  - apply sortBy_sorted.
Qed.

(** ** Goals of another account *)

Lemma foreign_goal_lookup (st : State) (u oid : ObjectId) (g : Goal) :
  Invariant st -> In g (goals st) -> goal_id g = oid -> goal_userId g <> u ->
  Goal_findOne oid u (goals st) = None.
Proof.
  intros (Hnd & _) Hin Hid Hu.
  destruct (Goal_findOne oid u (goals st)) as [g0|] eqn:E; [|reflexivity].
  destruct (Goal_findOne_some oid u (goals st) g0 E) as (Hin0 & Hid0 & Hu0).
  assert (g0 = g) by (apply (NoDup_map_injective goal_id (goals st)); auto; congruence).
  subst g0. contradiction.
Qed.

Lemma forgotten_goal_lookup (st : State) (u oid : ObjectId) :
  Goal_findOne oid u (goals (forgetGoal oid st)) = None.
Proof.
  simpl. destruct (Goal_findOne oid u _) as [g0|] eqn:E; [|reflexivity].
  destruct (Goal_findOne_some _ _ _ g0 E) as (Hin0 & Hid0 & _).
  apply filter_In in Hin0. destruct Hin0 as [_ Hne].
  apply negb_true_iff, N.eqb_neq in Hne. contradiction.
Qed.

Lemma getGoalById_cast (u : ObjectId) (id : string) (oid : ObjectId) (st : State) :
  castObjectId id = Some oid ->
  getGoalById u id st =
    match Goal_findOne oid u (goals st) with
    | None => (st, Next (mkError (Some 404) "Goal not found." "goal.controller.js:107"))
    | Some foundGoal => (st, Respond (mkResponse 200 (JsonGoal foundGoal)))
    end.
Proof.
  intros Hc. unfold getGoalById, withObjectId, isValidObjectId. rewrite Hc. reflexivity.
Qed.

(** What each of the five operations answers when the lookup scoped to the
    account finds no goal. *)
Lemma goal_not_found (env : Env) (u : ObjectId) (id : string) (oid : ObjectId)
  (body : GoalBody) (entry : ProgressBody) (st : State) :
  castObjectId id = Some oid ->
  Goal_findOne oid u (goals st) = None ->
  unguarded (getGoalById u id) st
    = (st, errorHandler (mkError (Some 404) "Goal not found." "goal.controller.js:107")) /\
  unguarded (deleteGoal u id) st
    = (st, errorHandler (mkError (Some 404) "Goal not found." "goal.controller.js:207")) /\
  unguarded (logProgress env u id entry) st
    = (st, errorHandler (mkError (Some 404) "Target goal not found."
                                 "goal.controller.js:247")) /\
  unguarded (getGoalProgress u id) st
    = (st, errorHandler (mkError (Some 404) "Target goal not found."
                                 "goal.controller.js:295")) /\
  unguarded (updateGoal env u id body) st
    = (st,
       if defined (body_title body) && blankTitle (body_title body)
       then errorHandler (mkError (Some 400) "Goal title cannot be empty."
                                  "goal.controller.js:143")
       else if (updateKeys (mkUpdateData (body_title body) (body_description body)
                                         (body_status body) (body_targetDate body)) =? 0)%nat
       then errorHandler (mkError (Some 400) "No update fields provided."
                                  "goal.controller.js:155")
       else match validateUpdate (mkUpdateData (body_title body) (body_description body)
                                               (body_status body) (body_targetDate body)) with
            | inl (ValidationError messages) => errorHandler (handleValidationError messages)
            | inl (OtherError e) => errorHandler e
            | inr _ => errorHandler (mkError (Some 404) "Goal not found."
                                             "goal.controller.js:168")
            end).
Proof.
  intros Hc Hnone. unfold unguarded.
  rewrite (getGoalById_cast u id oid st Hc), (deleteGoal_cast u id oid st Hc),
    (logProgress_cast env u id oid entry st Hc), (getGoalProgress_cast u id oid st Hc),
    (updateGoal_cast env u id oid body st Hc), Hnone.
  repeat split.
  destruct (defined _ && blankTitle _); [reflexivity|].
  cbv zeta. destruct (updateKeys _ =? 0)%nat; [reflexivity|].
  destruct (validateUpdate _) as [[ms|e]|c]; reflexivity.
Qed.

(** C1 (amended). For a goal that exists but is owned by another account,
    read-one, delete, log-progress and list-progress fail with 404, and so
    does update whenever its body supplies at least one field and every
    supplied field is valid; each of the five operations leaves the
    database as it was and answers exactly as it does when no goal with
    that id exists at all. *)
Theorem foreign_goal_is_not_found
  (env : Env) (st : State) (u : ObjectId) (id : string) (oid : ObjectId) (g : Goal)
  (body : GoalBody) (entry : ProgressBody) :
  Reachable st ->
  castObjectId id = Some oid ->
  In g (goals st) -> goal_id g = oid -> goal_userId g <> u ->
  let absent := forgetGoal oid st in
  let answer (controller : Controller) (s : State) := snd (unguarded controller s) in
  let unchanged (controller : Controller) (s : State) := fst (unguarded controller s) = s in
  (res_status (answer (getGoalById u id) st) = 404 /\
   res_status (answer (deleteGoal u id) st) = 404 /\
   res_status (answer (logProgress env u id entry) st) = 404 /\
   res_status (answer (getGoalProgress u id) st) = 404 /\
   (suppliesSomething body -> validUpdateBody body ->
    res_status (answer (updateGoal env u id body) st) = 404)) /\
  (answer (getGoalById u id) st = answer (getGoalById u id) absent /\
   answer (deleteGoal u id) st = answer (deleteGoal u id) absent /\
   answer (logProgress env u id entry) st = answer (logProgress env u id entry) absent /\
   answer (getGoalProgress u id) st = answer (getGoalProgress u id) absent /\
   answer (updateGoal env u id body) st = answer (updateGoal env u id body) absent) /\
  (unchanged (getGoalById u id) st /\
   unchanged (deleteGoal u id) st /\
   unchanged (logProgress env u id entry) st /\
   unchanged (getGoalProgress u id) st /\
   unchanged (updateGoal env u id body) st) /\
  (forall g', In g' (goals absent) -> goal_id g' <> oid).
Proof.
  intros HR Hc Hin Hid Hu absent answer unchanged.
  pose proof (Reachable_Invariant st HR) as HI.
  pose proof (foreign_goal_lookup st u oid g HI Hin Hid Hu) as Hnone.
  pose proof (forgotten_goal_lookup st u oid) as Hnone'. fold absent in Hnone'.
  destruct (goal_not_found env u id oid body entry st Hc Hnone)
    as (H1 & H2 & H3 & H4 & H5).
  destruct (goal_not_found env u id oid body entry absent Hc Hnone')
    as (A1 & A2 & A3 & A4 & A5).
  unfold answer, unchanged.
  rewrite H1, H2, H3, H4, H5, A1, A2, A3, A4, A5. simpl.
  split; [|split; [|split]].
  - repeat split. intros Hsome Hvalid.
    destruct (validateUpdate_accepts body Hvalid) as [c Hv].
    destruct Hvalid as [Ht _]. destruct (title_accepted _ Ht) as [Hb _].
    rewrite Hb, (updateKeys_supplied body Hsome), Hv. reflexivity.
  - repeat split.
  - repeat split.
  - intros g' Hg'. apply filter_In in Hg'. destruct Hg' as [_ Hne].
    now apply negb_true_iff, N.eqb_neq in Hne.
Qed.

End Properties.

(** * Further properties *)

Section Further.

Context {P : Platform}.

(** ** The gate and the client's header *)

Lemma User_findById_some (id : ObjectId) (us : list User) (u : User) :
  User_findById id us = Some u -> In u us /\ user_id u = id.
Proof.
  unfold User_findById. intros H. apply find_some in H.
  destruct H as [Hin Heq]. apply N.eqb_eq in Heq. auto.
Qed.

Lemma User_findById_member (us : list User) (u : User) :
  In u us -> exists u0, User_findById (user_id u) us = Some u0.
Proof.
  intros Hin. unfold User_findById.
  destruct (find _ us) as [u0|] eqn:E; [eauto|].
  pose proof (find_none _ _ E u Hin) as Hf. simpl in Hf.
  rewrite N.eqb_refl in Hf. discriminate.
Qed.

Lemma castObjectId_nonempty (s : string) (id : ObjectId) :
  castObjectId s = Some id -> isEmpty s = false.
Proof. destruct s; [discriminate | reflexivity]. Qed.

Lemma gate_attaches_existing_account_aux
  (env : Env) (h : option string) (st : State) (u : ObjectId) :
  protect env h st = Attach u -> exists user, In user (users st) /\ user_id user = u.
Proof.
  unfold protect. destruct (extractToken h) as [token|]; [|discriminate].
  destruct (isEmpty token); [discriminate|].
  unfold verifyToken.
  destruct (jwt_verify token (now env)) as [m|[| |s]]; try discriminate.
  destruct (isEmpty s); [discriminate|].
  destruct (castObjectId s) as [id|]; [|discriminate].
  destruct (User_findById id (users st)) as [user|] eqn:Hu; [|discriminate].
  intros [= <-]. apply User_findById_some in Hu. exists user. exact Hu.
Qed.

(** The gate attaches an account only when the verified payload of the
    presented token spells the id of an account that exists. *)
Theorem gate_attaches_existing_account
  (env : Env) (h : option string) (st : State) (u : ObjectId) :
  protect env h st = Attach u ->
  (exists user, In user (users st) /\ user_id user = u) /\
  (exists token s,
     extractToken h = Some token /\
     jwt_verify token (now env) = JwtDecoded (Val s) /\
     castObjectId s = Some u).
Proof.
  unfold protect. destruct (extractToken h) as [token|]; [|discriminate].
  destruct (isEmpty token); [discriminate|].
  unfold verifyToken.
  destruct (jwt_verify token (now env)) as [m|[| |s]] eqn:Hv; try discriminate.
  destruct (isEmpty s); [discriminate|].
  destruct (castObjectId s) as [id|] eqn:Hc; [|discriminate].
  destruct (User_findById id (users st)) as [user|] eqn:Hu; [|discriminate].
  intros [= <-]. apply User_findById_some in Hu. destruct Hu as [Hin Hid].
  split; [exists user; auto | exists token, s; auto].
Qed.

Lemma extractToken_Bearer (t : string) :
  spaceless t -> extractToken (Some ("Bearer " ++ t)%string) = Some t.
Proof.
  intros Ht. unfold extractToken.
  replace (negb (isEmpty ("Bearer " ++ t)%string)
           && startsWith "Bearer " ("Bearer " ++ t)%string) with true.
  - rewrite split_Bearer.
    destruct (split_first_word t EmptyString Ht (or_introl eq_refl)) as [tail Hs].
    replace (t ++ EmptyString)%string with t in Hs; [now rewrite Hs|].
    clear. induction t as [|c t IH]; simpl; [reflexivity | now rewrite <- IH].
  - unfold startsWith. simpl. destruct t; reflexivity.
Qed.

(** The header the client's request interceptor builds from a stored token
    without spaces is read back by the gate as that same token; with no
    stored token (or an empty one) no header is sent and the gate answers
    as for a missing token. *)
Theorem interceptor_header_round_trip (stored : option string) :
  (forall t, stored = Some t -> t <> EmptyString -> spaceless t ->
             extractToken (requestInterceptor stored) = Some t) /\
  (stored = None \/ stored = Some EmptyString ->
   requestInterceptor stored = None /\
   forall env st, protect env (requestInterceptor stored) st = Reject noTokenError).
Proof.
  split.
  - intros t -> Hne Ht. simpl. apply isEmpty_false in Hne. rewrite Hne.
    now apply extractToken_Bearer.
  - intros [-> | ->]; split; reflexivity.
Qed.

(** A token issued for an existing account, stored by the client and sent
    through its request interceptor, passes the gate and attaches that
    account, as long as the verifier returns the payload that was signed. *)
Theorem issued_token_passes_gate
  (env0 env : Env) (st : State) (user : User) :
  In user (users st) ->
  generateToken env0 (user_id user) <> EmptyString ->
  spaceless (generateToken env0 (user_id user)) ->
  (exists s, jwt_verify (generateToken env0 (user_id user)) (now env) = JwtDecoded (Val s) /\
             castObjectId s = Some (user_id user)) ->
  protect env (requestInterceptor (Some (generateToken env0 (user_id user)))) st
    = Attach (user_id user).
Proof.
  intros Hin Hne Hsp [s [Hv Hc]].
  assert (Hx : extractToken (requestInterceptor (Some (generateToken env0 (user_id user))))
               = Some (generateToken env0 (user_id user))).
  { simpl. rewrite (proj2 (isEmpty_false _) Hne). now apply extractToken_Bearer. }
  rewrite (protect_with_token env _ st _ Hx Hne).
  unfold verifyToken. rewrite Hv, (castObjectId_nonempty s _ Hc), Hc.
  destruct (User_findById_member (users st) user Hin) as [u0 ->]. reflexivity.
Qed.

(** ** Accounts *)

Lemma lowerChar_idempotent (c : ascii) : lowerChar (lowerChar c) = lowerChar c.
Proof. destruct c as [[] [] [] [] [] [] [] []]; reflexivity. Qed.

Lemma lowerChar_not_upper (c : ascii) : isUpper (lowerChar c) = false.
Proof. destruct c as [[] [] [] [] [] [] [] []]; reflexivity. Qed.


Lemma toLowerCase_idempotent (s : string) : toLowerCase (toLowerCase s) = toLowerCase s.
Proof.
  induction s as [|c s IH]; simpl; [reflexivity|].
  now rewrite lowerChar_idempotent, IH.
Qed.

Lemma toLowerCase_not_upper (s : string) :
  all (fun c => negb (isUpper c)) (toLowerCase s) = true.
Proof.
  induction s as [|c s IH]; simpl; [reflexivity|].
  now rewrite lowerChar_not_upper, IH.
Qed.

Lemma toLowerCase_fixed (s : string) :
  all (fun c => negb (isUpper c)) s = true -> toLowerCase s = s.
Proof.
  induction s as [|c s IH]; simpl; [reflexivity|].
  intros H. apply andb_prop in H. destruct H as [Hc Hs]. rewrite (IH Hs). f_equal.
  unfold lowerChar. apply negb_true_iff in Hc. now rewrite Hc.
Qed.

Lemma toLowerCase_empty (s : string) : isEmpty (toLowerCase s) = isEmpty s.
Proof. destruct s; reflexivity. Qed.

Lemma all_trimStart (p : ascii -> bool) (s : string) :
  all p s = true -> all p (trimStart s) = true.
Proof.
  induction s as [|c s IH]; simpl; [auto|].
  intros H. destruct (isWhitespace c); [|exact H].
  apply andb_prop in H. tauto.
Qed.

Lemma all_trimEnd (p : ascii -> bool) (s : string) :
  all p s = true -> all p (trimEnd s) = true.
Proof.
  induction s as [|c s IH]; simpl; [auto|].
  intros H. apply andb_prop in H. destruct H as [Hc Hs]. specialize (IH Hs).
  destruct (trimEnd s) as [|d t].
  - destruct (isWhitespace c); simpl; [reflexivity | now rewrite Hc].
  - simpl. simpl in IH. now rewrite Hc, IH.
Qed.

Lemma all_trim (p : ascii -> bool) (s : string) : all p s = true -> all p (trim s) = true.
Proof. intros H. unfold trim. now apply all_trimEnd, all_trimStart. Qed.

Lemma find_snoc {A} (p : A -> bool) (l : list A) (x : A) :
  find p l = None -> p x = true -> find p (l ++ [x]) = Some x.
Proof.
  induction l as [|a l IH]; simpl; intros Hn Hx.
  - now rewrite Hx.
  - destruct (p a); [discriminate | auto].
Qed.

Lemma User_findOne_none (email : string) (us : list User) :
  User_findOne email us = None <->
  forall u, In u us -> user_email u <> emailSetters email.
Proof.
  unfold User_findOne. split.
  - intros H u Hin Heq. pose proof (find_none _ _ H u Hin) as Hf. simpl in Hf.
    rewrite Heq, String.eqb_refl in Hf. discriminate.
  - intros H. destruct (find _ us) as [u|] eqn:E; [|reflexivity].
    apply find_some in E. destruct E as [Hin Heq]. apply String.eqb_eq in Heq.
    elim (H u Hin Heq).
Qed.

(** What [registerUser] does once both credentials are present. *)
Lemma registerUser_present (env : Env) (e p : string) (st : State) :
  e <> EmptyString -> p <> EmptyString ->
  registerUser env (mkCredentials (Val e) (Val p)) st =
    match User_findOne (toLowerCase e) (users st) with
    | Some _ =>
        (st, Next (mkError (Some 409) "Email already in use." "auth.controller.js:66"))
    | None =>
        match User_create env (toLowerCase e) p (users st) with
        | (us, Ok newUser) =>
            (withUsers st us,
             Respond (mkResponse 201 (JsonToken (generateToken env (user_id newUser)))))
        | (_, Throw (ValidationError messages)) =>
            (st, Next (formatValidationError "auth.controller.js:90" messages))
        | (_, Throw (OtherError err)) => (st, Next err)
        end
    end.
Proof.
  intros He Hp. unfold registerUser. simpl.
  apply isEmpty_false in He. apply isEmpty_false in Hp. now rewrite He, Hp.
Qed.

(** What a body must look like for [registerUser] to answer at all. *)
Lemma registerUser_answers (env : Env) (body : Credentials) (st st' : State) (r : Response) :
  registerUser env body st = (st', Respond r) ->
  exists e p,
    body = mkCredentials (Val e) (Val p) /\ e <> EmptyString /\ p <> EmptyString /\
    User_findOne (toLowerCase e) (users st) = None /\
    checkEmail (toLowerCase e) = inr (emailSetters (toLowerCase e)) /\
    checkPassword p = inr p /\
    (forall u, In u (users st) -> user_id u <> newId env) /\
    st' = withUsers st (users st ++ [mkUser (newId env) (emailSetters (toLowerCase e))
                                            (bcrypt_hash p)]) /\
    r = mkResponse 201 (JsonToken (generateToken env (newId env))).
Proof.
  destruct body as [[| |e] [| |p]]; try (unfold registerUser; simpl; discriminate).
  - unfold registerUser. simpl. rewrite orb_true_r. discriminate.
  - unfold registerUser. simpl. rewrite orb_true_r. discriminate.
  - destruct (isEmpty e) eqn:He; [unfold registerUser; simpl; rewrite He; discriminate|].
    destruct (isEmpty p) eqn:Hp;
      [unfold registerUser; simpl; rewrite He, Hp; discriminate|].
    apply isEmpty_false in He. apply isEmpty_false in Hp.
    rewrite (registerUser_present env e p st He Hp).
    destruct (User_findOne (toLowerCase e) (users st)) eqn:Hf; [discriminate|].
    unfold User_create. cbv zeta.
    destruct (checkEmail (toLowerCase e)) as [m1|e1] eqn:E1;
      [destruct (checkPassword p); discriminate|].
    destruct (checkPassword p) as [m2|p1] eqn:E2; [discriminate|].
    assert (He1 : e1 = emailSetters (toLowerCase e)).
    { unfold checkEmail in E1.
      destruct (isEmpty (emailSetters (toLowerCase e))); [discriminate|].
      destruct (matchesEmail (emailSetters (toLowerCase e))); [|discriminate].
      now injection E1. }
    assert (Hp1 : p1 = p).
    { unfold checkPassword in E2. destruct (isEmpty p); [discriminate|].
      destruct (String.length p <? 8)%nat; [discriminate|]. now injection E2. }
    subst e1 p1.
    destruct (existsb _ (users st)) eqn:E5; [discriminate|].
    intros [= <- <-]. exists e, p.
    repeat split; auto.
    intros u Hin Hid.
    assert (Ht : existsb (fun u' => N.eqb (user_id u') (newId env)
                                    || String.eqb (user_email u')
                                         (emailSetters (toLowerCase e))) (users st) = true).
    { apply existsb_exists. exists u. split; [exact Hin|].
      apply orb_true_iff. left. now apply N.eqb_eq. }
    simpl in E5. congruence.
Qed.

(** Registration with an email that (lower-cased and trimmed) matches the
    schema's pattern and a password of at least 8 characters, when no
    account has that email and the generated id is new, answers 201 with a
    token for the new account and stores the account under the
    normalised email with the hashed password; goals and progress are
    untouched. *)
Theorem register_succeeds (env : Env) (e p : string) (st : State) :
  validCredentials e p ->
  (forall u, In u (users st) -> user_email u <> trim (toLowerCase e)) ->
  (forall u, In u (users st) -> user_id u <> newId env) ->
  registerUser env (mkCredentials (Val e) (Val p)) st =
    (withUsers st (users st ++ [mkUser (newId env) (trim (toLowerCase e)) (bcrypt_hash p)]),
     Respond (mkResponse 201 (JsonToken (generateToken env (newId env))))).
Proof.
  intros [Hm Hlen] Hemail Hid.
  assert (He : e <> EmptyString) by (intros ->; discriminate).
  assert (Hp : p <> EmptyString) by (intros ->; simpl in Hlen; lia).
  rewrite (registerUser_present env e p st He Hp).
  assert (Hs : emailSetters (toLowerCase e) = trim (toLowerCase e)).
  { unfold emailSetters. now rewrite toLowerCase_idempotent. }
  assert (Hnone : User_findOne (toLowerCase e) (users st) = None).
  { apply User_findOne_none. now rewrite Hs. }
  rewrite Hnone. unfold User_create, checkEmail, checkPassword. rewrite Hs, Hm.
  assert (Hne : isEmpty (trim (toLowerCase e)) = false).
  { destruct (trim (toLowerCase e)); [discriminate | reflexivity]. }
  rewrite Hne, (proj2 (isEmpty_false p) Hp).
  replace (String.length p <? 8)%nat with false by (symmetry; apply Nat.ltb_ge; lia).
  cbv zeta.
  replace (existsb _ (users st)) with false; [reflexivity|].
  symmetry. apply not_true_is_false. intros Ht. apply existsb_exists in Ht.
  destruct Ht as [u [Hin Hu]]. simpl in Hu. apply orb_true_iff in Hu.
  destruct Hu as [Hu | Hu].
  - apply N.eqb_eq in Hu. elim (Hid u Hin Hu).
  - apply String.eqb_eq in Hu. elim (Hemail u Hin Hu).
Qed.

(** After a successful registration, a login with the same password and
    the same email in any letter case succeeds with a token for the
    account just created, as long as the hash of a password verifies
    against that password. *)
Theorem register_then_login
  (env env' : Env) (body : Credentials) (st st' : State) (r : Response) (e' : string) :
  (forall q, bcrypt_compare q (bcrypt_hash q) = true) ->
  registerUser env body st = (st', Respond r) ->
  toLowerCase e' = toLowerCase (valueOf (cred_email body)) ->
  loginUser env' (mkCredentials (Val e') (cred_password body)) st' =
    (st', Respond (mkResponse 200 (JsonToken (generateToken env' (newId env))))).
Proof.
  intros Hb Hr He'.
  destruct (registerUser_answers env body st st' r Hr)
    as (e & p & -> & He & Hp & Hnone & _ & _ & _ & -> & _).
  simpl in He'. unfold loginUser. simpl.
  assert (Hne : isEmpty e' = false).
  { rewrite <- toLowerCase_empty, He', toLowerCase_empty. now apply isEmpty_false. }
  rewrite Hne, (proj2 (isEmpty_false p) Hp). simpl. rewrite He'.
  unfold User_findOne in *. rewrite (find_snoc _ _ _ Hnone).
  - unfold comparePassword. simpl. rewrite Hb. reflexivity.
  - simpl. apply String.eqb_refl.
Qed.

(** After a successful registration, registering again with the same email
    in any letter case is refused with 409 "Email already in use." and
    stores nothing. *)
Theorem register_twice_conflict
  (env env' : Env) (body : Credentials) (st st' : State) (r : Response) (e' p' : string) :
  registerUser env body st = (st', Respond r) ->
  toLowerCase e' = toLowerCase (valueOf (cred_email body)) ->
  p' <> EmptyString ->
  registerUser env' (mkCredentials (Val e') (Val p')) st' =
    (st', Next (mkError (Some 409) "Email already in use." "auth.controller.js:66")).
Proof.
  intros Hr He' Hp'.
  destruct (registerUser_answers env body st st' r Hr)
    as (e & p & -> & He & Hp & Hnone & _ & _ & _ & -> & _).
  simpl in He'.
  assert (Hne : e' <> EmptyString).
  { apply isEmpty_false. rewrite <- toLowerCase_empty, He', toLowerCase_empty.
    now apply isEmpty_false. }
  rewrite (registerUser_present env' e' p' _ Hne Hp'). rewrite He'. simpl.
  unfold User_findOne in *. rewrite (find_snoc _ _ _ Hnone); [reflexivity|].
  simpl. apply String.eqb_refl.
Qed.

(** Registration stores nothing and answers 400 when a credential is
    missing or empty, when the email (lower-cased and trimmed) does not
    match the schema's pattern, or when the password is shorter than 8
    characters (the last two for an email no account has). *)
Theorem register_rejects_invalid (env : Env) (body : Credentials) (st : State) :
  falsy (cred_email body) = true \/ falsy (cred_password body) = true \/
  (exists e p, body = mkCredentials (Val e) (Val p) /\
               e <> EmptyString /\ p <> EmptyString /\
               User_findOne (toLowerCase e) (users st) = None /\
               (matchesEmail (trim (toLowerCase e)) = false \/ String.length p < 8)) ->
  exists err,
    registerUser env body st = (st, Next err) /\
    err_statusCode err = Some 400 /\
    res_status (errorHandler err) = 400.
Proof.
  assert (Hfin : forall err, err_statusCode err = Some 400 ->
                             res_status (errorHandler err) = 400).
  { intros err H. unfold errorHandler. now rewrite H. }
  intros [H | [H | (e & p & -> & He & Hp & Hnone & Hbad)]].
  - unfold registerUser. rewrite H. simpl. eauto.
  - unfold registerUser. rewrite H, orb_true_r. eauto.
  - rewrite (registerUser_present env e p st He Hp), Hnone.
    unfold User_create, checkEmail, checkPassword, emailSetters.
    rewrite toLowerCase_idempotent, (proj2 (isEmpty_false p) Hp).
    destruct Hbad as [Hm | Hlen].
    + rewrite Hm. destruct (isEmpty (trim (toLowerCase e)));
        destruct (String.length p <? 8)%nat; simpl; eauto.
    + apply Nat.ltb_lt in Hlen. rewrite Hlen.
      destruct (isEmpty (trim (toLowerCase e))); [simpl; eauto|].
      destruct (matchesEmail (trim (toLowerCase e))); simpl; eauto.
Qed.

Lemma registerUser_refusal (env : Env) (body : Credentials) (st st' : State) (err : JsError) :
  registerUser env body st = (st', Next err) -> st' = st.
Proof.
  unfold registerUser. destruct (falsy _ || falsy _); [now intros [= <- _]|].
  cbv zeta. destruct (User_findOne _ _); [now intros [= <- _]|].
  destruct (User_create env _ _ (users st)) as [us [newUser|[ms|e]]];
    [discriminate | now intros [= <- _] | now intros [= <- _]].
Qed.

Lemma loginUser_state (env : Env) (body : Credentials) (st : State) :
  fst (loginUser env body st) = st.
Proof.
  unfold loginUser. destruct (falsy _ || falsy _); [reflexivity|].
  cbv zeta. destruct (User_findOne _ _); [|reflexivity].
  destruct (negb _); reflexivity.
Qed.

Lemma createGoal_users (env : Env) (u : ObjectId) (body : GoalBody) (st : State) :
  users (fst (createGoal env u body st)) = users st.
Proof.
  unfold createGoal. destruct (falsy _); [reflexivity|].
  destruct (Goal_create env _ (goals st)) as [gs [g|[ms|e]]]; reflexivity.
Qed.

Lemma updateGoal_users (env : Env) (u : ObjectId) (id : string) (body : GoalBody)
  (st : State) :
  users (fst (updateGoal env u id body st)) = users st.
Proof.
  destruct (castObjectId id) as [oid|] eqn:Hc.
  - rewrite (updateGoal_cast env u id oid body st Hc).
    destruct (defined _ && blankTitle _); [reflexivity|].
    cbv zeta. destruct (updateKeys _ =? 0)%nat; [reflexivity|].
    destruct (validateUpdate _) as [[ms|e]|c]; try reflexivity.
    destruct (Goal_findOne oid u (goals st)); reflexivity.
  - unfold updateGoal, withObjectId, isValidObjectId. now rewrite Hc.
Qed.

Lemma deleteGoal_users (u : ObjectId) (id : string) (st : State) :
  users (fst (deleteGoal u id st)) = users st.
Proof.
  destruct (castObjectId id) as [oid|] eqn:Hc.
  - rewrite (deleteGoal_cast u id oid st Hc).
    destruct (Goal_findOne oid u (goals st)); reflexivity.
  - unfold deleteGoal, withObjectId, isValidObjectId. now rewrite Hc.
Qed.

Lemma logProgress_users (env : Env) (u : ObjectId) (goalId : string) (body : ProgressBody)
  (st : State) :
  users (fst (logProgress env u goalId body st)) = users st.
Proof.
  destruct (castObjectId goalId) as [oid|] eqn:Hc.
  - rewrite (logProgress_cast env u goalId oid body st Hc).
    destruct (Goal_findOne oid u (goals st)); [|reflexivity].
    destruct (Progress_create env _ (progresses st)) as [ps [p|[ms|e]]]; reflexivity.
  - unfold logProgress, withObjectId, isValidObjectId. now rewrite Hc.
Qed.

Lemma guarded_users (env : Env) (a : option string) (controller : ObjectId -> Controller)
  (st : State) :
  (forall u, users (fst (controller u st)) = users st) ->
  users (fst (guarded env a controller st)) = users st.
Proof.
  intros H. unfold guarded. destruct (protect env a st) as [u|e]; [|reflexivity].
  unfold unguarded. specialize (H u). now destruct (controller u st).
Qed.

(** What one request can do to the accounts. *)
Lemma handle_users (env : Env) (req : Request) (st : State) :
  users (fst (handle env req st)) = users st \/
  exists e p,
    users (fst (handle env req st))
      = users st ++ [mkUser (newId env) (emailSetters (toLowerCase e)) (bcrypt_hash p)] /\
    checkEmail (toLowerCase e) = inr (emailSetters (toLowerCase e)) /\
    checkPassword p = inr p /\
    User_findOne (toLowerCase e) (users st) = None /\
    (forall u, In u (users st) -> user_id u <> newId env).
Proof.
  destruct req; simpl.
  - unfold unguarded. destruct (registerUser env body st) as [st' [r|err]] eqn:E.
    + destruct (registerUser_answers env body st st' r E)
        as (e & p & _ & _ & _ & Hnone & He & Hp & Hid & -> & _).
      right. exists e, p. simpl. auto.
    + left. simpl. now rewrite (registerUser_refusal env body st st' err E).
  - left. unfold unguarded. pose proof (loginUser_state env body st) as H.
    destruct (loginUser env body st). simpl in *. now subst.
  - left. apply guarded_users. intros u. apply createGoal_users.
  - left. apply guarded_users. reflexivity.
  - left. apply guarded_users. intros u. now rewrite getGoalById_state.
  - left. apply guarded_users. intros u. apply updateGoal_users.
  - left. apply guarded_users. intros u. apply deleteGoal_users.
  - left. apply guarded_users. intros u. apply logProgress_users.
  - left. apply guarded_users. intros u. now rewrite getGoalProgress_state.
Qed.

Lemma checkPassword_length (p q : string) :
  checkPassword p = inr q -> q = p /\ 8 <= String.length p.
Proof.
  unfold checkPassword. destruct (isEmpty p); [discriminate|].
  destruct (String.length p <? 8)%nat eqn:E; [discriminate|].
  intros [= <-]. apply Nat.ltb_ge in E. auto.
Qed.

Lemma checkEmail_accepted (s e : string) :
  checkEmail s = inr e ->
  e = trim (toLowerCase s) /\ matchesEmail e = true /\
  all (fun c => negb (isUpper c)) e = true.
Proof.
  unfold checkEmail, emailSetters. destruct (isEmpty _); [discriminate|].
  destruct (matchesEmail _) eqn:E; [|discriminate].
  intros [= <-]. repeat split; auto.
  apply all_trim, toLowerCase_not_upper.
Qed.

Lemma NoDup_snoc {B} (l : list B) (x : B) : NoDup l -> ~ In x l -> NoDup (l ++ [x]).
Proof.
  induction l as [|a l IH]; simpl; intros Hnd Hnot.
  - constructor; [simpl; tauto | constructor].
  - inversion Hnd as [|? ? Ha Hl]; subst. constructor.
    + rewrite in_app_iff. simpl. intros [H | [H | []]]; [auto|]. subst. tauto.
    + apply IH; tauto.
Qed.

Lemma Reachable_AccountsInvariant (st : State) : Reachable st -> AccountsInvariant st.
Proof.
  induction 1 as [|env req st _ (Hid & Hemail & Hall)].
  - split; [constructor | split; [constructor | intros x []]].
  - destruct (handle_users env req st) as [E | (e & p & E & He & Hp & Hnone & Hfresh)];
      unfold AccountsInvariant; rewrite E.
    + split; [exact Hid | split; [exact Hemail | exact Hall]].
    + apply checkEmail_accepted in He. destruct He as (_ & Hm & Hlow).
      apply checkPassword_length in Hp. destruct Hp as [_ Hlen].
      split; [apply NoDup_map_snoc; auto|].
      split.
      * rewrite map_app. simpl. apply NoDup_snoc; [exact Hemail|].
        intros Hin. apply in_map_iff in Hin. destruct Hin as [x [Hx Hin]].
        apply (proj1 (User_findOne_none _ _) Hnone x Hin Hx).
      * intros x Hin. apply in_app_iff in Hin. destruct Hin as [Hin | [<- | []]]; [auto|].
        simpl. split; [exact Hm | split; [exact Hlow | exists p; auto]].
Qed.

Lemma NoDup_map_injective_string {A} (key : A -> string) (l : list A) (x y : A) :
  NoDup (map key l) -> In x l -> In y l -> key x = key y -> x = y.
Proof.
  induction l as [|a l IH]; simpl; [tauto|].
  intros H Hx Hy Heq. inversion H as [|? ? Hnot Hrest]; subst.
  destruct Hx as [-> | Hx], Hy as [-> | Hy]; auto.
  - elim Hnot. rewrite Heq. now apply in_map.
  - elim Hnot. rewrite <- Heq. now apply in_map.
Qed.

(** In every reachable state the accounts have distinct ids and emails
    that are distinct even up to letter case; every stored email matches
    the schema's pattern and has no upper-case letter, and every stored
    password is the hash of a password of at least 8 characters. *)
Theorem accounts_invariant (st : State) :
  Reachable st ->
  AccountsInvariant st /\
  (forall u1 u2, In u1 (users st) -> In u2 (users st) ->
                 toLowerCase (user_email u1) = toLowerCase (user_email u2) -> u1 = u2).
Proof.
  intros HR. pose proof (Reachable_AccountsInvariant st HR) as HI.
  split; [exact HI|].
  destruct HI as (_ & Hemail & Hall).
  intros u1 u2 H1 H2 Heq.
  destruct (Hall u1 H1) as (_ & Hl1 & _). destruct (Hall u2 H2) as (_ & Hl2 & _).
  rewrite (toLowerCase_fixed _ Hl1), (toLowerCase_fixed _ Hl2) in Heq.
  now apply (NoDup_map_injective_string user_email (users st)).
Qed.

(** ** Goals *)

Lemma sortBy_StronglySorted {A} (before : A -> A -> bool) (R : A -> A -> Prop) :
  (forall a b, before a b = true -> R a b) ->
  (forall a b, before a b = false -> R b a) ->
  (forall a b c, R a b -> R b c -> R a c) ->
  forall l, StronglySorted R (sortBy before l).
Proof.
  intros Htrue Hfalse Htrans.
  assert (Hins : forall x l, StronglySorted R l ->
                             StronglySorted R (insertSorted before x l)).
  { intros x l Hs. induction Hs as [|y l Hs IH Hall]; simpl.
    - constructor; constructor.
    - destruct (before x y) eqn:E.
      + constructor; [now constructor|].
        constructor; [now apply Htrue|].
        eapply Forall_impl; [|exact Hall]. intros z Hz.
        apply (Htrans x y z); [now apply Htrue | exact Hz].
      + constructor; [exact IH|].
        apply Forall_insertSorted; [now apply Hfalse | exact Hall]. }
  induction l as [|x l IH]; simpl; [constructor | now apply Hins].
Qed.

(** Listing goals answers 200 with exactly the goals of the authenticated
    account, each once, newest first; no goal of another account is in the
    list and the database is left as it was. *)
Theorem getGoals_lists_own_goals (u : ObjectId) (st : State) :
  exists l,
    getGoals u st = (st, Respond (mkResponse 200 (JsonGoals l))) /\
    Permutation l (filter (fun g => N.eqb (goal_userId g) u) (goals st)) /\
    StronglySorted newestFirst l /\
    (forall g, In g l <-> In g (goals st) /\ goal_userId g = u).
Proof.
  eexists. split; [reflexivity|]. unfold Goal_find_sorted.
  assert (HP : Permutation (sortBy newerGoal (filter (fun g => N.eqb (goal_userId g) u)
                                                     (goals st)))
                           (filter (fun g => N.eqb (goal_userId g) u) (goals st)))
    by apply sortBy_Permutation.
  split; [exact HP|]. split.
  - apply sortBy_StronglySorted; unfold newerGoal, newestFirst; intros.
    + apply Z.leb_le in H. lia.
    + apply Z.leb_gt in H. lia.
    + lia.
  - intros g. split.
    + intros Hin. apply (Permutation_in _ HP) in Hin. apply filter_In in Hin.
      destruct Hin as [Hin Hu]. apply N.eqb_eq in Hu. auto.
    + intros [Hin Hu]. apply (Permutation_in _ (Permutation_sym HP)).
      apply filter_In. split; [exact Hin | now apply N.eqb_eq].
Qed.

Lemma checkTitle_valid (t : string) : validTitle t -> checkTitle (Val t) = inr (trim t).
Proof.
  intros [Hne Hlen]. simpl. rewrite (proj2 (isEmpty_false _) Hne).
  apply Nat.ltb_ge in Hlen. now rewrite Hlen.
Qed.

Lemma checkDescription_valid (d : field string) :
  suppliedOptional validDescription d ->
  exists r, checkDescription d = inr r /\ (d = Absent -> r = None).
Proof.
  destruct d as [| |s]; simpl; [eauto | | ].
  - intros _. exists None. split; [reflexivity | discriminate].
  - unfold validDescription. intros Hlen. apply Nat.ltb_ge in Hlen. rewrite Hlen.
    eexists. split; [reflexivity | discriminate].
Qed.

Lemma parseStatus_valid (s : string) :
  validStatus s -> exists y, parseStatus s = inr y /\ statusName y = s.
Proof. intros [-> | ->]; [exists Active | exists Completed]; split; reflexivity. Qed.

Lemma parseStatus_invalid (s : string) :
  ~ validStatus s -> exists m, parseStatus s = inl m.
Proof.
  intros H. unfold parseStatus. destruct (isEmpty s); [eauto|].
  destruct (String.eqb s "active") eqn:E1.
  { apply String.eqb_eq in E1. elim H. now left. }
  destruct (String.eqb s "completed") eqn:E2.
  { apply String.eqb_eq in E2. elim H. now right. }
  eauto.
Qed.

Lemma checkTargetDate_valid (td : field string) :
  suppliedOptional validTargetDate td -> exists r, checkTargetDate td = inr r.
Proof.
  unfold checkTargetDate. destruct td as [| |x]; simpl; [eauto | eauto |].
  intros [-> | [d Hd]]; simpl; [eauto|].
  destruct (isEmpty x); [eauto|]. rewrite Hd. eauto.
Qed.

Lemma validateGoal_owner (env : Env) (data : GoalData) (g : Goal) :
  validateGoal env data = inr g ->
  goal_id g = newId env /\ goal_userId g = gd_userId data /\
  goal_createdAt g = now env /\ goal_updatedAt g = now env.
Proof.
  unfold validateGoal. cbv zeta.
  destruct (checkTitle _); [discriminate|].
  destruct (checkDescription _); [discriminate|].
  destruct (checkStatusOnCreate _); [discriminate|].
  destruct (checkTargetDate _); [discriminate|].
  intros [= <-]. simpl. auto.
Qed.

Lemma fresh_existsb {A} (key : A -> N) (k : N) (l : list A) :
  (forall x, In x l -> key x <> k) -> existsb (fun x => N.eqb (key x) k) l = false.
Proof.
  intros H. apply not_true_is_false. intros Ht. apply existsb_exists in Ht.
  destruct Ht as [x [Hin Hx]]. apply N.eqb_eq in Hx. elim (H x Hin Hx).
Qed.

(** Creating a goal with a valid body, when the generated id is new,
    answers 201 with the goal now stored last: it belongs to the
    authenticated account, carries the trimmed title, is [active] unless a
    status was supplied, and is stamped with the current time; accounts
    and progress entries are untouched. *)
Theorem createGoal_succeeds (env : Env) (u : ObjectId) (body : GoalBody) (st : State) :
  validCreateBody body ->
  (forall g, In g (goals st) -> goal_id g <> newId env) ->
  exists g,
    createGoal env u body st
      = (withGoals st (goals st ++ [g]), Respond (mkResponse 201 (JsonGoal g))) /\
    goal_id g = newId env /\ goal_userId g = u /\
    (forall t, body_title body = Val t -> goal_title g = trim t) /\
    (body_status body = Absent -> goal_status g = Active) /\
    (forall s, body_status body = Val s -> statusName (goal_status g) = s) /\
    (body_description body = Absent -> goal_description g = None) /\
    goal_createdAt g = now env /\ goal_updatedAt g = now env.
Proof.
  intros ([t [Ht Hvt]] & Hd & Hs & Htd) Hfresh.
  destruct body as [bt bd bs btd]. simpl in *. subst bt.
  destruct (checkDescription_valid bd Hd) as [rd [Ed Hdn]].
  destruct (checkTargetDate_valid btd Htd) as [rtd Etd].
  assert (Est : exists y, checkStatusOnCreate bs = inr y /\
                          (bs = Absent -> y = Active) /\
                          (forall s, bs = Val s -> statusName y = s)).
  { destruct Hs as [-> | [s [-> Hv]]].
    - exists Active. split; [reflexivity|]. split; [reflexivity | discriminate].
    - destruct (parseStatus_valid s Hv) as [y [Hy Hn]]. exists y.
      split; [exact Hy|]. split; [discriminate | now intros s' [= <-]]. }
  destruct Est as [y [Ey [Hy1 Hy2]]].
  unfold createGoal. simpl.
  assert (Hne : isEmpty t = false).
  { destruct Hvt as [Hne _]. destruct t; [elim Hne; reflexivity | reflexivity]. }
  rewrite Hne. unfold Goal_create, validateGoal. simpl gd_title. simpl gd_description.
  simpl gd_status. simpl gd_targetDate. simpl gd_userId.
  rewrite (checkTitle_valid t Hvt), Ed, Ey, Etd. cbv zeta. simpl goal_id.
  rewrite (fresh_existsb goal_id (newId env) (goals st) Hfresh).
  eexists. split; [reflexivity|]. simpl.
  repeat split; auto. now intros t' [= <-].
Qed.

Lemma createGoal_answers (env : Env) (u : ObjectId) (body : GoalBody) (st st' : State)
  (r : Response) :
  createGoal env u body st = (st', Respond r) ->
  exists g,
    r = mkResponse 201 (JsonGoal g) /\ st' = withGoals st (goals st ++ [g]) /\
    goal_id g = newId env /\ goal_userId g = u /\
    (forall x, In x (goals st) -> goal_id x <> goal_id g).
Proof.
  unfold createGoal. destruct (falsy _); [discriminate|].
  unfold Goal_create.
  destruct (validateGoal env _) as [ms|g] eqn:Ev; [discriminate|].
  destruct (existsb _ (goals st)) eqn:Ex; [discriminate|].
  intros [= <- <-]. exists g.
  destruct (validateGoal_owner env _ g Ev) as (Hid & Hu & _). simpl in Hu.
  repeat split; auto.
  apply (existsb_fresh goal_id (goal_id g) (goals st) Ex).
Qed.

Lemma find_app_none {A} (p : A -> bool) (l : list A) (x : A) :
  find p l = None -> p x = false -> find p (l ++ [x]) = None.
Proof.
  induction l as [|a l IH]; simpl; intros Hn Hx.
  - now rewrite Hx.
  - destruct (p a); [discriminate | auto].
Qed.

Lemma Goal_findOne_fresh (id u : ObjectId) (gs : list Goal) :
  (forall x, In x gs -> goal_id x <> id) -> Goal_findOne id u gs = None.
Proof.
  intros H. unfold Goal_findOne. destruct (find _ gs) as [g|] eqn:E; [|reflexivity].
  apply find_some in E. destruct E as [Hin Ho]. apply ownedGoal_spec in Ho.
  elim (H g Hin (proj1 Ho)).
Qed.

(** A goal just created is read back by its owner under its id, is in the
    owner's list, and is not found by any other account. *)
Theorem create_then_read
  (env : Env) (u : ObjectId) (body : GoalBody) (st st' : State) (g : Goal) (id : string) :
  createGoal env u body st = (st', Respond (mkResponse 201 (JsonGoal g))) ->
  castObjectId id = Some (goal_id g) ->
  getGoalById u id st' = (st', Respond (mkResponse 200 (JsonGoal g))) /\
  In g (Goal_find_sorted u (goals st')) /\
  (forall v, v <> u ->
     getGoalById v id st'
       = (st', Next (mkError (Some 404) "Goal not found." "goal.controller.js:107"))).
Proof.
  intros Hc Hid.
  destruct (createGoal_answers env u body st st' _ Hc) as (g0 & Hr & -> & Hg & Hu & Hfresh).
  injection Hr as <-.
  pose proof (Goal_findOne_fresh (goal_id g) u (goals st) Hfresh) as Hnone.
  split; [|split].
  - rewrite (getGoalById_cast u id (goal_id g) _ Hid). simpl.
    unfold Goal_findOne in *. rewrite (find_snoc _ _ g Hnone); [reflexivity|].
    apply ownedGoal_spec. auto.
  - unfold Goal_find_sorted.
    apply (Permutation_in _ (Permutation_sym (sortBy_Permutation newerGoal _))).
    apply filter_In. simpl. split; [apply in_app_iff; right; now left|].
    now apply N.eqb_eq.
  - intros v Hv. rewrite (getGoalById_cast v id (goal_id g) _ Hid). simpl.
    pose proof (Goal_findOne_fresh (goal_id g) v (goals st) Hfresh) as Hnone'.
    unfold Goal_findOne in *. rewrite (find_app_none _ _ g Hnone'); [reflexivity|].
    apply not_true_is_false. intros Ho. apply ownedGoal_spec in Ho. destruct Ho. congruence.
Qed.

Lemma hexValue_not_hex (s : string) (acc : N) :
  all isHex s = false -> hexValue s acc = None.
Proof.
  revert acc. induction s as [|c s IH]; simpl; [discriminate|].
  intros acc H. unfold isHex in H at 1. destruct (hexDigit c); [|reflexivity].
  simpl in H. auto.
Qed.

Lemma malformedId_cast (id : string) : malformedId id -> isValidObjectId id = false.
Proof.
  unfold isValidObjectId, castObjectId. intros [Hlen | Hhex].
  - apply Nat.eqb_neq in Hlen. now rewrite Hlen.
  - destruct (String.length id =? 24)%nat; [|reflexivity].
    now rewrite (hexValue_not_hex id 0 Hhex).
Qed.

(** A goal id that is not made of exactly 24 hexadecimal digits is refused
    with 400 "Invalid Goal ID format." by read-one, update, delete,
    log-progress and list-progress alike, whatever the body, before the
    database is looked at and without changing it. *)
Theorem malformed_id_rejected
  (env : Env) (u : ObjectId) (id : string) (body : GoalBody) (entry : ProgressBody)
  (st : State) :
  malformedId id ->
  getGoalById u id st = (st, Next (invalidIdError "goal.controller.js:98")) /\
  updateGoal env u id body st = (st, Next (invalidIdError "goal.controller.js:133")) /\
  deleteGoal u id st = (st, Next (invalidIdError "goal.controller.js:197")) /\
  logProgress env u id entry st = (st, Next (invalidIdError "goal.controller.js:239")) /\
  getGoalProgress u id st = (st, Next (invalidIdError "goal.controller.js:287")) /\
  (forall site, res_status (errorHandler (invalidIdError site)) = 400 /\
                errorMessage (res_body (errorHandler (invalidIdError site)))
                  = Some "Invalid Goal ID format.").
Proof.
  intros H. apply malformedId_cast in H.
  unfold getGoalById, updateGoal, deleteGoal, logProgress, getGoalProgress, withObjectId.
  rewrite H. simpl. repeat split.
Qed.

Lemma validateGoal_invalid (env : Env) (data : GoalData) :
  (exists m, checkDescription (gd_description data) = inl m) \/
  (exists m, checkStatusOnCreate (gd_status data) = inl m) \/
  (exists m, checkTargetDate (gd_targetDate data) = inl m) ->
  exists ms, validateGoal env data = inl ms.
Proof.
  unfold validateGoal. cbv zeta.
  intros [[m H] | [[m H] | [m H]]]; rewrite H;
    destruct (checkTitle _); destruct (checkDescription _);
    destruct (checkStatusOnCreate _); destruct (checkTargetDate _);
    try discriminate; eauto.
Qed.

(** Creating a goal with a title but with a description longer than 500
    characters after trimming, a status that is null or neither "active"
    nor "completed", or a target date that does not parse, is refused
    with 400 and stores nothing. *)
Theorem createGoal_rejects_invalid_fields
  (env : Env) (u : ObjectId) (body : GoalBody) (st : State) :
  falsy (body_title body) = false ->
  (exists d, body_description body = Val d /\ 500 < String.length (trim d)) \/
  body_status body = Null \/
  (exists s, body_status body = Val s /\ ~ validStatus s) \/
  (exists x, body_targetDate body = Val x /\ x <> EmptyString /\ castDate x = None) ->
  exists err,
    createGoal env u body st = (st, Next err) /\
    err_statusCode err = Some 400 /\ res_status (errorHandler err) = 400.
Proof.
  intros Ht Hbad.
  assert (Hv : exists ms,
             validateGoal env (mkGoalData u (body_title body) (body_description body)
                                          (body_status body) (body_targetDate body))
             = inl ms).
  { apply validateGoal_invalid. simpl.
    destruct Hbad as [[d [-> Hd]] | [-> | [[s [-> Hs]] | [x [-> [Hx Hc]]]]]].
    - left. simpl. apply Nat.ltb_lt in Hd. rewrite Hd. eauto.
    - right. left. simpl. eauto.
    - right. left. simpl. apply (parseStatus_invalid s Hs).
    - right. right. unfold checkTargetDate. simpl.
      rewrite (proj2 (isEmpty_false x) Hx), Hc. eauto. }
  destruct Hv as [ms Hv].
  unfold createGoal, Goal_create. rewrite Ht, Hv.
  eexists. split; [reflexivity|]. split; reflexivity.
Qed.

(** A successful update returns the stored goal with the id, owner and
    creation time it had, stamps it with the current time, keeps every
    other goal, the number and the ids of the goals, and leaves accounts
    and progress entries untouched. *)
Theorem update_preserves_identity
  (env : Env) (u : ObjectId) (id : string) (body : GoalBody) (st st' : State) (g' : Goal) :
  updateGoal env u id body st = (st', Respond (mkResponse 200 (JsonGoal g'))) ->
  (exists g, In g (goals st) /\
             castObjectId id = Some (goal_id g) /\
             goal_id g' = goal_id g /\ goal_userId g' = goal_userId g /\
             goal_userId g = u /\ goal_createdAt g' = goal_createdAt g) /\
  goal_updatedAt g' = now env /\
  map goal_id (goals st') = map goal_id (goals st) /\
  map goal_userId (goals st') = map goal_userId (goals st) /\
  (forall x, In x (goals st) -> goal_id x <> goal_id g' -> In x (goals st')) /\
  users st' = users st /\ progresses st' = progresses st.
Proof.
  destruct (castObjectId id) as [oid|] eqn:Hc.
  2:{ unfold updateGoal, withObjectId, isValidObjectId. rewrite Hc. discriminate. }
  rewrite (updateGoal_cast env u id oid body st Hc).
  destruct (defined _ && blankTitle _); [discriminate|].
  cbv zeta. destruct (updateKeys _ =? 0)%nat; [discriminate|].
  destruct (validateUpdate _) as [[ms|e]|c]; try discriminate.
  destruct (Goal_findOne oid u (goals st)) as [g|] eqn:Hg; [|discriminate].
  intros [= <- <-].
  destruct (Goal_findOne_some oid u (goals st) g Hg) as (Hin & Hid & Hu).
  split; [exists g; subst oid; repeat split; auto|].
  split; [reflexivity|]. simpl.
  split; [now apply map_goal_id_updateFirst|].
  split.
  - clear. induction (goals st) as [|x gs IH]; simpl; [reflexivity|].
    destruct (ownedGoal oid u x); simpl; [reflexivity | now rewrite IH].
  - split; [|split; reflexivity].
    intros x Hx Hne. simpl in Hne.
    clear Hg Hin. induction (goals st) as [|y gs IH]; simpl; [contradiction|].
    destruct Hx as [-> | Hx].
    + destruct (ownedGoal oid u x) eqn:Ho; [|now left].
      apply ownedGoal_spec in Ho. destruct Ho. congruence.
    + destruct (ownedGoal oid u y); right; auto.
Qed.

(** ** Progress entries *)

Lemma checkNotes_valid (n : field string) :
  suppliedOptional (fun s => String.length (trim s) <= 500) n ->
  exists r, checkNotes n = inr r /\ (forall s, n = Val s -> r = Some (trim s)).
Proof.
  destruct n as [| |s]; simpl.
  - intros _. exists None. split; [reflexivity | discriminate].
  - intros _. exists None. split; [reflexivity | discriminate].
  - intros Hlen. apply Nat.ltb_ge in Hlen. rewrite Hlen.
    eexists. split; [reflexivity | now intros s' [= <-]].
Qed.

(** Logging progress on an owned goal with a valid body, when the
    generated id is new, answers 201 with the entry now stored last: it
    belongs to the authenticated account and to that goal; its date is the
    supplied one or, when none is supplied, the clock read when the
    document is constructed; its notes are the supplied ones trimmed; its
    value is the supplied number as it is, or none; and both timestamps are
    the instant of the save, which is another reading of the clock than
    the one of the default date.  Goals and accounts are untouched. *)
Theorem logProgress_succeeds
  (env : Env) (u : ObjectId) (goalId : string) (oid : ObjectId) (body : ProgressBody)
  (st : State) (g : Goal) :
  castObjectId goalId = Some oid ->
  In g (goals st) -> goal_id g = oid -> goal_userId g = u ->
  validEntry body ->
  (forall q, In q (progresses st) -> progress_id q <> newId env) ->
  exists p,
    logProgress env u goalId body st
      = (withProgresses st (progresses st ++ [p]),
         Respond (mkResponse 201 (JsonProgress p))) /\
    progress_id p = newId env /\ progress_goalId p = oid /\ progress_userId p = u /\
    (body_date body = Absent -> progress_date p = constructed env) /\
    (forall s, body_date body = Val s -> castDate s = Some (progress_date p)) /\
    (forall s, body_notes body = Val s -> progress_notes p = Some (trim s)) /\
    (forall v, body_value body = Val v -> progress_value p = Some v) /\
    (body_value body = Absent \/ body_value body = Null -> progress_value p = None) /\
    progress_createdAt p = now env /\ progress_updatedAt p = now env.
Proof.
  intros Hc Hin Hid Hu [Hdate Hnotes] Hfresh.
  destruct (Goal_findOne_owned oid u (goals st) g Hin Hid Hu) as [g0 Hg0].
  destruct (checkNotes_valid _ Hnotes) as [rn [En Hn]].
  assert (Ed : exists d, checkDate env (body_date body) = inr d /\
                         (body_date body = Absent -> d = constructed env) /\
                         (forall s, body_date body = Val s -> castDate s = Some d)).
  { destruct Hdate as [-> | (s & d & -> & Hs & Hd)].
    - exists (constructed env). split; [reflexivity|]. split; [reflexivity | discriminate].
    - exists d. simpl. rewrite (proj2 (isEmpty_false s) Hs), Hd.
      split; [reflexivity|]. split; [discriminate | now intros s' [= <-]]. }
  destruct Ed as [d [Ed [Hd1 Hd2]]].
  rewrite (logProgress_cast env u goalId oid body st Hc), Hg0.
  unfold Progress_create, validateProgress. simpl pd_date. simpl pd_notes.
  rewrite Ed, En. cbv zeta. simpl progress_id.
  rewrite (fresh_existsb progress_id (newId env) (progresses st) Hfresh).
  eexists. split; [reflexivity|]. simpl.
  split; [reflexivity|]. split; [reflexivity|]. split; [reflexivity|].
  split; [exact Hd1|]. split; [exact Hd2|]. split; [exact Hn|].
  split; [now intros v ->|].
  split; [now intros [-> | ->]|].
  split; reflexivity.
Qed.

(** An entry just logged is in the list the owner gets for that goal, and
    the number of entries listed for the goal has grown by one. *)
Theorem log_then_list
  (env : Env) (u : ObjectId) (goalId : string) (body : ProgressBody) (st st' : State)
  (p : Progress) :
  logProgress env u goalId body st = (st', Respond (mkResponse 201 (JsonProgress p))) ->
  exists l,
    getGoalProgress u goalId st' = (st', Respond (mkResponse 200 (JsonProgressLogs l))) /\
    In p l /\
    StronglySorted dateDescThenCreatedDesc l /\
    length l = S (length (Progress_find_sorted (progress_goalId p) u (progresses st))).
Proof.
  destruct (castObjectId goalId) as [oid|] eqn:Hc.
  2:{ unfold logProgress, withObjectId, isValidObjectId. rewrite Hc. discriminate. }
  rewrite (logProgress_cast env u goalId oid body st Hc).
  destruct (Goal_findOne oid u (goals st)) as [g|] eqn:Hg; [|discriminate].
  unfold Progress_create.
  destruct (validateProgress env _) as [ms|q] eqn:Hv; [discriminate|].
  destruct (existsb _ (progresses st)); [discriminate|].
  intros [= <- <-].
  destruct (validateProgress_owner env _ q Hv) as (_ & Hgid & Huid). simpl in Hgid, Huid.
  rewrite (getGoalProgress_cast u goalId oid _ Hc). simpl. rewrite Hg.
  eexists. split; [reflexivity|].
  assert (Ho : progressOf oid u q = true).
  { unfold progressOf. rewrite Hgid, Huid, !N.eqb_refl. reflexivity. }
  unfold Progress_find_sorted.
  split; [|split].
  - apply (Permutation_in _ (Permutation_sym (sortBy_Permutation progressBefore _))).
    apply filter_In. split; [apply in_app_iff; right; now left | exact Ho].
  - apply sortBy_sorted.
  - rewrite (Permutation_length (sortBy_Permutation progressBefore _)).
    rewrite Hgid.
    rewrite (Permutation_length (sortBy_Permutation progressBefore _)).
    rewrite filter_app, length_app. simpl. rewrite Ho. simpl. lia.
Qed.

(** Logging progress on an owned goal with notes longer than 500
    characters after trimming, with a null or empty date, or with a date
    that does not parse, is refused with 400 and stores nothing. *)
Theorem logProgress_rejects_invalid_entry
  (env : Env) (u : ObjectId) (goalId : string) (oid : ObjectId) (body : ProgressBody)
  (st : State) (g : Goal) :
  castObjectId goalId = Some oid ->
  In g (goals st) -> goal_id g = oid -> goal_userId g = u ->
  (exists s, body_notes body = Val s /\ 500 < String.length (trim s)) \/
  body_date body = Null \/ body_date body = Val EmptyString \/
  (exists x, body_date body = Val x /\ x <> EmptyString /\ castDate x = None) ->
  exists err,
    logProgress env u goalId body st = (st, Next err) /\
    err_statusCode err = Some 400 /\ res_status (errorHandler err) = 400.
Proof.
  intros Hc Hin Hid Hu Hbad.
  destruct (Goal_findOne_owned oid u (goals st) g Hin Hid Hu) as [g0 Hg0].
  rewrite (logProgress_cast env u goalId oid body st Hc), Hg0.
  assert (Hv : exists ms,
             validateProgress env (mkProgressData u oid (body_date body) (body_notes body)
                                                  (body_value body)) = inl ms).
  { unfold validateProgress. simpl pd_date. simpl pd_notes. cbv zeta.
    destruct Hbad as [[s [-> Hs]] | [-> | [-> | [x [-> [Hx Hd]]]]]].
    - simpl checkNotes. apply Nat.ltb_lt in Hs. rewrite Hs.
      destruct (checkDate env (body_date body)); eauto.
    - simpl. destruct (checkNotes (body_notes body)); eauto.
    - simpl. destruct (checkNotes (body_notes body)); eauto.
    - simpl. rewrite (proj2 (isEmpty_false x) Hx), Hd.
      destruct (checkNotes (body_notes body)); eauto. }
  destruct Hv as [ms Hv]. unfold Progress_create. rewrite Hv.
  eexists. split; [reflexivity|]. split; reflexivity.
Qed.

(** After a successful delete, the same id is not found any more:
    read-one, list-progress, log-progress and a second delete all answer
    404, and the goal is in nobody's list. *)
Theorem delete_then_not_found
  (env : Env) (u : ObjectId) (id : string) (entry : ProgressBody) (st st' : State) :
  Reachable st ->
  deleteGoal u id st = (st', Respond (mkResponse 204 NoBody)) ->
  getGoalById u id st'
    = (st', Next (mkError (Some 404) "Goal not found." "goal.controller.js:107")) /\
  getGoalProgress u id st'
    = (st', Next (mkError (Some 404) "Target goal not found." "goal.controller.js:295")) /\
  logProgress env u id entry st'
    = (st', Next (mkError (Some 404) "Target goal not found." "goal.controller.js:247")) /\
  deleteGoal u id st'
    = (st', Next (mkError (Some 404) "Goal not found." "goal.controller.js:207")) /\
  (forall oid g v, castObjectId id = Some oid ->
                   In g (Goal_find_sorted v (goals st')) -> goal_id g <> oid).
Proof.
  intros HR. pose proof (Reachable_Invariant st HR) as (Hnd & _).
  destruct (castObjectId id) as [oid|] eqn:Hc.
  2:{ unfold deleteGoal, withObjectId, isValidObjectId. rewrite Hc. discriminate. }
  rewrite (deleteGoal_cast u id oid st Hc).
  destruct (Goal_findOne oid u (goals st)) as [g|] eqn:Hg; [|discriminate].
  intros [= <-].
  assert (Hgone : forall x, In x (removeFirst (ownedGoal oid u) (goals st)) ->
                            goal_id x <> oid).
  { intros x Hx Hid.
    destruct (Goal_findOne_some oid u (goals st) g Hg) as (Hin & Hgid & _).
    assert (x = g).
    { apply (NoDup_map_injective goal_id (goals st)); auto.
      - now apply removeFirst_incl in Hx.
      - congruence. }
    subst x. now apply (removeFirst_removes (ownedGoal oid u) (goals st) g Hnd Hg). }
  rewrite (getGoalById_cast u id oid _ Hc), (getGoalProgress_cast u id oid _ Hc),
    (logProgress_cast env u id oid entry _ Hc), (deleteGoal_cast u id oid _ Hc).
  simpl goals. rewrite (Goal_findOne_fresh oid u _ Hgone).
  repeat split.
  intros oid' x v [= <-] Hx. apply Hgone.
  unfold Goal_find_sorted in Hx.
  apply (Permutation_in _ (sortBy_Permutation newerGoal _)) in Hx.
  apply filter_In in Hx. tauto.
Qed.

(** ** Isolation between accounts *)

Lemma In_updateFirst_inv (p : Goal -> bool) (f : Goal -> Goal) (gs : list Goal) (x : Goal) :
  In x (updateFirst p f gs) ->
  In x gs \/ exists y, In y gs /\ p y = true /\ x = f y.
Proof.
  induction gs as [|a gs IH]; simpl; [tauto|].
  destruct (p a) eqn:Ha; simpl.
  - intros [<- | H]; [right; exists a; auto | auto].
  - intros [<- | H]; [auto|]. destruct (IH H) as [H' | [y [Hy Hr]]]; [auto|].
    right. exists y. auto.
Qed.

Lemma updateFirst_keeps (p : Goal -> bool) (f : Goal -> Goal) (gs : list Goal) (x : Goal) :
  In x gs -> p x = false -> In x (updateFirst p f gs).
Proof.
  induction gs as [|a gs IH]; simpl; [tauto|].
  intros [-> | H] Hp.
  - rewrite Hp. now left.
  - destruct (p a); right; auto.
Qed.

Lemma ownedGoal_foreign (id u : ObjectId) (g : Goal) :
  goal_userId g <> u -> ownedGoal id u g = false.
Proof.
  intros H. apply not_true_is_false. intros Ho. apply ownedGoal_spec in Ho. tauto.
Qed.

Lemma OthersUntouched_refl (u : ObjectId) (st : State) : OthersUntouched u st st.
Proof. repeat split; auto. Qed.

Lemma createGoal_isolated (env : Env) (u : ObjectId) (body : GoalBody) (st : State) :
  OthersUntouched u st (fst (createGoal env u body st)).
Proof.
  destruct (createGoal env u body st) as [st' [r|e]] eqn:E.
  - destruct (createGoal_answers env u body st st' r E) as (g & _ & -> & _ & Hu & _).
    split; [|split; [|reflexivity]]; simpl.
    + intros x Hx. rewrite in_app_iff. simpl. split; [|auto].
      intros [H | [<- | []]]; [exact H | contradiction].
    + tauto.
  - assert (st' = st); [|subst; apply OthersUntouched_refl].
    revert E. unfold createGoal. destruct (falsy _); [now intros [= <- _]|].
    destruct (Goal_create env _ (goals st)) as [gs [g|[ms|err]]];
      [discriminate | now intros [= <- _] | now intros [= <- _]].
Qed.

Lemma updateGoal_isolated (env : Env) (u : ObjectId) (id : string) (body : GoalBody)
  (st : State) :
  OthersUntouched u st (fst (updateGoal env u id body st)).
Proof.
  destruct (castObjectId id) as [oid|] eqn:Hc.
  2:{ unfold updateGoal, withObjectId, isValidObjectId. rewrite Hc.
      apply OthersUntouched_refl. }
  rewrite (updateGoal_cast env u id oid body st Hc).
  destruct (defined _ && blankTitle _); [apply OthersUntouched_refl|].
  cbv zeta. destruct (updateKeys _ =? 0)%nat; [apply OthersUntouched_refl|].
  destruct (validateUpdate _) as [[ms|e]|c]; try apply OthersUntouched_refl.
  destruct (Goal_findOne oid u (goals st)); [|apply OthersUntouched_refl].
  split; [|split; [|reflexivity]]; simpl; [|tauto].
  intros x Hx. split.
  - intros H. apply In_updateFirst_inv in H. destruct H as [H | [y [Hy [Ho ->]]]]; [exact H|].
    apply ownedGoal_spec in Ho. simpl in Hx. tauto.
  - intros H. apply updateFirst_keeps; [exact H | now apply ownedGoal_foreign].
Qed.

Lemma deleteGoal_isolated (u : ObjectId) (id : string) (st : State) :
  OthersUntouched u st (fst (deleteGoal u id st)).
Proof.
  destruct (castObjectId id) as [oid|] eqn:Hc.
  2:{ unfold deleteGoal, withObjectId, isValidObjectId. rewrite Hc.
      apply OthersUntouched_refl. }
  rewrite (deleteGoal_cast u id oid st Hc).
  destruct (Goal_findOne oid u (goals st)); [|apply OthersUntouched_refl].
  split; [|split; [|reflexivity]]; simpl.
  - intros x Hx. split; [apply removeFirst_incl|].
    intros H. apply removeFirst_keeps; [exact H | now apply ownedGoal_foreign].
  - intros p Hp. unfold Progress_deleteMany. rewrite filter_In. split; [tauto|].
    intros H. split; [exact H|]. apply negb_true_iff. unfold progressOf.
    apply andb_false_iff. right. now apply N.eqb_neq.
Qed.

Lemma logProgress_isolated (env : Env) (u : ObjectId) (goalId : string)
  (body : ProgressBody) (st : State) :
  OthersUntouched u st (fst (logProgress env u goalId body st)).
Proof.
  destruct (castObjectId goalId) as [oid|] eqn:Hc.
  2:{ unfold logProgress, withObjectId, isValidObjectId. rewrite Hc.
      apply OthersUntouched_refl. }
  rewrite (logProgress_cast env u goalId oid body st Hc).
  destruct (Goal_findOne oid u (goals st)); [|apply OthersUntouched_refl].
  unfold Progress_create.
  destruct (validateProgress env _) as [ms|p] eqn:Hv; [apply OthersUntouched_refl|].
  destruct (existsb _ (progresses st)); [apply OthersUntouched_refl|].
  destruct (validateProgress_owner env _ p Hv) as (_ & _ & Hu). simpl in Hu.
  split; [|split; [|reflexivity]]; simpl; [tauto|].
  intros x Hx. rewrite in_app_iff. simpl. split; [|auto].
  intros [H | [<- | []]]; [exact H | contradiction].
Qed.

(** A request that passes the gate as account [u] leaves the goals and the
    progress entries of every other account exactly as they were (none
    changed, removed or added), and leaves the accounts as they were. *)
Theorem other_accounts_untouched
  (env : Env) (req : Request) (a : option string) (u : ObjectId) (st : State) :
  authorizationOf req = Some a ->
  protect env a st = Attach u ->
  OthersUntouched u st (fst (handle env req st)).
Proof.
  intros Ha Hp.
  assert (Hg : forall controller : ObjectId -> Controller,
             OthersUntouched u st (fst (controller u st)) ->
             OthersUntouched u st (fst (guarded env a controller st))).
  { intros c H. unfold guarded. rewrite Hp. unfold unguarded.
    now destruct (c u st). }
  destruct req; simpl in Ha; try discriminate; injection Ha as <-; simpl; apply Hg.
  - apply createGoal_isolated.
  - apply OthersUntouched_refl.
  - rewrite getGoalById_state. apply OthersUntouched_refl.
  - apply updateGoal_isolated.
  - apply deleteGoal_isolated.
  - apply logProgress_isolated.
  - rewrite getGoalProgress_state. apply OthersUntouched_refl.
Qed.

Lemma Effect_none_same (env : Env) (st st' : State) :
  users st' = users st -> goals st' = goals st -> progresses st' = progresses st ->
  st' = st.
Proof. destruct st, st'; simpl; intros; subst; reflexivity. Qed.

(** Goals and progress entries change only through a protected route
    whose gate has accepted the token of an existing account: the two
    public routes, and any request the gate refuses, leave them as they
    were. *)
Theorem only_authenticated_requests_write (env : Env) (req : Request) (st : State) :
  goals (fst (handle env req st)) <> goals st \/
  progresses (fst (handle env req st)) <> progresses st ->
  exists a u user,
    authorizationOf req = Some a /\ protect env a st = Attach u /\
    In user (users st) /\ user_id user = u.
Proof.
  intros Hchange.
  assert (Hpub : forall controller : Controller,
             goals (fst (controller st)) = goals st ->
             progresses (fst (controller st)) = progresses st ->
             goals (fst (unguarded controller st)) = goals st /\
             progresses (fst (unguarded controller st)) = progresses st).
  { intros c H1 H2. unfold unguarded. destruct (c st). auto. }
  assert (Hgate : forall a (controller : ObjectId -> Controller),
             goals (fst (guarded env a controller st)) <> goals st \/
             progresses (fst (guarded env a controller st)) <> progresses st ->
             exists u user, protect env a st = Attach u /\
                            In user (users st) /\ user_id user = u).
  { intros a c H. unfold guarded in H. destruct (protect env a st) as [u|e] eqn:Hp.
    - destruct (gate_attaches_existing_account_aux env a st u Hp) as [user [Hin Hid]].
      exists u, user. auto.
    - simpl in H. tauto. }
  destruct req; simpl in Hchange.
  - exfalso. destruct (registerUser env body st) as [st' [r|e]] eqn:E.
    + destruct (registerUser_answers env body st st' r E)
        as (e0 & p0 & _ & _ & _ & _ & _ & _ & _ & -> & _).
      unfold unguarded in Hchange. rewrite E in Hchange. simpl in Hchange. tauto.
    + rewrite (registerUser_refusal env body st st' e E) in E.
      unfold unguarded in Hchange. rewrite E in Hchange. simpl in Hchange. tauto.
  - exfalso. pose proof (loginUser_state env body st) as H.
    unfold unguarded in Hchange. destruct (loginUser env body st). simpl in *.
    subst. tauto.
  - destruct (Hgate _ _ Hchange) as (u & user & H). exists authorization, u, user. auto.
  - destruct (Hgate _ _ Hchange) as (u & user & H). exists authorization, u, user. auto.
  - destruct (Hgate _ _ Hchange) as (u & user & H). exists authorization, u, user. auto.
  - destruct (Hgate _ _ Hchange) as (u & user & H). exists authorization, u, user. auto.
  - destruct (Hgate _ _ Hchange) as (u & user & H). exists authorization, u, user. auto.
  - destruct (Hgate _ _ Hchange) as (u & user & H). exists authorization, u, user. auto.
  - destruct (Hgate _ _ Hchange) as (u & user & H). exists authorization, u, user. auto.
Qed.

(** ** The response contract *)

Lemma castDateField_error (path : string) (f : field string) (e : JsError) :
  castDateField path f = inl e -> err_statusCode e = None.
Proof.
  destruct f as [| |s]; simpl; try discriminate.
  destruct (isEmpty s); [discriminate|]. destruct (castDate s); [discriminate|].
  now intros [= <-].
Qed.

Lemma validateUpdate_error (u : UpdateData) (e : JsError) :
  validateUpdate u = inl (OtherError e) -> err_statusCode e = None.
Proof.
  unfold validateUpdate.
  destruct (defined (upd_targetDate u)).
  - destruct (castDateField "targetDate" (upd_targetDate u)) as [e'|d] eqn:E.
    + intros [= <-]. now apply (castDateField_error _ _ _ E).
    + cbv zeta. destruct (onSupplied _ checkTitle); destruct (onSupplied _ checkDescription);
        destruct (onSupplied _ checkStatusOnUpdate); discriminate.
  - cbv zeta. destruct (onSupplied _ checkTitle); destruct (onSupplied _ checkDescription);
      destruct (onSupplied _ checkStatusOnUpdate); discriminate.
Qed.

Lemma withObjectId_expected (site id : string) (st : State)
  (k : ObjectId -> State * Outcome) :
  (forall oid, expectedOutcome (snd (k oid))) ->
  expectedOutcome (snd (withObjectId site id st k)).
Proof.
  intros H. unfold withObjectId, isValidObjectId.
  destruct (castObjectId id); simpl; [apply H | tauto].
Qed.

Lemma createGoal_expected (env : Env) (u : ObjectId) (body : GoalBody) (st : State) :
  expectedOutcome (snd (createGoal env u body st)).
Proof.
  unfold createGoal. destruct (falsy _); [simpl; tauto|].
  unfold Goal_create. destruct (validateGoal env _); [simpl; tauto|].
  destruct (existsb _ (goals st)); simpl; tauto.
Qed.

Lemma getGoalById_expected (u : ObjectId) (id : string) (st : State) :
  expectedOutcome (snd (getGoalById u id st)).
Proof.
  apply withObjectId_expected. intros oid.
  destruct (Goal_findOne oid u (goals st)); simpl; tauto.
Qed.

Lemma updateGoal_expected (env : Env) (u : ObjectId) (id : string) (body : GoalBody)
  (st : State) :
  expectedOutcome (snd (updateGoal env u id body st)).
Proof.
  apply withObjectId_expected. intros oid.
  destruct (defined _ && blankTitle _); [simpl; tauto|].
  cbv zeta. destruct (updateKeys _ =? 0)%nat; [simpl; tauto|].
  unfold Goal_findOneAndUpdate.
  destruct (validateUpdate _) as [[ms|e]|c] eqn:Ev.
  - simpl. tauto.
  - simpl. rewrite (validateUpdate_error _ e Ev). tauto.
  - destruct (Goal_findOne oid u (goals st)); simpl; tauto.
Qed.

Lemma deleteGoal_expected (u : ObjectId) (id : string) (st : State) :
  expectedOutcome (snd (deleteGoal u id st)).
Proof.
  apply withObjectId_expected. intros oid. unfold Goal_findOneAndDelete.
  destruct (Goal_findOne oid u (goals st)); simpl; tauto.
Qed.

Lemma logProgress_expected (env : Env) (u : ObjectId) (goalId : string)
  (body : ProgressBody) (st : State) :
  expectedOutcome (snd (logProgress env u goalId body st)).
Proof.
  apply withObjectId_expected. intros oid.
  destruct (Goal_findOne oid u (goals st)); [|simpl; tauto].
  unfold Progress_create. destruct (validateProgress env _); [simpl; tauto|].
  destruct (existsb _ (progresses st)); simpl; tauto.
Qed.

Lemma getGoalProgress_expected (u : ObjectId) (goalId : string) (st : State) :
  expectedOutcome (snd (getGoalProgress u goalId st)).
Proof.
  apply withObjectId_expected. intros oid.
  destruct (Goal_findOne oid u (goals st)); simpl; tauto.
Qed.

Lemma registerUser_expected (env : Env) (body : Credentials) (st : State) :
  expectedOutcome (snd (registerUser env body st)).
Proof.
  unfold registerUser. destruct (falsy _ || falsy _); [simpl; tauto|].
  cbv zeta. destruct (User_findOne _ _); [simpl; tauto|].
  unfold User_create. cbv zeta.
  destruct (checkEmail _); destruct (checkPassword _); try (simpl; tauto).
  destruct (existsb _ (users st)); simpl; tauto.
Qed.

Lemma loginUser_expected (env : Env) (body : Credentials) (st : State) :
  expectedOutcome (snd (loginUser env body st)).
Proof.
  unfold loginUser. destruct (falsy _ || falsy _); [simpl; tauto|].
  cbv zeta. destruct (User_findOne _ _); [|simpl; tauto].
  destruct (negb _); simpl; tauto.
Qed.

Lemma settle_expected (o : Outcome) :
  expectedOutcome o ->
  In (res_status (settle o)) statusCodes /\
  (isErrorBody (res_body (settle o)) = true <-> 400 <= res_status (settle o)) /\
  (development = false -> errorShape (res_body (settle o)) <> Some true).
Proof.
  destruct o as [r|e]; simpl.
  - intros [Hs Hb]. rewrite Hb. split; [|split].
    + simpl in *. tauto.
    + split; [discriminate|]. simpl in Hs.
      destruct Hs as [<- | [<- | [<- | []]]]; lia.
    + destruct (res_body r); discriminate.
  - intros H. unfold errorHandler. cbn [res_status res_body isErrorBody errorShape].
    split; [|split].
    + destruct H as [<- | [<- | [<- | [<- | [<- | []]]]]]; simpl; tauto.
    + split; [intros _ | reflexivity].
      destruct H as [<- | [<- | [<- | [<- | [<- | []]]]]]; simpl; lia.
    + intros ->. discriminate.
Qed.

(** Every answer of the nine routes of api.routes.js to a request whose
    JSON body was parsed, each field absent, [null] or of the JSON type its
    schema path expects, has one of the status codes 200, 201, 204, 400,
    401, 404, 409 and 500; it is a [{ message }] error body exactly when
    the status is 400 or above; and outside development mode no such answer
    carries a stack trace.  (What server.js answers outside the router, to
    a body that fails to parse and on its health route, is not covered.) *)
Theorem response_contract (env : Env) (req : Request) (st : State) :
  In (res_status (snd (handle env req st))) statusCodes /\
  (isErrorBody (res_body (snd (handle env req st))) = true
   <-> 400 <= res_status (snd (handle env req st))) /\
  (development = false -> errorShape (res_body (snd (handle env req st))) <> Some true).
Proof.
  assert (Hopen : forall controller : Controller,
             expectedOutcome (snd (controller st)) ->
             snd (unguarded controller st) = settle (snd (controller st))).
  { intros c _. unfold unguarded. now destruct (c st). }
  assert (Hgate : forall a (controller : ObjectId -> Controller),
             (forall u, expectedOutcome (snd (controller u st))) ->
             exists o, expectedOutcome o /\ snd (guarded env a controller st) = settle o).
  { intros a c H. unfold guarded. destruct (protect env a st) as [u|e] eqn:Hp.
    - exists (snd (c u st)). split; [apply H | now apply Hopen].
    - exists (Next e). split; [|reflexivity].
      unfold protect in Hp. destruct (extractToken a) as [t|].
      + destruct (isEmpty t); [injection Hp as <-; simpl; tauto|].
        destruct (verifyToken env t (users st)); [|discriminate].
        injection Hp as <-. simpl. tauto.
      + injection Hp as <-. simpl. tauto. }
  assert (Hfin : forall o, expectedOutcome o ->
             snd (handle env req st) = settle o ->
             In (res_status (snd (handle env req st))) statusCodes /\
             (isErrorBody (res_body (snd (handle env req st))) = true
              <-> 400 <= res_status (snd (handle env req st))) /\
             (development = false ->
              errorShape (res_body (snd (handle env req st))) <> Some true)).
  { intros o Ho ->. now apply settle_expected. }
  destruct req; simpl in *.
  - apply (Hfin _ (registerUser_expected env body st)), Hopen, registerUser_expected.
  - apply (Hfin _ (loginUser_expected env body st)), Hopen, loginUser_expected.
  - destruct (Hgate authorization (fun u => createGoal env u body))
      as [o [Ho E]]; [intros; apply createGoal_expected | now apply (Hfin o)].
  - destruct (Hgate authorization getGoals)
      as [o [Ho E]]; [intros; simpl; tauto | now apply (Hfin o)].
  - destruct (Hgate authorization (fun u => getGoalById u id))
      as [o [Ho E]]; [intros; apply getGoalById_expected | now apply (Hfin o)].
  - destruct (Hgate authorization (fun u => updateGoal env u id body))
      as [o [Ho E]]; [intros; apply updateGoal_expected | now apply (Hfin o)].
  - destruct (Hgate authorization (fun u => deleteGoal u id))
      as [o [Ho E]]; [intros; apply deleteGoal_expected | now apply (Hfin o)].
  - destruct (Hgate authorization (fun u => logProgress env u goalId body))
      as [o [Ho E]]; [intros; apply logProgress_expected | now apply (Hfin o)].
  - destruct (Hgate authorization (fun u => getGoalProgress u goalId))
      as [o [Ho E]]; [intros; apply getGoalProgress_expected | now apply (Hfin o)].
Qed.

(** ** The client's forms against the server's schema *)







Lemma length_trimStart (s : string) : String.length (trimStart s) <= String.length s.
Proof.
  induction s as [|c s IH]; simpl; [lia|]. destruct (isWhitespace c); simpl; lia.
Qed.

Lemma length_trimEnd (s : string) : String.length (trimEnd s) <= String.length s.
Proof.
  induction s as [|c s IH]; simpl; [lia|].
  destruct (trimEnd s) as [|d t]; [destruct (isWhitespace c)|]; simpl in *; lia.
Qed.

Lemma length_trim (s : string) : String.length (trim s) <= String.length s.
Proof.
  unfold trim. pose proof (length_trimEnd (trimStart s)). pose proof (length_trimStart s).
  lia.
Qed.

















(** What the sign-in form submits is never refused by the server for a
    missing credential or for the length of the password: both
    credentials are present, the password passes the schema's check, and
    the typed email contains a match of the form's pattern. *)
Theorem authForm_submits_present_credentials (email password : string) (body : Credentials) :
  AuthForm_handleSubmit email password = Some body ->
  body = mkCredentials (Val email) (Val password) /\
  credentialsPresent body /\
  checkPassword password = inr password /\
  trim email <> EmptyString /\ emailSomewhere email = true.
Proof.
  unfold AuthForm_handleSubmit, AuthForm_validateForm.
  destruct (isEmpty (trim email)) eqn:E1.
  { destruct (isEmpty password); [|destruct (String.length password <? 8)%nat];
      discriminate. }
  destruct (emailSomewhere email) eqn:E2; simpl.
  2:{ destruct (isEmpty password); [|destruct (String.length password <? 8)%nat];
        discriminate. }
  destruct (isEmpty password) eqn:E3; [discriminate|].
  destruct (String.length password <? 8)%nat eqn:E4; [discriminate|].
  intros [= <-]. unfold credentialsPresent, checkPassword. simpl.
  rewrite E3, E4. repeat split; auto.
  - destruct email; [discriminate | reflexivity].
  - now apply isEmpty_false.
Qed.

(** What the goal form submits, the server stores: a title the form
    accepts and a description, both within the lengths the inputs allow
    (150 and 500 characters), are accepted by goal creation when the
    generated id is new, and the goal is stored with the trimmed title,
    the trimmed description and the status [active]. *)
Theorem goalForm_submission_is_accepted
  (env : Env) (u : ObjectId) (title description : string) (body : GoalBody) (st : State) :
  GoalForm_handleSubmit title description = Some body ->
  String.length title <= 150 -> String.length description <= 500 ->
  (forall g, In g (goals st) -> goal_id g <> newId env) ->
  exists g,
    createGoal env u body st
      = (withGoals st (goals st ++ [g]), Respond (mkResponse 201 (JsonGoal g))) /\
    goal_userId g = u /\ goal_title g = trim title /\
    goal_description g = Some (trim description) /\ goal_status g = Active.
Proof.
  unfold GoalForm_handleSubmit, GoalForm_validateForm.
  destruct (isEmpty (trim title)) eqn:Ht; [discriminate|]. simpl.
  intros [= <-] Hlt Hld Hfresh.
  assert (Hne : isEmpty title = false).
  { destruct title; [discriminate | reflexivity]. }
  assert (Hmax : (150 <? String.length (trim title))%nat = false).
  { apply Nat.ltb_ge. pose proof (length_trim title). lia. }
  assert (Hmaxd : (500 <? String.length (trim description))%nat = false).
  { apply Nat.ltb_ge. pose proof (length_trim description). lia. }
  unfold createGoal, Goal_create, validateGoal. simpl.
  rewrite Hne, Ht, Hmax, Hmaxd. simpl.
  rewrite (fresh_existsb goal_id (newId env) (goals st) Hfresh).
  eexists. split; [reflexivity|]. simpl. auto.
Qed.

(** ** The client's list of progress entries *)

Lemma sortBy_fixed {A} (before : A -> A -> bool) (R : A -> A -> Prop) (l : list A) :
  (forall a b, R a b -> before a b = true) ->
  StronglySorted R l -> sortBy before l = l.
Proof.
  intros Hb. induction 1 as [|x l Hs IH Hall]; simpl; [reflexivity|].
  rewrite IH. destruct l as [|y r]; simpl; [reflexivity|].
  inversion Hall as [|? ? Hxy _]; subst. now rewrite (Hb x y Hxy).
Qed.

(** The page's own sort of the entries it receives (by date, latest first)
    changes nothing: the list the server answers with is already in an
    order that sort keeps, so the server's tie-break by creation time
    survives on screen. *)
Theorem client_sort_keeps_server_order
  (u : ObjectId) (goalId : string) (st st' : State) (l : list Progress) :
  getGoalProgress u goalId st = (st', Respond (mkResponse 200 (JsonProgressLogs l))) ->
  sortLogs l = l /\ StronglySorted laterDateFirst l.
Proof.
  intros H.
  assert (Hs : StronglySorted dateDescThenCreatedDesc l).
  { revert H. unfold getGoalProgress, withObjectId.
    destruct (negb (isValidObjectId goalId)); [discriminate|].
    destruct (castObjectId goalId); [|discriminate].
    destruct (Goal_findOne _ _ _); [|discriminate].
    intros [= _ <-]. apply sortBy_sorted. }
  split.
  - apply (sortBy_fixed laterLogFirst dateDescThenCreatedDesc l); [|exact Hs].
    unfold laterLogFirst, dateDescThenCreatedDesc. intros a b Hab.
    apply Z.leb_le. lia.
  - clear H. induction Hs as [|x l Hs IH Hall]; constructor; [exact IH|].
    eapply Forall_impl; [|exact Hall].
    unfold laterDateFirst, dateDescThenCreatedDesc. intros y Hy. lia.
Qed.

(** ** The client's session *)

Lemma orElse_nonempty (a : field string) (b : string) :
  b <> EmptyString -> orElse a b <> EmptyString.
Proof.
  intros Hb. unfold orElse. destruct a as [| |s]; simpl; auto.
  destruct (isEmpty s) eqn:E; [exact Hb | now apply isEmpty_false].
Qed.

Lemma settleRequest_invariant (noToken fallback : string) (r : ApiResult) (s : AuthState) :
  SessionInvariant (settleRequest noToken fallback r s).
Proof.
  unfold settleRequest, SessionInvariant.
  destruct r as [t|rm m]; [destruct (falsy t) eqn:Ht|]; simpl.
  - repeat split; try discriminate; auto.
  - split; [|split]; [|discriminate|intros H; now elim H].
    intros _. exists (valueOf t). repeat split; auto.
    destruct t as [| |x]; simpl in *; try discriminate. now apply isEmpty_false.
  - repeat split; try discriminate; auto.
Qed.

Lemma authStep_invariant (s : AuthState) (e : AuthEvent) :
  SessionInvariant s -> SessionInvariant (authStep s e).
Proof.
  intros (Hauth & Hanon & Herr). destruct e; simpl.
  - unfold checkAuthState.
    destruct (stored_authToken s) as [t|] eqn:Hst;
      [destruct (isEmpty t) eqn:Ht|]; unfold SessionInvariant; simpl.
    + split; [|split]; auto.
    + split; [|split]; [|discriminate|].
      * intros _. exists t. split; [now apply isEmpty_false|].
        split; [reflexivity|]. split; [reflexivity|].
        destruct (auth_error s) as [msg|] eqn:He; [|reflexivity].
        assert (Hn : Some msg <> @None string) by discriminate.
        destruct (Herr Hn) as [Hnone _]. discriminate.
      * intros He. destruct (Herr He) as [Hnone _]. discriminate.
    + split; [|split]; auto.
  - unfold SessionInvariant. simpl. split; [|split]; [|exact Hanon|intros H; now elim H].
    intros Ha. destruct (Hauth Ha) as (t & Ht & Htok & Hst & _). exists t. auto.
  - apply settleRequest_invariant.
  - apply settleRequest_invariant.
  - unfold SessionInvariant. simpl. repeat split; try discriminate; auto.
Qed.

Lemma session_reachable (stored : option string) (events : list AuthEvent) :
  SessionInvariant (fold_left authStep events (AuthProvider_initial stored)).
Proof.
  assert (Hinit : SessionInvariant (AuthProvider_initial stored)).
  { unfold SessionInvariant. simpl.
    split; [discriminate | split; [reflexivity | intros H; now elim H]]. }
  revert Hinit. generalize (AuthProvider_initial stored) as s.
  induction events as [|e events IH]; simpl; intros s Hs; [exact Hs|].
  apply IH. now apply authStep_invariant.
Qed.

(** Whatever the stored token at start-up and whatever sequence of mount,
    login, registration and logout events follows, the provider is
    authenticated only while it holds a non-empty token that is also the
    one in [localStorage], with no error shown; it holds no token when it
    is not authenticated; and an error is shown only after the stored
    token has been removed. *)
Theorem session_invariant (stored : option string) (events : list AuthEvent) :
  let s := fold_left authStep events (AuthProvider_initial stored) in
  (auth_isAuthenticated s = true <->
   exists t, t <> EmptyString /\ auth_token s = Some t /\ stored_authToken s = Some t /\
             auth_error s = None) /\
  (auth_isAuthenticated s = false -> auth_token s = None) /\
  (auth_error s <> None -> stored_authToken s = None /\ auth_isAuthenticated s = false).
Proof.
  intros s. destruct (session_reachable stored events) as (Hauth & Hanon & Herr).
  fold s in Hauth, Hanon, Herr.
  split; [|split; assumption].
  split; [exact Hauth|].
  intros (t & _ & Htok & _). destruct (auth_isAuthenticated s) eqn:E; [reflexivity|].
  rewrite (Hanon eq_refl) in Htok. discriminate.
Qed.

End Further.


(** * The properties on the concrete history *)

#[local] Existing Instance Demo.platform.

Lemma Reachable_run (h : list (Env * Request)) (st : State) :
  Reachable st -> Reachable (Demo.run h st).
Proof.
  revert st. induction h as [|[env req] h IH]; simpl; intros st H; [exact H|].
  apply IH. now constructor.
Qed.

Lemma Demo_state_Reachable : Reachable Demo.state.
Proof. exact (Reachable_run Demo.history emptyState Reachable_empty). Qed.

Lemma Demo_goal_stored : In Demo.theGoal (goals Demo.state).
Proof. left. reflexivity. Qed.

(** An expired token, a payload without account, a malformed account
    identifier and the identifier of no account are refused alike, with
    the generic 401, on every protected route. *)
Lemma gate_rejects_failed_verification_witness :
  (forall req, authorizationOf req = Some (Some "Bearer expired") ->
               handle Demo.later req Demo.state = (Demo.state, errorHandler authError)) /\
  protect Demo.later (Some "Bearer expired") Demo.state = Reject authError /\
  protect Demo.later (Some "Bearer token-empty-payload") Demo.state = Reject authError /\
  protect Demo.later (Some "Bearer token-malformed-id") Demo.state = Reject authError /\
  protect Demo.later (Some "Bearer token-nobody") Demo.state = Reject authError /\
  res_status (errorHandler authError) = 401.
Proof.
  assert (Hnobody : forall u, In u (users Demo.state) -> user_id u <> 255%N).
  { intros u [<- | [<- | []]]; discriminate. }
  split; [|split; [|split; [|split; [|split]]]].
  - apply (gate_rejects_failed_verification Demo.later Demo.state
             (Some "Bearer expired") "expired" eq_refl).
    + discriminate.
    + apply (Fails_verify Demo.later "expired" (users Demo.state) "jwt expired").
      reflexivity.
  - apply (gate_rejects_failed_verification Demo.later Demo.state
             (Some "Bearer expired") "expired" eq_refl).
    + discriminate.
    + apply (Fails_verify Demo.later "expired" (users Demo.state) "jwt expired").
      reflexivity.
  - apply (gate_rejects_failed_verification Demo.later Demo.state
             (Some "Bearer token-empty-payload") "token-empty-payload" eq_refl).
    + discriminate.
    + apply (Fails_payload Demo.later "token-empty-payload" (users Demo.state) Absent);
        reflexivity.
  - apply (gate_rejects_failed_verification Demo.later Demo.state
             (Some "Bearer token-malformed-id") "token-malformed-id" eq_refl).
    + discriminate.
    + apply (Fails_malformed_id Demo.later "token-malformed-id" (users Demo.state)
               "not-an-object-id"); reflexivity.
  - apply (gate_rejects_failed_verification Demo.later Demo.state
             (Some "Bearer token-nobody") "token-nobody" eq_refl).
    + discriminate.
    + apply (Fails_no_account Demo.later "token-nobody" (users Demo.state)
               Demo.hexNobody 255%N); [reflexivity | reflexivity | exact Hnobody].
  - reflexivity.
Defined.


(** An unknown email and a wrong password for a known one. *)
Lemma invalid_credentials_uniform_witness :
  let r1 := snd (handle Demo.later (POST_auth_login (Demo.creds "nobody@x.com" "password1"))
                        Demo.state) in
  let r2 := snd (handle Demo.later (POST_auth_login (Demo.creds "A@x.com" "not-the-password"))
                        Demo.state) in
  res_status r1 = 401 /\ res_status r2 = 401 /\
  errorMessage (res_body r1) = Some "Invalid credentials." /\
  errorMessage (res_body r2) = Some "Invalid credentials." /\
  errorShape (res_body r1) = errorShape (res_body r2) /\
  (development = false -> r1 = r2) /\
  fst (handle Demo.later (POST_auth_login (Demo.creds "nobody@x.com" "password1")) Demo.state)
    = Demo.state /\
  fst (handle Demo.later (POST_auth_login (Demo.creds "A@x.com" "not-the-password")) Demo.state)
    = Demo.state.
Proof.
  apply (invalid_credentials_uniform Demo.later Demo.later Demo.state Demo.state
           (Demo.creds "nobody@x.com" "password1")
           (Demo.creds "A@x.com" "not-the-password")
           (mkUser Demo.idA "a@x.com" "hashed:password1")).
  - split; reflexivity.
  - split; reflexivity.
  - reflexivity.
  - reflexivity.
  - reflexivity.
Defined.

(** A title of three spaces. *)
Lemma create_goal_rejects_bad_title_witness :
  exists e,
    createGoal Demo.later Demo.idA (Demo.onlyTitle "   ") Demo.state = (Demo.state, Next e) /\
    err_statusCode e = Some 400 /\
    unguarded (createGoal Demo.later Demo.idA (Demo.onlyTitle "   ")) Demo.state
      = (Demo.state, errorHandler e) /\
    res_status (errorHandler e) = 400.
Proof.
  apply (create_goal_rejects_bad_title Demo.later Demo.idA (Demo.onlyTitle "   ") Demo.state).
  right. right. exists "   ". split; [reflexivity|]. left. reflexivity.
Defined.

(** The owner marks "Run 5k" as completed. *)
Lemma partial_update_frame_witness :
  exists st' g',
    updateGoal Demo.later Demo.idA Demo.hexGoal (Demo.onlyStatus "completed") Demo.state
      = (st', Respond (mkResponse 200 (JsonGoal g'))) /\
    Goal_findOne Demo.idGoal Demo.idA (goals st') = Some g' /\
    statusName (goal_status g') = "completed" /\
    goal_title g' = "Run 5k" /\
    goal_description g' = None /\
    goal_targetDate g' = None.
Proof.
  apply (proj1 (partial_update_frame Demo.later Demo.idA Demo.hexGoal Demo.idGoal
                  (Demo.onlyStatus "completed") Demo.state Demo.theGoal
                  eq_refl eq_refl) "completed").
  - reflexivity.
  - right. reflexivity.
Defined.

(** The owner changes title and target date at once. *)
Lemma update_goal_succeeds_witness :
  let body := mkGoalBody (Val " Run 10k ") Absent Absent (Val "2025-06-01T00:00:00.000Z") in
  exists st' g' g0,
    unguarded (updateGoal Demo.later Demo.idA Demo.hexGoal body) Demo.state
      = (st', mkResponse 200 (JsonGoal g')) /\
    goal_id g' = Demo.idGoal /\ goal_userId g' = Demo.idA /\
    Goal_findOne Demo.idGoal Demo.idA (goals st') = Some g' /\
    users st' = users Demo.state /\ progresses st' = progresses Demo.state /\
    Goal_findOne Demo.idGoal Demo.idA (goals Demo.state) = Some g0 /\
    (NoDup (map goal_id (goals Demo.state)) -> g0 = Demo.theGoal) /\
    updatedBy Demo.later body g0 g'.
Proof.
  apply (update_goal_succeeds Demo.later Demo.idA Demo.hexGoal Demo.idGoal
           (mkGoalBody (Val " Run 10k ") Absent Absent (Val "2025-06-01T00:00:00.000Z"))
           Demo.state Demo.theGoal).
  - reflexivity.
  - exact Demo_goal_stored.
  - reflexivity.
  - reflexivity.
  - left. discriminate.
  - repeat split.
    + discriminate.
    + simpl. lia.
    + right. eexists. reflexivity.
Defined.

(** What the update of the witness stores and returns. *)
Example owner_update_stores_new_values :
  unguarded (updateGoal Demo.later Demo.idA Demo.hexGoal
               (mkGoalBody (Val " Run 10k ") Absent Absent
                           (Val "2025-06-01T00:00:00.000Z")))
            Demo.state
    = (withGoals Demo.state
         [mkGoal Demo.idGoal Demo.idA "Run 10k" None Active (Some 1748736000000%Z)
                 3000 7000],
       mkResponse 200
         (JsonGoal (mkGoal Demo.idGoal Demo.idA "Run 10k" None Active
                           (Some 1748736000000%Z) 3000 7000))).
Proof. reflexivity. Qed.

(** The invariant on the state the history leads to. *)
Lemma progress_ownership_invariant_witness :
  (forall p, In p (progresses Demo.state) ->
     (exists g, In g (goals Demo.state) /\ goal_id g = progress_goalId p) /\
     (forall g, In g (goals Demo.state) -> goal_id g = progress_goalId p ->
                goal_userId g = progress_userId p)) /\
  (forall env req, Reachable (fst (handle env req Demo.state))) /\
  (forall env req p p',
     In p (progresses Demo.state) -> In p' (progresses (fst (handle env req Demo.state))) ->
     progress_id p' = progress_id p -> p' = p) /\
  (forall env u goalId body st' p,
     logProgress env u goalId body Demo.state
       = (st', Respond (mkResponse 201 (JsonProgress p))) ->
     progress_userId p = u /\
     castObjectId goalId = Some (progress_goalId p) /\
     (exists g, Goal_findOne (progress_goalId p) u (goals Demo.state) = Some g) /\
     progresses st' = progresses Demo.state ++ [p] /\ goals st' = goals Demo.state).
Proof.
  exact (progress_ownership_invariant Demo.state Demo_state_Reachable).
Defined.

(** The owner deletes "Run 5k" and its three entries go with it. *)
Lemma delete_goal_cascade_witness :
  exists st',
    unguarded (deleteGoal Demo.idA Demo.hexGoal) Demo.state = (st', mkResponse 204 NoBody) /\
    (forall p, In p (progresses st') -> progress_goalId p <> Demo.idGoal) /\
    filter (fun p => negb (N.eqb (progress_goalId p) Demo.idGoal)) (progresses st')
      = filter (fun p => negb (N.eqb (progress_goalId p) Demo.idGoal))
               (progresses Demo.state) /\
    (forall p, In p (progresses st') -> In p (progresses Demo.state)) /\
    (forall g', In g' (goals st') -> goal_id g' <> Demo.idGoal) /\
    users st' = users Demo.state.
Proof.
  apply (delete_goal_cascade Demo.idA Demo.hexGoal Demo.idGoal Demo.state Demo.theGoal).
  - exact Demo_state_Reachable.
  - reflexivity.
  - exact Demo_goal_stored.
  - reflexivity.
  - reflexivity.
Defined.

(** The owner lists the three entries of "Run 5k". *)
Lemma list_progress_sorted_witness :
  exists l,
    unguarded (getGoalProgress Demo.idA Demo.hexGoal) Demo.state
      = (Demo.state, mkResponse 200 (JsonProgressLogs l)) /\
    Permutation l (filter (fun p => N.eqb (progress_goalId p) Demo.idGoal)
                          (progresses Demo.state)) /\
    StronglySorted dateDescThenCreatedDesc l.
Proof.
  apply (list_progress_sorted Demo.idA Demo.hexGoal Demo.idGoal Demo.state Demo.theGoal).
  - exact Demo_state_Reachable.
  - reflexivity.
  - exact Demo_goal_stored.
  - reflexivity.
  - reflexivity.
Defined.

(** Account B reads A's goal. *)
Lemma foreign_goal_is_not_found_witness :
  res_status (snd (unguarded (getGoalById Demo.idB Demo.hexGoal) Demo.state)) = 404.
Proof.
  assert (Hforeign : goal_userId Demo.theGoal <> Demo.idB) by discriminate.
  exact (proj1 (proj1 (foreign_goal_is_not_found Demo.later Demo.state Demo.idB
                         Demo.hexGoal Demo.idGoal Demo.theGoal
                         (Demo.onlyStatus "completed") (mkProgressBody Absent Absent Absent)
                         Demo_state_Reachable eq_refl Demo_goal_stored eq_refl Hforeign))).
Defined.

(** * Where the stated claims fail *)

(** C1 as stated fails: account B's PUT with an empty body on A's goal is
    answered 400 "No update fields provided.", not 404. *)
Lemma foreign_update_empty_body_is_400 :
  Reachable Demo.state /\
  castObjectId Demo.hexGoal = Some Demo.idGoal /\
  In Demo.theGoal (goals Demo.state) /\
  goal_id Demo.theGoal = Demo.idGoal /\
  goal_userId Demo.theGoal = Demo.idA /\ Demo.idA <> Demo.idB /\
  protect Demo.later (Some "Bearer token-B") Demo.state = Attach Demo.idB /\
  handle Demo.later (PUT_goals_id (Some "Bearer token-B") Demo.hexGoal Demo.emptyBody)
         Demo.state
    = (Demo.state,
       mkResponse 400 (JsonError "No update fields provided."
                                 (Some "goal.controller.js:155"))) /\
  res_status (snd (handle Demo.later
                     (PUT_goals_id (Some "Bearer token-B") Demo.hexGoal Demo.emptyBody)
                     Demo.state)) <> 404.
Proof.
  split; [exact Demo_state_Reachable|].
  repeat split; try reflexivity; try discriminate.
  exact Demo_goal_stored.
Qed.

(** C4 as stated fails: a login whose password is the empty string is
    answered 400 "Email and password are required.", whether the email is
    unknown or known with a password that does not match. *)
Lemma login_empty_password_is_400 :
  lookupAccount (Demo.creds "nobody@x.com" EmptyString) Demo.state = None /\
  res_status (snd (handle Demo.later
                     (POST_auth_login (Demo.creds "nobody@x.com" EmptyString))
                     Demo.state)) = 400 /\
  lookupAccount (Demo.creds "a@x.com" EmptyString) Demo.state
    = Some (mkUser Demo.idA "a@x.com" "hashed:password1") /\
  comparePassword (mkUser Demo.idA "a@x.com" "hashed:password1") EmptyString = false /\
  res_status (snd (handle Demo.later
                     (POST_auth_login (Demo.creds "a@x.com" EmptyString))
                     Demo.state)) = 400 /\
  ~ (res_status (snd (handle Demo.later
                        (POST_auth_login (Demo.creds "nobody@x.com" EmptyString))
                        Demo.state)) = 401).
Proof. repeat split; try reflexivity. discriminate. Qed.

(** C7 as stated fails: the owner's PUT with the empty subset of fields is
    answered 400 "No update fields provided.", not 200. *)
Lemma owner_update_empty_body_is_400 :
  castObjectId Demo.hexGoal = Some Demo.idGoal /\
  In Demo.theGoal (goals Demo.state) /\
  goal_id Demo.theGoal = Demo.idGoal /\ goal_userId Demo.theGoal = Demo.idA /\
  validUpdateBody Demo.emptyBody /\
  protect Demo.later (Some "Bearer token-A") Demo.state = Attach Demo.idA /\
  handle Demo.later (PUT_goals_id (Some "Bearer token-A") Demo.hexGoal Demo.emptyBody)
         Demo.state
    = (Demo.state,
       mkResponse 400 (JsonError "No update fields provided."
                                 (Some "goal.controller.js:155"))) /\
  res_status (snd (handle Demo.later
                     (PUT_goals_id (Some "Bearer token-A") Demo.hexGoal Demo.emptyBody)
                     Demo.state)) <> 200.
Proof.
  repeat split; try reflexivity; try discriminate.
  exact Demo_goal_stored.
Qed.

(** C8 as stated fails: a 151-character title whose last character is a
    space is trimmed to 150 characters, passes validation, and the goal is
    created with 201. *)
Lemma padded_title_is_created :
  String.length Demo.paddedTitle = 151 /\
  String.length (trim Demo.paddedTitle) = 150 /\
  (exists st' g,
     handle Demo.later (POST_goals (Some "Bearer token-A") (Demo.onlyTitle Demo.paddedTitle))
            Demo.state
       = (st', mkResponse 201 (JsonGoal g)) /\
     goal_title g = trim Demo.paddedTitle /\
     goals st' = goals Demo.state ++ [g]) /\
  res_status (snd (handle Demo.later
                     (POST_goals (Some "Bearer token-A") (Demo.onlyTitle Demo.paddedTitle))
                     Demo.state)) <> 400.
Proof.
  split; [reflexivity|]. split; [reflexivity|]. split.
  - eexists _, _. split; [vm_compute; reflexivity|]. split; reflexivity.
  - vm_compute. discriminate.
Qed.

(** * The further properties on the concrete history *)

Lemma gate_attaches_existing_account_witness :
  (exists user, In user (users Demo.state) /\ user_id user = Demo.idA) /\
  (exists token s,
     extractToken (Some "Bearer token-A") = Some token /\
     jwt_verify token (now Demo.later) = JwtDecoded (Val s) /\
     castObjectId s = Some Demo.idA).
Proof.
  exact (gate_attaches_existing_account Demo.later (Some "Bearer token-A") Demo.state
           Demo.idA eq_refl).
Defined.

Lemma interceptor_header_round_trip_witness :
  extractToken (requestInterceptor (Some "token-A")) = Some "token-A" /\
  requestInterceptor None = None.
Proof.
  split.
  - apply (proj1 (interceptor_header_round_trip (Some "token-A")) "token-A").
    + reflexivity.
    + discriminate.
    + reflexivity.
  - apply (proj2 (interceptor_header_round_trip None)). left. reflexivity.
Defined.

Lemma issued_token_passes_gate_witness :
  protect Demo.later
          (requestInterceptor (Some (generateToken (mkEnv 1000 Demo.idA 999) Demo.idA)))
          Demo.state
    = Attach Demo.idA.
Proof.
  apply (issued_token_passes_gate (mkEnv 1000 Demo.idA 999) Demo.later Demo.state
           Sample.accountA).
  - left. reflexivity.
  - discriminate.
  - reflexivity.
  - exists Demo.hexA. split; reflexivity.
Defined.

Lemma register_succeeds_witness :
  registerUser Sample.carolEnv Sample.carol Demo.state =
    (withUsers Demo.state
       (users Demo.state ++ [mkUser 3 "carol@x.com" (bcrypt_hash "password3")]),
     Respond (mkResponse 201 (JsonToken (generateToken Sample.carolEnv 3)))).
Proof.
  apply (register_succeeds Sample.carolEnv " Carol@X.com " "password3" Demo.state).
  - split; [reflexivity | simpl; lia].
  - intros u [<- | [<- | []]]; discriminate.
  - intros u [<- | [<- | []]]; discriminate.
Defined.

Lemma register_then_login_witness :
  loginUser Demo.later (Demo.creds " CAROL@x.com " "password3")
            (fst (registerUser Sample.carolEnv Sample.carol Demo.state))
    = (fst (registerUser Sample.carolEnv Sample.carol Demo.state),
       Respond (mkResponse 200 (JsonToken (generateToken Demo.later 3)))).
Proof.
  apply (register_then_login Sample.carolEnv Demo.later Sample.carol Demo.state
           (fst (registerUser Sample.carolEnv Sample.carol Demo.state))
           (mkResponse 201 (JsonToken (generateToken Sample.carolEnv 3)))
           " CAROL@x.com ").
  - intros q. simpl. apply String.eqb_refl.
  - reflexivity.
  - reflexivity.
Defined.

Lemma register_twice_conflict_witness :
  registerUser Demo.later (Demo.creds " CAROL@X.COM " "another-password")
               (fst (registerUser Sample.carolEnv Sample.carol Demo.state))
    = (fst (registerUser Sample.carolEnv Sample.carol Demo.state),
       Next (mkError (Some 409) "Email already in use." "auth.controller.js:66")).
Proof.
  apply (register_twice_conflict Sample.carolEnv Demo.later Sample.carol Demo.state
           (fst (registerUser Sample.carolEnv Sample.carol Demo.state))
           (mkResponse 201 (JsonToken (generateToken Sample.carolEnv 3)))
           " CAROL@X.COM " "another-password").
  - reflexivity.
  - reflexivity.
  - discriminate.
Defined.

Lemma register_rejects_invalid_witness :
  exists err,
    registerUser Sample.carolEnv (Demo.creds "carol at x.com" "password3") Demo.state
      = (Demo.state, Next err) /\
    err_statusCode err = Some 400 /\ res_status (errorHandler err) = 400.
Proof.
  apply (register_rejects_invalid Sample.carolEnv
           (Demo.creds "carol at x.com" "password3") Demo.state).
  right. right. exists "carol at x.com", "password3".
  split; [reflexivity|]. split; [discriminate|]. split; [discriminate|].
  split; [reflexivity|]. left. reflexivity.
Defined.

(** Letter case beyond ASCII: the account registered with a capital E
    acute is stored with the small one; it logs in under the other
    spelling, which cannot register again.  The multiplication sign (215)
    is no letter. *)
Example latin1_letter_case :
  let st' := fst (registerUser Sample.carolEnv (Demo.creds Sample.ericUpper "password3")
                               Demo.state) in
  toLowerCase Sample.ericUpper = Sample.ericLower /\
  lowerChar "215"%char = "215"%char /\
  map user_email (users st') = ["a@x.com"; "b@x.com"; Sample.ericLower] /\
  res_status (settle (snd (loginUser Demo.later (Demo.creds Sample.ericLower "password3")
                                     st'))) = 200 /\
  res_status (settle (snd (registerUser Demo.later
                                        (Demo.creds Sample.ericLower "password4") st'))) = 409.
Proof. vm_compute. repeat split. Qed.

Lemma accounts_invariant_witness :
  AccountsInvariant Demo.state /\
  (forall u1 u2, In u1 (users Demo.state) -> In u2 (users Demo.state) ->
                 toLowerCase (user_email u1) = toLowerCase (user_email u2) -> u1 = u2).
Proof. exact (accounts_invariant Demo.state Demo_state_Reachable). Defined.

Lemma getGoals_lists_own_goals_witness :
  exists l,
    getGoals Demo.idA Demo.state
      = (Demo.state, Respond (mkResponse 200 (JsonGoals l))) /\
    Permutation l (filter (fun g => N.eqb (goal_userId g) Demo.idA) (goals Demo.state)) /\
    StronglySorted newestFirst l /\
    (forall g, In g l <-> In g (goals Demo.state) /\ goal_userId g = Demo.idA).
Proof. exact (getGoals_lists_own_goals Demo.idA Demo.state). Defined.

Lemma createGoal_succeeds_witness :
  exists g,
    createGoal Demo.later Demo.idB Sample.swim Demo.state
      = (withGoals Demo.state (goals Demo.state ++ [g]),
         Respond (mkResponse 201 (JsonGoal g))) /\
    goal_id g = 64%N /\ goal_userId g = Demo.idB /\
    (forall t, Val " Swim " = Val t -> goal_title g = trim t) /\
    (Val "completed" = @Absent string -> goal_status g = Active) /\
    (forall s, Val "completed" = Val s -> statusName (goal_status g) = s) /\
    (Val "laps" = @Absent string -> goal_description g = None) /\
    goal_createdAt g = 7000%Z /\ goal_updatedAt g = 7000%Z.
Proof.
  apply (createGoal_succeeds Demo.later Demo.idB Sample.swim Demo.state).
  - split; [|split; [|split]].
    + exists " Swim ". split; [reflexivity|]. split; [discriminate | simpl; lia].
    + unfold validDescription. simpl. lia.
    + right. exists "completed". split; [reflexivity|]. right. reflexivity.
    + right. eexists. reflexivity.
  - intros g [<- | []]. discriminate.
Defined.

Lemma create_then_read_witness :
  let st' := fst (createGoal Demo.later Demo.idB (Demo.onlyTitle "Swim") Demo.state) in
  getGoalById Demo.idB Sample.hexLater st'
    = (st', Respond (mkResponse 200 (JsonGoal Sample.swimOfB))) /\
  In Sample.swimOfB (Goal_find_sorted Demo.idB (goals st')) /\
  (forall v, v <> Demo.idB ->
     getGoalById v Sample.hexLater st'
       = (st', Next (mkError (Some 404) "Goal not found." "goal.controller.js:107"))).
Proof.
  apply (create_then_read Demo.later Demo.idB (Demo.onlyTitle "Swim") Demo.state
           (fst (createGoal Demo.later Demo.idB (Demo.onlyTitle "Swim") Demo.state))
           Sample.swimOfB Sample.hexLater).
  - reflexivity.
  - reflexivity.
Defined.

Lemma malformed_id_rejected_witness :
  getGoalById Demo.idA "run-5k" Demo.state
    = (Demo.state, Next (invalidIdError "goal.controller.js:98")) /\
  deleteGoal Demo.idA "run-5k" Demo.state
    = (Demo.state, Next (invalidIdError "goal.controller.js:197")).
Proof.
  assert (Hbad : malformedId "run-5k") by (left; simpl; lia).
  destruct (malformed_id_rejected Demo.later Demo.idA "run-5k" Demo.emptyBody
              Sample.easyEntry Demo.state Hbad) as (H1 & _ & H3 & _).
  split; [exact H1 | exact H3].
Defined.

Lemma createGoal_rejects_invalid_fields_witness :
  exists err,
    createGoal Demo.later Demo.idA
               (mkGoalBody (Val "Swim") Absent (Val "paused") Absent) Demo.state
      = (Demo.state, Next err) /\
    err_statusCode err = Some 400 /\ res_status (errorHandler err) = 400.
Proof.
  apply (createGoal_rejects_invalid_fields Demo.later Demo.idA
           (mkGoalBody (Val "Swim") Absent (Val "paused") Absent) Demo.state).
  - reflexivity.
  - right. right. left. exists "paused". split; [reflexivity|].
    intros [H | H]; discriminate.
Defined.

Lemma update_preserves_identity_witness :
  let st' := fst (updateGoal Demo.later Demo.idA Demo.hexGoal (Demo.onlyStatus "completed")
                             Demo.state) in
  goal_updatedAt Sample.runCompleted = now Demo.later /\
  map goal_id (goals st') = map goal_id (goals Demo.state) /\
  users st' = users Demo.state /\ progresses st' = progresses Demo.state.
Proof.
  destruct (update_preserves_identity Demo.later Demo.idA Demo.hexGoal
              (Demo.onlyStatus "completed") Demo.state
              (fst (updateGoal Demo.later Demo.idA Demo.hexGoal
                               (Demo.onlyStatus "completed") Demo.state))
              Sample.runCompleted eq_refl) as (_ & H2 & H3 & _ & _ & H6 & H7).
  repeat split; assumption.
Defined.

Lemma logProgress_succeeds_witness :
  exists p,
    logProgress Demo.later Demo.idA Demo.hexGoal Sample.easyEntry Demo.state
      = (withProgresses Demo.state (progresses Demo.state ++ [p]),
         Respond (mkResponse 201 (JsonProgress p))) /\
    progress_id p = 64%N /\ progress_goalId p = Demo.idGoal /\
    progress_userId p = Demo.idA /\
    (@Absent string = Absent -> progress_date p = 6999%Z) /\
    (forall s, @Absent string = Val s -> castDate s = Some (progress_date p)) /\
    (forall s, Val " easy " = Val s -> progress_notes p = Some (trim s)) /\
    (forall v, Val Sample.threeAndAHalf = Val v -> progress_value p = Some v) /\
    (Val Sample.threeAndAHalf = Absent \/ Val Sample.threeAndAHalf = Null ->
     progress_value p = None) /\
    progress_createdAt p = 7000%Z /\ progress_updatedAt p = 7000%Z.
Proof.
  apply (logProgress_succeeds Demo.later Demo.idA Demo.hexGoal Demo.idGoal
           Sample.easyEntry Demo.state Demo.theGoal).
  - reflexivity.
  - exact Demo_goal_stored.
  - reflexivity.
  - reflexivity.
  - split; [left; reflexivity | simpl; lia].
  - intros q [<- | [<- | [<- | []]]]; discriminate.
Defined.

Lemma log_then_list_witness :
  let st' := fst (logProgress Demo.later Demo.idA Demo.hexGoal Sample.easyEntry
                              Demo.state) in
  exists l,
    getGoalProgress Demo.idA Demo.hexGoal st'
      = (st', Respond (mkResponse 200 (JsonProgressLogs l))) /\
    In Sample.easyProgress l /\
    StronglySorted dateDescThenCreatedDesc l /\
    length l = 4.
Proof.
  apply (log_then_list Demo.later Demo.idA Demo.hexGoal Sample.easyEntry Demo.state
           (fst (logProgress Demo.later Demo.idA Demo.hexGoal Sample.easyEntry Demo.state))
           Sample.easyProgress).
  reflexivity.
Defined.

Lemma logProgress_rejects_invalid_entry_witness :
  exists err,
    logProgress Demo.later Demo.idA Demo.hexGoal
                (mkProgressBody (Val "yesterday") Absent Absent) Demo.state
      = (Demo.state, Next err) /\
    err_statusCode err = Some 400 /\ res_status (errorHandler err) = 400.
Proof.
  apply (logProgress_rejects_invalid_entry Demo.later Demo.idA Demo.hexGoal Demo.idGoal
           (mkProgressBody (Val "yesterday") Absent Absent) Demo.state Demo.theGoal).
  - reflexivity.
  - exact Demo_goal_stored.
  - reflexivity.
  - reflexivity.
  - right. right. right. exists "yesterday".
    split; [reflexivity|]. split; [discriminate | reflexivity].
Defined.

Lemma delete_then_not_found_witness :
  let st' := fst (deleteGoal Demo.idA Demo.hexGoal Demo.state) in
  getGoalById Demo.idA Demo.hexGoal st'
    = (st', Next (mkError (Some 404) "Goal not found." "goal.controller.js:107")) /\
  getGoalProgress Demo.idA Demo.hexGoal st'
    = (st', Next (mkError (Some 404) "Target goal not found." "goal.controller.js:295")).
Proof.
  destruct (delete_then_not_found Demo.later Demo.idA Demo.hexGoal Sample.easyEntry
              Demo.state (fst (deleteGoal Demo.idA Demo.hexGoal Demo.state))
              Demo_state_Reachable eq_refl) as (H1 & H2 & _).
  split; [exact H1 | exact H2].
Defined.

Lemma other_accounts_untouched_witness :
  OthersUntouched Demo.idB Demo.state
    (fst (handle Demo.later
            (DELETE_goals_id (Some "Bearer token-B") Demo.hexGoal) Demo.state)).
Proof.
  apply (other_accounts_untouched Demo.later
           (DELETE_goals_id (Some "Bearer token-B") Demo.hexGoal)
           (Some "Bearer token-B") Demo.idB Demo.state).
  - reflexivity.
  - reflexivity.
Defined.

Lemma only_authenticated_requests_write_witness :
  exists a u user,
    authorizationOf (POST_goals (Some "Bearer token-A") (Demo.onlyTitle "Swim")) = Some a /\
    protect Demo.later a Demo.state = Attach u /\
    In user (users Demo.state) /\ user_id user = u.
Proof.
  apply (only_authenticated_requests_write Demo.later
           (POST_goals (Some "Bearer token-A") (Demo.onlyTitle "Swim")) Demo.state).
  left. vm_compute. discriminate.
Defined.

Lemma response_contract_witness :
  In (res_status (snd (handle Demo.later (GET_goals None) Demo.state))) statusCodes /\
  (isErrorBody (res_body (snd (handle Demo.later (GET_goals None) Demo.state))) = true
   <-> 400 <= res_status (snd (handle Demo.later (GET_goals None) Demo.state))) /\
  (development = false ->
   errorShape (res_body (snd (handle Demo.later (GET_goals None) Demo.state)))
     <> Some true).
Proof. exact (response_contract Demo.later (GET_goals None) Demo.state). Defined.


Lemma authForm_submits_present_credentials_witness :
  Demo.creds "me and a@x.com" "password1" = Demo.creds "me and a@x.com" "password1" /\
  credentialsPresent (Demo.creds "me and a@x.com" "password1") /\
  checkPassword "password1" = inr "password1" /\
  trim "me and a@x.com" <> EmptyString /\ emailSomewhere "me and a@x.com" = true.
Proof.
  exact (authForm_submits_present_credentials "me and a@x.com" "password1"
           (Demo.creds "me and a@x.com" "password1") eq_refl).
Defined.

Lemma goalForm_submission_is_accepted_witness :
  exists g,
    createGoal Demo.later Demo.idB
               (mkGoalBody (Val " Swim ") (Val EmptyString) Absent Absent) Demo.state
      = (withGoals Demo.state (goals Demo.state ++ [g]),
         Respond (mkResponse 201 (JsonGoal g))) /\
    goal_userId g = Demo.idB /\ goal_title g = "Swim" /\
    goal_description g = Some EmptyString /\ goal_status g = Active.
Proof.
  apply (goalForm_submission_is_accepted Demo.later Demo.idB " Swim " EmptyString
           (mkGoalBody (Val " Swim ") (Val EmptyString) Absent Absent) Demo.state).
  - reflexivity.
  - simpl. lia.
  - simpl. lia.
  - intros g [<- | []]. discriminate.
Defined.

Lemma client_sort_keeps_server_order_witness :
  sortLogs (Progress_find_sorted Demo.idGoal Demo.idA (progresses Demo.state))
    = Progress_find_sorted Demo.idGoal Demo.idA (progresses Demo.state) /\
  StronglySorted laterDateFirst
    (Progress_find_sorted Demo.idGoal Demo.idA (progresses Demo.state)).
Proof.
  exact (client_sort_keeps_server_order Demo.idA Demo.hexGoal Demo.state Demo.state
           (Progress_find_sorted Demo.idGoal Demo.idA (progresses Demo.state)) eq_refl).
Defined.

Lemma session_invariant_witness :
  let s := fold_left authStep Sample.session (AuthProvider_initial (Some "token-A")) in
  (auth_isAuthenticated s = true <->
   exists t, t <> EmptyString /\ auth_token s = Some t /\ stored_authToken s = Some t /\
             auth_error s = None) /\
  (auth_isAuthenticated s = false -> auth_token s = None) /\
  (auth_error s <> None -> stored_authToken s = None /\ auth_isAuthenticated s = false).
Proof. exact (session_invariant (Some "token-A") Sample.session). Defined.
